(** * upyun REST client: resumable upload, listing traversal, purge

    A shallow embedding of [upyun/upyun-rest-api.go].  Go maps are reference
    values, so the [map[string]string] header maps live in a store and are
    passed around by location.  Everything the file calls but does not define
    (the HTTP dispatch, the clock, the file system, the digest helpers, the
    package constants) is a field of an environment record; the functions
    that answer for the outside world see the whole history of events. *)

From Stdlib Require Import ZArith String Ascii List Lia Bool.
From stdpp Require Import base option list gmap strings pretty fin_maps.

Local Open Scope string_scope.
Local Open Scope list_scope.
Local Open Scope Z_scope.

(** ** Go integers *)

(** [int] and [int64] are both 64 bits wide on the platforms the client is
    built for; arithmetic wraps around. *)
Definition int_min : Z := - 2 ^ 63.
Definition int_max : Z := 2 ^ 63 - 1.
Definition wrap (z : Z) : Z := (z + 2 ^ 63) mod 2 ^ 64 - 2 ^ 63.

(** [strconv.Itoa], [strconv.FormatInt (_, 10)] and [fmt.Sprint] of an integer. *)
Definition itoa (z : Z) : string := pretty z.

(** ** The functions of package [strings] and [path] that the client uses *)

Definition slash : ascii := "/"%char.
Definition newline : ascii := ascii_of_nat 10.

Fixpoint HasPrefix (s p : string) : bool :=
  match p, s with
  | EmptyString, _ => true
  | String a p', String b s' => Ascii.eqb a b && HasPrefix s' p'
  | String _ _, EmptyString => false
  end.

Fixpoint string_drop (n : nat) (s : string) : string :=
  match n, s with
  | O, _ => s
  | S n', String _ s' => string_drop n' s'
  | S _, EmptyString => EmptyString
  end.

Definition HasSuffix (s suf : string) : bool :=
  (String.length suf <=? String.length s)%nat
  && String.eqb (string_drop (String.length s - String.length suf) s) suf.

Fixpoint Contains (s sub : string) : bool :=
  HasPrefix s sub
  || match s with
     | EmptyString => false
     | String _ s' => Contains s' sub
     end.

(** [strings.Replace (s, old, new, 1)]: the leftmost occurrence only. *)
Fixpoint Replace1 (s old new : string) : string :=
  if HasPrefix s old then new +:+ string_drop (String.length old) s
  else match s with
       | EmptyString => EmptyString
       | String c s' => String c (Replace1 s' old new)
       end.

(** [strings.Split (s, sep)] for a one-byte separator. *)
Fixpoint Split (sep : ascii) (s : string) : list string :=
  match s with
  | EmptyString => [EmptyString]
  | String c s' =>
      if Ascii.eqb c sep then EmptyString :: Split sep s'
      else match Split sep s' with
           | x :: xs => String c x :: xs
           | [] => [String c EmptyString]
           end
  end.

Fixpoint Join (l : list string) (sep : string) : string :=
  match l with
  | [] => EmptyString
  | [x] => x
  | x :: rest => x +:+ sep +:+ Join rest sep
  end.

(** One step of [path.Clean] on the elements kept so far (innermost first). *)
Definition clean_step (rooted : bool) (stack : list string) (c : string) : list string :=
  if String.eqb c "" || String.eqb c "." then stack
  else if String.eqb c ".." then
    match stack with
    | top :: rest => if String.eqb top ".." then c :: stack else rest
    | [] => if rooted then [] else [c]
    end
  else c :: stack.

(** [path.Clean]: empty and [.] elements dropped, [..] cancelled against the
    element before it, [..] at the root dropped, [.] for an empty result. *)
Definition Clean (p : string) : string :=
  let rooted := HasPrefix p "/" in
  let stack := fold_left (clean_step rooted) (Split slash p) [] in
  let out := (if rooted then "/" else "") +:+ Join (rev stack) "/" in
  if String.eqb out "" then "." else out.

(** [path.Join]: the elements from the first non-empty one on, joined and cleaned. *)
Fixpoint path_Join (elem : list string) : string :=
  match elem with
  | [] => EmptyString
  | e :: rest => if String.eqb e "" then path_Join rest else Clean (Join elem "/")
  end.

(** A single path element: not empty, not [.] or [..], without a separator. *)
Fixpoint has_slash (s : string) : bool :=
  match s with
  | EmptyString => false
  | String c s' => Ascii.eqb c slash || has_slash s'
  end.

Definition simple (c : string) : bool :=
  negb (String.eqb c "") && negb (String.eqb c ".") && negb (String.eqb c "..")
  && negb (has_slash c).

(** The directory path made of the elements [comps], each followed by a
    separator. *)
Fixpoint dir_of (comps : list string) : string :=
  match comps with
  | [] => EmptyString
  | c :: rest => c +:+ "/" +:+ dir_of rest
  end.

(** A root key in clean form: single path elements, each followed by one
    separator, after an optional leading separator; not empty. *)
Definition canonical_root (key : string) : Prop :=
  exists (rooted : bool) (comps : list string),
    Forall (fun c => simple c = true) comps
    /\ key = (if rooted then "/" else "") +:+ dir_of comps
    /\ (rooted = true \/ comps <> []).

(** ** Errors, values, responses *)

(** A Go [error]; [err_net] says whether its dynamic type implements
    [net.Error] (what [err.(net.Error)] tests). *)
Record error := mkError { err_msg : string; err_net : bool }.

Definition errors_New (s : string) : error := mkError s false.

(** The dynamic types an [io.Reader] or [interface{}] argument takes here. *)
Inductive Value :=
| VFile (fd : nat)
| VFragment (fd : nat) (offset limit : Z)
| VBuffer (data : string)
| VStringReader (data : string)
| VWriter (id : nat).

Definition is_Reader (v : Value) : bool :=
  match v with VWriter _ => false | _ => true end.

Definition is_Writer (v : Value) : bool :=
  match v with VFile _ | VBuffer _ | VWriter _ => true | _ => false end.

(** [http.Header]; a nil header reads like the empty one, and the client only
    reads response headers. *)
Abbreviation Header := (gmap string (list string)).

(** [Header.Get]: the first value under the key.  The two keys the client
    asks for are already in canonical MIME form. *)
Definition Header_Get (h : Header) (k : string) : string :=
  match h !! k with
  | Some (v :: _) => v
  | _ => ""
  end.

(** An [*http.Response]: [Body] and [BodyErr] are what [ioutil.ReadAll] gives. *)
Record Response := mkResponse {
  StatusCode : Z;
  RespHeader : Header;
  Body : string;
  BodyErr : option error
}.

(** Modelled from the spec: the struct [FileInfo] is declared in another file
    of the package.  The listing code reads and writes [Name] and reads
    [Type]; a directory entry has, besides, a size and a timestamp. *)
Record FileInfo := mkFileInfo { fi_Name : string; fi_Type : string; fi_Size : Z; fi_Time : Z }.

Definition set_Name (f : FileInfo) (n : string) : FileInfo :=
  mkFileInfo n (fi_Type f) (fi_Size f) (fi_Time f).

(** ** Events and the environment *)

Inductive Event :=
| EvHTTP (method url : string) (headers : gmap string string) (body : option Value)
         (resp : option Response) (err : option error)
| EvStat (fd : nat) (res : Z + error)
| EvFileSeek (fd : nat) (off : Z)
| EvRead (v : Value) (data : string) (err : option error)
| EvMd5sum (v : Value) (hex : string)
| EvNewFragment (fd : nat) (offset limit : Z) (err : option error)
| EvFragmentMD5 (v : Value) (hex : string)
| EvFragmentSeek (v : Value) (off : Z)
| EvChunkedCopy (v : Value) (written : Z) (err : option error)
| EvSleep (d : Z)
| EvReport (part maxPart : Z)
| EvSendInfo (f : FileInfo)
| EvSendErr (e : error)
| EvCloseErr
| EvCloseInfo.

(** What the file uses and does not define.  The constants and variables
    [resumePartSize], [resumeFileSizeLowerLimit], [ResumeRetryCount] and
    [ResumeWaitTime], the helpers [md5Str], [escapeURI], [newFileInfo],
    [genRFC1123Date], [md5sum], [chunkedCopy], [doHTTPRequest] and the type
    [FragmentFile] with [NewFragmentFile], [MD5] and [Seek] belong to other
    files of the package; the rest is the Go library.  They are parameters
    here.  Whatever touches the network, the clock or a file answers as a
    function of the events so far. *)
Record Env := mkEnv {
  (* package constants and variables *)
  resumePartSize : Z;
  resumeFileSizeLowerLimit : Z;
  ResumeRetryCount : Z;
  ResumeWaitTime : Z;
  (* pure helpers of the package and of the Go library *)
  md5Str : string -> string;
  md5_hex : string -> string;
  escapeURI : string -> string;
  newFileInfo : string -> FileInfo;
  form_Encode : string -> string;
  json_Unmarshal : string -> option (gmap string (list string));
  (* the outside world, answering from the history of events *)
  doHTTPRequest : list Event -> string -> string -> gmap string string -> option Value ->
                  option Response * option error;
  genRFC1123Date : list Event -> string;
  os_Stat : list Event -> nat -> Z + error;
  os_Seek : list Event -> nat -> Z -> option error;
  io_Copy : list Event -> Value -> string * option error;
  md5sum : list Event -> Value -> string;
  NewFragmentFile : list Event -> nat -> Z -> Z -> option error;
  Fragment_MD5 : list Event -> Value -> string;
  chunkedCopy : list Event -> Value -> Response -> Z * option error
}.

(** The client value [*UpYun]; [endpoint] is a field of the embedded
    [upYunHTTPCore], which another file of the package declares. *)
Record UpYun := mkUpYun { endpoint : string; Bucket : string; Username : string; Passwd : string }.

(** ** Program state and the monad of the embedding *)

Record State := mkState { heap : gmap nat (gmap string string); trace : list Event }.

Inductive outcome (A : Type) :=
| Ok (a : A)
| Panic (msg : string)
| OutOfFuel.
Arguments Ok {A} a.
Arguments Panic {A} msg.
Arguments OutOfFuel {A}.

Definition M (A : Type) : Type := State -> State * outcome A.

Definition ret {A} (a : A) : M A := fun s => (s, Ok a).

Definition bind {A B} (m : M A) (k : A -> M B) : M B :=
  fun s => match m s with
           | (s1, Ok a) => k a s1
           | (s1, Panic msg) => (s1, Panic msg)
           | (s1, OutOfFuel) => (s1, OutOfFuel)
           end.

Definition panic {A} (msg : string) : M A := fun s => (s, Panic msg).

Notation "'let*' x ':=' m 'in' k" := (bind m (fun x => k))
  (at level 10, x pattern, m at level 100, k at level 200).
Notation "m ';;;' k" := (bind m (fun _ => k))
  (at level 100, k at level 200, right associativity).

Definition emit (e : Event) : M unit :=
  fun s => (mkState (heap s) (trace s ++ [e]), Ok tt).

(** [make(map[string]string)] *)
Definition make_map : M nat :=
  fun s => let l := fresh (dom (heap s)) in
           (mkState (<[l := ∅]> (heap s)) (trace s), Ok l).

Definition read_map (l : nat) : M (gmap string string) :=
  fun s => (s, Ok (default ∅ (heap s !! l))).

(** [m[k] = v] *)
Definition map_set (l : nat) (k v : string) : M unit :=
  fun s => (mkState (<[l := <[k := v]> (default ∅ (heap s !! l))]> (heap s)) (trace s), Ok tt).

(** [v, ok := m[k]] *)
Definition map_get (l : nat) (k : string) : M (option string) :=
  fun s => (s, Ok (default ∅ (heap s !! l) !! k)).

(** [for k, v := range src { dst[k] = v }] *)
Definition map_copy_into (src dst : nat) : M unit :=
  fun s => (mkState (<[dst := default ∅ (heap s !! src) ∪ default ∅ (heap s !! dst)]> (heap s))
                    (trace s), Ok tt).

(** [headers == nil] is replaced by a fresh map. *)
Definition or_make (headers : option nat) : M nat :=
  match headers with
  | Some l => ret l
  | None => make_map
  end.

(** ** [strconv.ParseInt (s, 10, 64)] and [strconv.Atoi] *)

Definition digit_of (c : ascii) : option Z :=
  let n := Z.of_nat (nat_of_ascii c) in
  if (48 <=? n) && (n <=? 57) then Some (n - 48) else None.

Fixpoint parse_digits (acc : Z) (s : string) : option Z :=
  match s with
  | EmptyString => Some acc
  | String c s' =>
      match digit_of c with
      | Some d => parse_digits (10 * acc + d) s'
      | None => None
      end
  end.

(** The [*strconv.NumError] of function [fn] on input [s]; the input is
    shown between quotes (the escapes of [strconv.Quote] are left out). *)
Definition NumError (fn s reason : string) : error :=
  let q := String (ascii_of_nat 34) EmptyString in
  mkError ("strconv." +:+ fn +:+ ": parsing " +:+ q +:+ s +:+ q +:+ ": " +:+ reason) false.

(** An optional sign, then one digit or more and nothing else; a value out
    of the range of [int64] is an error and comes back clamped. *)
Definition parse_int (fn s : string) : Z * option error :=
  match s with
  | EmptyString => (0, Some (NumError fn s "invalid syntax"))
  | String c rest =>
      let neg := Ascii.eqb c "-" in
      let digits := if Ascii.eqb c "+" || neg then rest else s in
      match digits with
      | EmptyString => (0, Some (NumError fn s "invalid syntax"))
      | _ =>
          match parse_digits 0 digits with
          | None => (0, Some (NumError fn s "invalid syntax"))
          | Some n =>
              if neg then
                if n <=? 2 ^ 63 then (- n, None)
                else (int_min, Some (NumError fn s "value out of range"))
              else
                if n <=? int_max then (n, None)
                else (int_max, Some (NumError fn s "value out of range"))
          end
      end
  end.

Definition ParseInt (s : string) : Z * option error := parse_int "ParseInt" s.
Definition Atoi (s : string) : Z * option error := parse_int "Atoi" s.

(** ** Example environments

    Small closed worlds on which the client can be run: a part size of 4
    bytes, chunking from 8 bytes on, two retries, a file of 10 bytes. *)

Definition ok_response : Response :=
  mkResponse 200 {[ "X-Upyun-Multi-Uuid" := ["tok"] ]} "" None.

Definition example_env (http : list Event -> string -> string -> gmap string string ->
                               option Value -> option Response * option error) : Env :=
  {| resumePartSize := 4;
     resumeFileSizeLowerLimit := 8;
     ResumeRetryCount := 2;
     ResumeWaitTime := 5;
     md5Str := fun s => "md5(" +:+ s +:+ ")";
     md5_hex := fun s => "md5(" +:+ s +:+ ")";
     escapeURI := fun s => s;
     newFileInfo := fun line =>
       match Split "|"%char line with
       | name :: type :: _ => mkFileInfo name type 0 0
       | _ => mkFileInfo line "file" 0 0
       end;
     form_Encode := fun s => "purge=" +:+ s;
     json_Unmarshal := fun _ => None;
     doHTTPRequest := http;
     genRFC1123Date := fun _ => "Sat, 31 Oct 2026 00:00:00 GMT";
     os_Stat := fun _ _ => inl 10;
     os_Seek := fun _ _ _ => None;
     io_Copy := fun _ _ => ("", None);
     md5sum := fun _ _ => "d41d8";
     NewFragmentFile := fun _ _ _ _ => None;
     Fragment_MD5 := fun _ _ => "d41d8";
     chunkedCopy := fun _ _ _ => (0, None) |}.

(** Every request is answered with 200 and a session token. *)
Definition env_ok : Env := example_env (fun _ _ _ _ _ => (Some ok_response, None)).

(** Every request fails in the network layer. *)
Definition timeout_error : error := mkError "i/o timeout" true.
Definition env_net : Env := example_env (fun _ _ _ _ _ => (None, Some timeout_error)).

(** Every request is answered with 403. *)
Definition forbidden : Response := mkResponse 403 ∅ "forbidden" None.
Definition env_403 : Env := example_env (fun _ _ _ _ _ => (Some forbidden, None)).

(** The dispatch fails and gives no response at all. *)
Definition env_down : Env :=
  example_env (fun _ _ _ _ _ => (None, Some (mkError "connection refused" true))).

Definition client : UpYun := mkUpYun "v0.api.upyun.com" "bucket" "user" "secret".

(** A store with one header map, at location 0, and no events yet. *)
Definition base0 : gmap string string := {[ "Content-Type" := "text/plain" ]}.
Definition state0 : State := mkState {[ 0%nat := base0 ]} [].

(** A listing server.  The directory [/a/] has two pages: a folder [d] and a
    file [x], then a file [y]; the last page carries the end-of-list cursor.
    The folder [/a/d/] is answered by [sub]. *)
Definition nl : string := String newline "".

Definition listing_response (body cursor : string) : Response :=
  mkResponse 200 {[ "X-Upyun-List-Iter" := [cursor] ]} body None.

Definition http_tree (sub : option Response * option error)
    (hist : list Event) (method url : string) (hd : gmap string string)
    (body : option Value) : option Response * option error :=
  if String.eqb url "http://v0.api.upyun.com/bucket/a/" then
    match hd !! "X-List-Iter" with
    | Some _ => (Some (listing_response ("y|file" +:+ nl) "g2gCZAAEbmV4dGQAA2VvZg"), None)
    | None => (Some (listing_response ("d|folder" +:+ nl +:+ "x|file" +:+ nl) "page2"), None)
    end
  else sub.

Definition env_tree : Env :=
  example_env (http_tree (Some (listing_response ("z|file" +:+ nl) ""), None)).

(** The same server, but the folder [/a/d/] cannot be listed. *)
Definition env_tree_fail : Env := example_env (http_tree (Some forbidden, None)).

(** Every directory lists one file [x] and ends the listing. *)
Definition flat_response : Response :=
  listing_response ("x|file" +:+ nl) "g2gCZAAEbmV4dGQAA2VvZg".
Definition env_flat : Env := example_env (fun _ _ _ _ _ => (Some flat_response, None)).

(** A store whose one map already has a content length, as the map of a
    part has when the retry loop starts. *)
Definition state_cl : State := mkState {[ 0%nat := {[ "Content-Length" := "4" ]} ]} [].

Definition entry_d : FileInfo := mkFileInfo "d" "folder" 0 0.
Definition entry_x : FileInfo := mkFileInfo "x" "file" 0 0.


(** Further worlds, in which the answers of [Stat], of a read to the end
    and of a copy into a writer are chosen as well. *)
Definition example_world (stat : Z + error) (copy : string * option error)
    (written : Z * option error)
    (http : list Event -> string -> string -> gmap string string ->
            option Value -> option Response * option error) : Env :=
  {| resumePartSize := 4;
     resumeFileSizeLowerLimit := 8;
     ResumeRetryCount := 2;
     ResumeWaitTime := 5;
     md5Str := fun s => "md5(" +:+ s +:+ ")";
     md5_hex := fun s => "md5(" +:+ s +:+ ")";
     escapeURI := fun s => s;
     newFileInfo := fun line =>
       match Split "|"%char line with
       | name :: type :: _ => mkFileInfo name type 0 0
       | _ => mkFileInfo line "file" 0 0
       end;
     form_Encode := fun s => "purge=" +:+ s;
     json_Unmarshal := fun _ => None;
     doHTTPRequest := http;
     genRFC1123Date := fun _ => "Sat, 31 Oct 2026 00:00:00 GMT";
     os_Stat := fun _ _ => stat;
     os_Seek := fun _ _ _ => None;
     io_Copy := fun _ _ => copy;
     md5sum := fun _ _ => "d41d8";
     NewFragmentFile := fun _ _ _ _ => None;
     Fragment_MD5 := fun _ _ => "d41d8";
     chunkedCopy := fun _ _ _ => written |}.

Definition always_ok (hist : list Event) (method url : string) (hd : gmap string string)
    (body : option Value) : option Response * option error :=
  (Some ok_response, None).

(** The file cannot be measured. *)
Definition no_such_file : error := mkError "stat k: no such file or directory" false.
Definition env_nofile : Env := example_world (inr no_such_file) ("", None) (0, None) always_ok.

(** A file of 5 bytes, below the chunking threshold; readers give [hello]. *)
Definition env_small : Env := example_world (inl 5) ("hello", None) (0, None) always_ok.

(** A copy into a writer moves 7 bytes. *)
Definition env_get : Env := example_world (inl 10) ("", None) (7, None) always_ok.

(** The usage of the bucket is 12345 bytes. *)
Definition usage_response : Response := mkResponse 200 ∅ "12345" None.
Definition env_usage : Env := example_env (fun _ _ _ _ _ => (Some usage_response, None)).

(** A client pointed at a host of its own. *)
Definition proxy_client : UpYun := mkUpYun "proxy.example.com" "bucket" "user" "secret".

(** A store whose one map gives the length and the digest of the content. *)
Definition full0 : gmap string string :=
  {[ "Content-Length" := "4"; "Content-MD5" := "0cc175b9" ]}.
Definition state_full : State := mkState {[ 0%nat := full0 ]} [].

(** The entry read from the headers of a response. *)
Definition info_of_header (h : Header) : FileInfo :=
  mkFileInfo "" (Header_Get h "X-Upyun-File-Type") 0 0.

(** The first page of the directory [/a/] of the listing server. *)
Definition page1 : Response :=
  listing_response ("d|folder" +:+ nl +:+ "x|file" +:+ nl) "page2".
(** ** The client *)

Section Client.

Variable env : Env.
Variable u : UpYun.

(** Calls into the outside world; each one is recorded. *)

Definition call_http (method url : string) (headers : nat) (body : option Value)
  : M (option Response * option error) :=
  fun s => let h := default ∅ (heap s !! headers) in
           let r := doHTTPRequest env (trace s) method url h body in
           (mkState (heap s) (trace s ++ [EvHTTP method url h body (fst r) (snd r)]), Ok r).

Definition call_date : M string :=
  fun s => (s, Ok (genRFC1123Date env (trace s))).

Definition call_Stat (fd : nat) : M (Z + error) :=
  fun s => let r := os_Stat env (trace s) fd in
           (mkState (heap s) (trace s ++ [EvStat fd r]), Ok r).

Definition call_Seek (fd : nat) (off : Z) : M (option error) :=
  fun s => let r := os_Seek env (trace s) fd off in
           (mkState (heap s) (trace s ++ [EvFileSeek fd off]), Ok r).

Definition call_io_Copy (v : Value) : M (string * option error) :=
  fun s => let r := io_Copy env (trace s) v in
           (mkState (heap s) (trace s ++ [EvRead v (fst r) (snd r)]), Ok r).

Definition call_md5sum (v : Value) : M string :=
  fun s => let r := md5sum env (trace s) v in
           (mkState (heap s) (trace s ++ [EvMd5sum v r]), Ok r).

Definition call_NewFragmentFile (fd : nat) (offset limit : Z) : M (option error) :=
  fun s => let r := NewFragmentFile env (trace s) fd offset limit in
           (mkState (heap s) (trace s ++ [EvNewFragment fd offset limit r]), Ok r).

Definition call_Fragment_MD5 (v : Value) : M string :=
  fun s => let r := Fragment_MD5 env (trace s) v in
           (mkState (heap s) (trace s ++ [EvFragmentMD5 v r]), Ok r).

Definition call_chunkedCopy (v : Value) (resp : Response) : M (Z * option error) :=
  fun s => let r := chunkedCopy env (trace s) v resp in
           (mkState (heap s) (trace s ++ [EvChunkedCopy v (fst r) (snd r)]), Ok r).

(** [makeRESTAuth] *)
Definition makeRESTAuth (method uri date lengthStr : string) : string :=
  let sign := [method; uri; date; lengthStr; md5Str env (Passwd u)] in
  "UpYun " +:+ Username u +:+ ":" +:+ md5Str env (Join sign "&").

(** [makePurgeAuth] *)
Definition makePurgeAuth (purgeList date : string) : string :=
  let sign := [purgeList; Bucket u; date; md5Str env (Passwd u)] in
  "UpYun " +:+ Bucket u +:+ ":" +:+ Username u +:+ ":" +:+ md5Str env (Join sign "&").

(** [doRESTRequest] *)
Definition doRESTRequest (method uri query : string) (headers : option nat)
    (value : option Value) : M (string * Header * option error) :=
  let* headers := or_make headers in
  let uri := if HasPrefix uri "/" then uri else "/" +:+ uri in
  let uri := escapeURI env ("/" +:+ Bucket u +:+ uri) in
  let url := "http://" +:+ endpoint u +:+ uri in
  let url := if String.eqb query "" then url else url +:+ "?" +:+ escapeURI env query in
  let* date := call_date in
  let* cl := map_get headers "Content-Length" in
  let lengthStr := default "0" cl in
  map_set headers "Date" date ;;;
  map_set headers "Authorization" (makeRESTAuth method uri date lengthStr) ;;;
  (if Contains (endpoint u) "api.upyun.com" then ret tt
   else map_set headers "Host" "v0.api.upyun.com") ;;;
  let rc := match value with
            | Some v => if is_Reader v && negb (String.eqb method "GET")
                           && negb (String.eqb method "HEAD")
                        then Some v else None
            | None => None
            end in
  let* (resp, err) := call_http method url headers rc in
  match err with
  | Some e => ret ("", ∅, Some e)
  | None =>
      match resp with
      | None => panic "nil pointer dereference"
      | Some resp =>
          if Z.quot (StatusCode resp) 100 =? 2 then
            match value with
            | Some v =>
                if String.eqb method "GET" then
                  if is_Writer v then
                    let* (written, err) := call_chunkedCopy v resp in
                    ret (itoa written, RespHeader resp, err)
                  else panic "interface conversion"
                else ret (Body resp, RespHeader resp, BodyErr resp)
            | None => ret (Body resp, RespHeader resp, BodyErr resp)
            end
          else
            match BodyErr resp with
            | None =>
                if (String.length (Body resp) =? 0)%nat
                then ret ("", RespHeader resp, Some (errors_New (itoa (StatusCode resp))))
                else ret ("", RespHeader resp, Some (errors_New (Body resp)))
            | Some e => ret ("", RespHeader resp, Some e)
            end
      end
  end.

(** [Put]; [inr] carries an early return. *)
Definition Put_content_length (value : Value) (headers : nat)
  : M (Value + (Header * option error)) :=
  let* cl := map_get headers "Content-Length" in
  match cl with
  | Some _ => ret (inl value)
  | None =>
      match value with
      | VFile fd =>
          let* st := call_Stat fd in
          match st with
          | inr err => ret (inr (∅, Some err))
          | inl size => map_set headers "Content-Length" (itoa size) ;;; ret (inl value)
          end
      | _ =>
          let* (data, err) := call_io_Copy value in
          match err with
          | Some e => ret (inr (∅, Some e))
          | None =>
              map_set headers "Content-Length" (itoa (Z.of_nat (String.length data))) ;;;
              ret (inl (VBuffer data))
          end
      end
  end.

Definition Put_content_md5 (value : Value) (useMD5 : bool) (headers : nat)
  : M (option (Header * option error)) :=
  let* md := map_get headers "Content-MD5" in
  match md with
  | Some _ => ret None
  | None =>
      if useMD5 then
        match value with
        | VFile fd =>
            let* (data, err) := call_io_Copy value in
            match err with
            | Some e => ret (Some (∅, Some e))
            | None =>
                map_set headers "Content-MD5" (md5_hex env data) ;;;
                let* serr := call_Seek fd 0 in
                match serr with
                | Some e => ret (Some (∅, Some e))
                | None => ret None
                end
            end
        | _ => ret None
        end
      else ret None
  end.

Definition Put (key : string) (value : Value) (useMD5 : bool) (headers : option nat)
  : M (Header * option error) :=
  let* headers := or_make headers in
  let* r := Put_content_length value headers in
  match r with
  | inr early => ret early
  | inl value =>
      let* r := Put_content_md5 value useMD5 headers in
      match r with
      | Some early => ret early
      | None =>
          let* (res, err) := doRESTRequest "PUT" key "" (Some headers) (Some value) in
          ret (snd res, err)
      end
  end.

(** How the retry loop of [ResumePut] ends: it falls out of the loop with the
    part sent, or it returns from [ResumePut]. *)
Inductive LoopExit :=
| LoopDone (resp : Header)
| LoopReturn (resp : Header) (err : option error).

(** [for i := 0; i < ResumeRetryCount+1; i++ { ... }]; [n] counts the
    iterations that the loop condition still allows. *)
Fixpoint retry_loop (n : nat) (i : Z) (key : string) (file : Value) (useMD5 : bool)
    (innerHeaders : nat) (resp : Header) : M LoopExit :=
  match n with
  | O => ret (LoopDone resp)
  | S n' =>
      let* (resp, err) := Put key file useMD5 (Some innerHeaders) in
      match err with
      | None => ret (LoopDone resp)
      | Some e =>
          if negb (err_net e) then ret (LoopReturn resp err)
          else if i =? ResumeRetryCount env then ret (LoopReturn resp err)
          else
            emit (EvSleep (ResumeWaitTime env)) ;;;
            emit (EvFragmentSeek file 0) ;;;
            retry_loop n' (wrap (i + 1)) key file useMD5 innerHeaders resp
      end
  end.

Definition retry_count : nat := Z.to_nat (wrap (ResumeRetryCount env + 1)).

(** The headers of one part, written into the fresh [innerHeaders]. *)
Definition part_headers (value : nat) (useMD5 : bool) (headers innerHeaders : nat)
    (size maxPartID part : Z) : M unit :=
  map_copy_into headers innerHeaders ;;;
  map_set innerHeaders "X-Upyun-Part-Id" (itoa part) ;;;
  if part =? 0 then
    let* ct := map_get headers "Content-Type" in
    map_set innerHeaders "X-Upyun-Multi-Type" (default "" ct) ;;;
    map_set innerHeaders "X-Upyun-Multi-Length" (itoa size) ;;;
    map_set innerHeaders "X-Upyun-Multi-Stage" "initiate,upload" ;;;
    map_set innerHeaders "Content-Length" (itoa (resumePartSize env))
  else if part =? maxPartID then
    map_set innerHeaders "X-Upyun-Multi-Stage" "upload,complete" ;;;
    map_set innerHeaders "Content-Length"
      (itoa (wrap (size - wrap (resumePartSize env * part)))) ;;;
    if useMD5 then
      call_Seek value 0 ;;;
      let* hex := call_md5sum (VFile value) in
      map_set innerHeaders "X-Upyun-Multi-MD5" hex
    else ret tt
  else
    map_set innerHeaders "X-Upyun-Multi-Stage" "upload" ;;;
    map_set innerHeaders "Content-Length" (itoa (resumePartSize env)).

(** One iteration of the loop over the parts, up to the end of its retry loop. *)
Definition send_part (key : string) (value : nat) (useMD5 : bool) (headers : nat)
    (size maxPartID part : Z) (resp : Header) : M LoopExit :=
  let* innerHeaders := make_map in
  part_headers value useMD5 headers innerHeaders size maxPartID part ;;;
  let offset := wrap (part * resumePartSize env) in
  let* ferr := call_NewFragmentFile value offset (resumePartSize env) in
  match ferr with
  | Some err => ret (LoopReturn resp (Some err))
  | None =>
      let file := VFragment value offset (resumePartSize env) in
      (if useMD5 then
         let* hex := call_Fragment_MD5 file in
         map_set innerHeaders "Content-MD5" hex
       else ret tt) ;;;
      retry_loop retry_count 0 key file useMD5 innerHeaders resp
  end.

(** [for part := 0; part <= maxPartID; part++ { ... }]; [n] counts the
    iterations left. *)
Fixpoint parts_loop (n : nat) (part : Z) (key : string) (value : nat) (useMD5 : bool)
    (headers : nat) (reporter : bool) (size maxPartID : Z) (resp : Header)
  : M (Header * option error) :=
  match n with
  | O => ret (resp, None)
  | S n' =>
      let* r := send_part key value useMD5 headers size maxPartID part resp in
      match r with
      | LoopReturn resp err => ret (resp, err)
      | LoopDone resp =>
          (if reporter then emit (EvReport part maxPartID) else ret tt) ;;;
          (if part =? 0
           then map_set headers "X-Upyun-Multi-UUID" (Header_Get resp "X-Upyun-Multi-Uuid")
           else ret tt) ;;;
          parts_loop n' (wrap (part + 1)) key value useMD5 headers reporter size maxPartID resp
      end
  end.

Definition maxPartID_of (size : Z) : Z :=
  let maxPartID := Z.quot size (resumePartSize env) in
  if Z.rem size (resumePartSize env) =? 0 then wrap (maxPartID - 1) else maxPartID.

(** [ResumePut] *)
Definition ResumePut (key : string) (value : nat) (useMD5 : bool) (headers : option nat)
    (reporter : bool) : M (Header * option error) :=
  let* headers := or_make headers in
  let* st := call_Stat value in
  match st with
  | inr err => ret (∅, Some err)
  | inl size =>
      if size <? resumeFileSizeLowerLimit env then Put key (VFile value) useMD5 (Some headers)
      else
        let maxPartID := maxPartID_of size in
        parts_loop (Z.to_nat (maxPartID + 1)) 0 key value useMD5 headers reporter
                   size maxPartID ∅
  end.

(** [loopList] *)
Definition end_of_list : string := "g2gCZAAEbmV4dGQAA2VvZg".

Definition parse_lines (ret_ : string) : list FileInfo :=
  map (newFileInfo env)
      (filter (fun v => negb (String.length v =? 0)%nat) (Split newline ret_)).

Definition loopList (key iter order : string) (limit : Z)
  : M (list FileInfo * string * option error) :=
  let* headers := make_map in
  map_set headers "X-List-Limit" (itoa limit) ;;;
  map_set headers "X-List-Order" order ;;;
  (if String.eqb iter "" then ret tt else map_set headers "X-List-Iter" iter) ;;;
  let* (res, err) := doRESTRequest "GET" key "" (Some headers) None in
  match err with
  | Some e => ret ([], "", Some e)
  | None =>
      let infoList := parse_lines (fst res) in
      match snd res !! "X-Upyun-List-Iter" with
      | Some (nextIter :: _) =>
          let nextIter := if String.eqb nextIter end_of_list then "" else nextIter in
          ret (infoList, nextIter, None)
      | Some [] => panic "index out of range"
      | None => ret ([], "", None)
      end
  end.

(** The body of [for _, f := range infos { ... }] inside [listDir]; [rec] is
    the recursive call [listDir]. *)
Fixpoint entries_loop (rec : string -> M (option error)) (key : string) (recursive : bool)
    (k : string) (infos : list FileInfo) : M (option error) :=
  match infos with
  | [] => ret None
  | f :: rest =>
      let abs := path_Join [k; fi_Name f] in
      match Replace1 abs key "" with
      | EmptyString => panic "index out of range"
      | String c tl as name =>
          let f := set_Name f (if Ascii.eqb c slash then tl else name) in
          let* r := (if recursive && String.eqb (fi_Type f) "folder"
                     then rec (abs +:+ "/") else ret None) in
          match r with
          | Some err => ret (Some err)
          | None => emit (EvSendInfo f) ;;; entries_loop rec key recursive k rest
          end
      end
  end.

(** The page loop of [listDir], entered with cursor [iter]; every page fetch
    uses up one unit of [fuel]. *)
Fixpoint listDir_from (fuel : nat) (key order : string) (recursive : bool)
    (k iter : string) : M (option error) :=
  match fuel with
  | O => fun s => (s, OutOfFuel)
  | S fuel' =>
      let* (res, err) := loopList k iter order 50 in
      match err with
      | Some e => emit (EvSendErr e) ;;; ret (Some e)
      | None =>
          let iter := snd res in
          let* r := entries_loop (fun k' => listDir_from fuel' key order recursive k' "")
                                 key recursive k (fst res) in
          match r with
          | Some e => ret (Some e)
          | None =>
              if String.eqb iter "" then ret None
              else listDir_from fuel' key order recursive k iter
          end
      end
  end.

Definition listDir (fuel : nat) (key order : string) (recursive : bool) (k : string)
  : M (option error) :=
  listDir_from fuel key order recursive k "".

(** [GetLargeList]: what the goroutine it starts does with the two channels. *)
Definition GetLargeList (fuel : nat) (key : string) (asc recursive : bool) : M unit :=
  let key := if HasSuffix key "/" then key else key +:+ "/" in
  let order := if asc then "asc" else "desc" in
  let* _ := listDir fuel key order recursive key in
  emit EvCloseErr ;;;
  emit EvCloseInfo.

(** [Purge] *)
Definition Purge (urls : list string) : M (string * option error) :=
  let purge := "http://purge.upyun.com/purge/" in
  let* date := call_date in
  let purgeList := Join urls (String newline "") in
  let* headers := make_map in
  map_set headers "Date" date ;;;
  map_set headers "Authorization" (makePurgeAuth purgeList date) ;;;
  map_set headers "Content-Type" "application/x-www-form-urlencoded;charset=utf-8" ;;;
  let body := VStringReader (form_Encode env purgeList) in
  let* (resp, _) := call_http "POST" purge headers (Some body) in
  match resp with
  | None => panic "nil pointer dereference"
  | Some resp =>
      match BodyErr resp with
      | Some e => ret ("", Some e)
      | None =>
          let content := Body resp in
          if Z.quot (StatusCode resp) 100 =? 2 then
            match json_Unmarshal env content with
            | None => ret ("", None)
            | Some result =>
                ret (Join (default [] (result !! "invalid_domain_of_url")) ",", None)
            end
          else ret ("", Some (errors_New content))
      end
  end.


(** ** The single-shot calls *)

Section SingleShot.

(** The endpoint constants [Auto] and [Ctt] are declared in another file of
    the package, and so is the variant of [newFileInfo] that reads the
    headers of a response. *)
Variables Auto Ctt : Z.
Variable newFileInfo_of_header : Header -> FileInfo.

(** [SetEndpoint]; the receiver is a pointer, the updated client is returned. *)
Definition SetEndpoint (c : UpYun) (ed : Z) : UpYun * option error :=
  if (Auto <=? ed) && (ed <=? Ctt) then
    (mkUpYun ("v" +:+ itoa ed +:+ ".api.upyun.com") (Bucket c) (Username c) (Passwd c), None)
  else
    (c, Some (errors_New "Invalid endpoint, pick from Auto, Telecom, Cnc, Ctt")).

(** [SetEndpointStr] *)
Definition SetEndpointStr (c : UpYun) (ep : string) : UpYun * option error :=
  (mkUpYun ep (Bucket c) (Username c) (Passwd c), None).

(** [Usage] *)
Definition Usage : M (Z * option error) :=
  let* (res, err) := doRESTRequest "GET" "/" "usage" None None in
  match err with
  | Some e => ret (0, Some e)
  | None => ret (ParseInt (fst res))
  end.

(** [Mkdir] *)
Definition Mkdir (key : string) : M (option error) :=
  let* headers := make_map in
  map_set headers "mkdir" "true" ;;;
  map_set headers "folder" "true" ;;;
  let* (_, err) := doRESTRequest "POST" key "" (Some headers) None in
  ret err.

(** [Get]; [value] is the writer, possibly nil. *)
Definition Get (key : string) (value : option Value) : M (Z * option error) :=
  let* (res, err) := doRESTRequest "GET" key "" None value in
  match err with
  | Some e => ret (0, Some e)
  | None => ret (Atoi (fst res))
  end.

(** [Delete] *)
Definition Delete (key : string) : M (option error) :=
  let* (_, err) := doRESTRequest "DELETE" key "" None None in
  ret err.

(** [AsyncDelete] *)
Definition AsyncDelete (key : string) : M (option error) :=
  let* headers := make_map in
  map_set headers "X-Upyun-Async" "true" ;;;
  let* (_, err) := doRESTRequest "DELETE" key "" (Some headers) None in
  ret err.

(** [GetList] *)
Definition GetList (key : string) : M (list FileInfo * option error) :=
  let* (res, err) := doRESTRequest "GET" key "" None None in
  match err with
  | Some e => ret ([], Some e)
  | None => ret (parse_lines (fst res), None)
  end.

(** [GetInfo]; a nil [*FileInfo] is [None]. *)
Definition GetInfo (key : string) : M (option FileInfo * option error) :=
  let* (res, err) := doRESTRequest "HEAD" key "" None None in
  match err with
  | Some e => ret (None, Some e)
  | None => ret (Some (newFileInfo_of_header (snd res)), None)
  end.

End SingleShot.
(** ** Pure readings of the code, used to state what a run does *)

Definition rest_uri (uri : string) : string :=
  escapeURI env ("/" +:+ Bucket u +:+ (if HasPrefix uri "/" then uri else "/" +:+ uri)).
Definition rest_url (uri : string) : string := "http://" +:+ endpoint u +:+ rest_uri uri.
Definition rest_headers (method uri date : string) (m : gmap string string) : gmap string string :=
  let m1 := <["Authorization" := makeRESTAuth method (rest_uri uri) date (default "0" (m !! "Content-Length"))]>
              (<["Date" := date]> m) in
  if Contains (endpoint u) "api.upyun.com" then m1 else <["Host" := "v0.api.upyun.com"]> m1.
Definition rest_result (r : option Response * option error) : outcome (string * Header * option error) :=
  match snd r with
  | Some e => Ok ("", ∅, Some e)
  | None =>
      match fst r with
      | None => Panic "nil pointer dereference"
      | Some resp =>
          if Z.quot (StatusCode resp) 100 =? 2 then Ok (Body resp, RespHeader resp, BodyErr resp)
          else match BodyErr resp with
               | None => if (String.length (Body resp) =? 0)%nat
                         then Ok ("", RespHeader resp, Some (errors_New (itoa (StatusCode resp))))
                         else Ok ("", RespHeader resp, Some (errors_New (Body resp)))
               | Some e => Ok ("", RespHeader resp, Some e)
               end
      end
  end.
Definition put_result (r : option Response * option error) : outcome (Header * option error) :=
  match rest_result r with
  | Ok (res, err) => Ok (snd res, err)
  | Panic msg => Panic msg
  | OutOfFuel => OutOfFuel
  end.


(** The header map [part_headers] builds for a part from the base map [b];
    [multi_md5] and [part_md5] are the digests written when [useMD5] is set. *)
Definition inner_headers (b : gmap string string) (size maxPartID part : Z)
    (multi_md5 part_md5 : option string) : gmap string string :=
  let m := <["X-Upyun-Part-Id" := itoa part]> b in
  let m :=
    if part =? 0 then
      <["Content-Length" := itoa (resumePartSize env)]>
        (<["X-Upyun-Multi-Stage" := "initiate,upload"]>
           (<["X-Upyun-Multi-Length" := itoa size]>
              (<["X-Upyun-Multi-Type" := default "" (b !! "Content-Type")]> m)))
    else if part =? maxPartID then
      let m := <["Content-Length" := itoa (wrap (size - wrap (resumePartSize env * part)))]>
                 (<["X-Upyun-Multi-Stage" := "upload,complete"]> m) in
      match multi_md5 with
      | Some hex => <["X-Upyun-Multi-MD5" := hex]> m
      | None => m
      end
    else
      <["Content-Length" := itoa (resumePartSize env)]>
        (<["X-Upyun-Multi-Stage" := "upload"]> m) in
  match part_md5 with
  | Some hex => <["Content-MD5" := hex]> m
  | None => m
  end.

Definition is_http (e : Event) : bool :=
  match e with EvHTTP _ _ _ _ _ _ => true | _ => false end.

(** The response headers of a request that [Put] reports as a success. *)
Definition succeeded (e : Event) : option Header :=
  match e with
  | EvHTTP _ _ _ _ resp err =>
      match put_result (resp, err) with
      | Ok (h, None) => Some h
      | _ => None
      end
  | _ => None
  end.

(** The part index header of a request that succeeded. *)
Definition sent_part (e : Event) : option string :=
  match e with
  | EvHTTP _ _ h _ _ _ =>
      match succeeded e with
      | Some _ => h !! "X-Upyun-Part-Id"
      | None => None
      end
  | _ => None
  end.

Definition sent_parts (evs : list Event) : list string := omap sent_part evs.

(** The events of a part whose attempts are [attempts]: a sleep and a seek of
    the fragment to its start between any two of them. *)
Fixpoint retry_shape (wait : Z) (file : Value) (attempts : list Event) : list Event :=
  match attempts with
  | [] => []
  | [a] => [a]
  | a :: rest => a :: EvSleep wait :: EvFragmentSeek file 0 :: retry_shape wait file rest
  end.

Definition http_headers (e : Event) : option (gmap string string) :=
  match e with EvHTTP _ _ h _ _ _ => Some h | _ => None end.

(** A PUT of [file] under [key] that failed with a network error. *)
Definition net_failed (key : string) (file : Value) (e : Event) : Prop :=
  exists h r err,
    e = EvHTTP "PUT" (rest_url key) h (Some file) r (Some err) /\ err_net err = true.

(** [m] is [m0], possibly after [doRESTRequest] wrote its own headers into it. *)
Definition rest_equiv (key : string) (m m0 : gmap string string) : Prop :=
  m = m0 \/ exists d, m = rest_headers "PUT" key d m0.

(** Every request among the events carries [m0] plus the headers of
    [doRESTRequest]. *)
Definition attempt_of (key : string) (m0 : gmap string string) (e : Event) : Prop :=
  forall h, http_headers e = Some h -> exists d, h = rest_headers "PUT" key d m0.

(** Every request among the events is a request of part [part] built on the
    base headers [b]. *)
Definition part_request (key : string) (b : gmap string string) (size maxPartID part : Z)
    (h : gmap string string) : Prop :=
  exists d multi_md5 part_md5,
    h = rest_headers "PUT" key d (inner_headers b size maxPartID part multi_md5 part_md5).

Definition part_event (key : string) (b : gmap string string) (size maxPartID part : Z)
    (e : Event) : Prop :=
  forall h, http_headers e = Some h -> part_request key b size maxPartID part h.

Definition no_success (e : Event) : Prop := succeeded e = None.

(** What the caller can see of the store: maps other than the header map
    [hl] that existed before are unchanged, and no map disappears. *)
Definition heap_frame (hl : nat) (H H' : gmap nat (gmap string string)) : Prop :=
  forall l m, H !! l = Some m -> l <> hl -> H' !! l = Some m.

(** How the events of a part end: when the retry loop falls through, the last
    event is the one request that succeeded. *)
Definition exit_events (out : outcome LoopExit) (evs : list Event) : Prop :=
  match out with
  | Ok (LoopDone resp) =>
      exists pre e, evs = pre ++ [e] /\ succeeded e = Some resp /\ Forall no_success pre
  | Ok (LoopReturn _ err) => err <> None /\ Forall no_success evs
  | _ => Forall no_success evs
  end.

(** A request of some part from [lo] on. *)
Definition later_part_event (key : string) (b : gmap string string) (size maxPartID lo : Z)
    (e : Event) : Prop :=
  forall h, http_headers e = Some h ->
  exists part, lo <= part <= maxPartID /\ part_request key b size maxPartID part h.


(** The base map once the session token of part 0's response is stored in it. *)
Definition token_base (b : gmap string string) (resp : Header) : gmap string string :=
  <["X-Upyun-Multi-UUID" := Header_Get resp "X-Upyun-Multi-Uuid"]> b.

(** The events of the loop over the parts, started on the base map [b] and
    ending with the base map [fb]: either part 0 never completed, or it
    completed with the request [e0] and every later request is built on the
    base map with the token of [e0]'s response. *)
Definition multipart_events (key : string) (b : gmap string string) (size maxPartID : Z)
    (evs : list Event) (fb : gmap string string) (out : outcome (Header * option error))
  : Prop :=
  (Forall (part_event key b size maxPartID 0) evs
   /\ Forall no_success evs
   /\ fb = b
   /\ (forall h, out = Ok (h, None) -> maxPartID < 0))
  \/
  (exists pre e0 resp0 evs1,
      evs = pre ++ e0 :: evs1
      /\ 0 <= maxPartID
      /\ Forall (part_event key b size maxPartID 0) pre
      /\ Forall no_success pre
      /\ part_event key b size maxPartID 0 e0
      /\ succeeded e0 = Some resp0
      /\ fb = token_base b resp0
      /\ Forall (later_part_event key (token_base b resp0) size maxPartID 1) evs1
      /\ (forall h, out = Ok (h, None) -> sent_parts evs1 = map itoa (seqZ 1 maxPartID))).

(** The header map a caller passes: nil, or a live map of the store. *)
Definition base_headers (s : State) (headers : option nat) (b : gmap string string) : Prop :=
  match headers with
  | Some l => heap s !! l = Some b
  | None => b = ∅
  end.

(** What the headers [h] of a request of part [part] must say about the part. *)
Definition part_headers_ok (b : gmap string string) (size maxPartID part : Z)
    (h : gmap string string) : Prop :=
  h !! "X-Upyun-Part-Id" = Some (itoa part)
  /\ (part = 0 ->
      h !! "X-Upyun-Multi-Stage" = Some "initiate,upload"
      /\ h !! "X-Upyun-Multi-Length" = Some (itoa size)
      /\ h !! "X-Upyun-Multi-Type" = Some (default "" (b !! "Content-Type"))
      /\ h !! "Content-Length" = Some (itoa (resumePartSize env)))
  /\ (0 < part < maxPartID ->
      h !! "X-Upyun-Multi-Stage" = Some "upload"
      /\ h !! "Content-Length" = Some (itoa (resumePartSize env)))
  /\ (part = maxPartID ->
      h !! "X-Upyun-Multi-Stage" = Some "upload,complete"
      /\ h !! "Content-Length" = Some (itoa (size - resumePartSize env * maxPartID))).

(** A request of a part after part 0. *)
Definition later_request (e : Event) : Prop :=
  exists h part,
    http_headers e = Some h /\ h !! "X-Upyun-Part-Id" = Some (itoa part) /\ 1 <= part.

(** The request carries the session token of the response [resp0]. *)
Definition carries_token (resp0 : Header) (e : Event) : Prop :=
  forall h, http_headers e = Some h ->
            h !! "X-Upyun-Multi-UUID" = Some (Header_Get resp0 "X-Upyun-Multi-Uuid").

(** *** Listing *)

(** The request headers [loopList] sets before the call. *)
Definition list_headers (iter order : string) (limit : Z) : gmap string string :=
  let m := <["X-List-Order" := order]> (<["X-List-Limit" := itoa limit]> ∅) in
  if String.eqb iter "" then m else <["X-List-Iter" := iter]> m.

(** The answer of the world to the page fetch for [k] at cursor [iter], asked
    after the events [hist]. *)
Definition page_fetch (hist : list Event) (k iter order : string)
  : option Response * option error :=
  doHTTPRequest env hist "GET" (rest_url k)
    (rest_headers "GET" k (genRFC1123Date env hist) (list_headers iter order 50)) None.

Definition page_event (hist : list Event) (k iter order : string) : Event :=
  EvHTTP "GET" (rest_url k)
    (rest_headers "GET" k (genRFC1123Date env hist) (list_headers iter order 50)) None
    (fst (page_fetch hist k iter order)) (snd (page_fetch hist k iter order)).

(** What [loopList] makes of the answer. *)
Definition page_result (r : option Response * option error)
  : outcome (list FileInfo * string * option error) :=
  match rest_result r with
  | Ok (_, Some e) => Ok ([], "", Some e)
  | Ok (res, None) =>
      match snd res !! "X-Upyun-List-Iter" with
      | Some (nextIter :: _) =>
          Ok (parse_lines (fst res),
              if String.eqb nextIter end_of_list then "" else nextIter, None)
      | Some [] => Panic "index out of range"
      | None => Ok ([], "", None)
      end
  | Panic msg => Panic msg
  | OutOfFuel => OutOfFuel
  end.

(** The error of a request that [doRESTRequest] reports as failed. *)
Definition fetch_error (e : Event) : option error :=
  match e with
  | EvHTTP _ _ _ _ resp err =>
      match rest_result (resp, err) with
      | Ok (_, Some e) => Some e
      | _ => None
      end
  | _ => None
  end.

(** An event of a traversal in which nothing has gone wrong and nothing is
    closed: no failed fetch, no error sent, no channel closed. *)
Definition quiet (e : Event) : bool :=
  match e with
  | EvSendErr _ | EvCloseErr | EvCloseInfo => false
  | _ => match fetch_error e with Some _ => false | None => true end
  end.

(** How the events of a traversal that returned [r] look: all quiet, or all
    quiet up to a failed fetch whose error is sent at once and is the last
    event. *)
Definition traversal_events (r : option error) (evs : list Event) : Prop :=
  match r with
  | None => Forall (fun e => quiet e = true) evs
  | Some err =>
      exists pre ev, evs = pre ++ [ev; EvSendErr err]
                     /\ fetch_error ev = Some err
                     /\ Forall (fun e => quiet e = true) pre
  end.

Definition traversal_outcome (out : outcome (option error)) (evs : list Event) : Prop :=
  match out with
  | Ok r => traversal_events r evs
  | _ => Forall (fun e => quiet e = true) evs
  end.

(** A step of the traversal whose events are as [traversal_outcome] says. *)
Definition traversal_spec (m : M (option error)) : Prop :=
  forall s s' out, m s = (s', out) ->
  exists evs, trace s' = trace s ++ evs /\ traversal_outcome out evs.

(** The entry is emitted under a path relative to the root: single path
    elements joined by separators, without a leading separator, that lead
    through the directories [sub] and possibly [more] to the entry [c]. *)
Definition emitted_under (sub : list string) (e : Event) : Prop :=
  forall f, e = EvSendInfo f ->
    HasPrefix (fi_Name f) "/" = false
    /\ exists more c,
         Forall (fun x => simple x = true) (more ++ [c])
         /\ fi_Name f = Join (sub ++ more ++ [c]) "/".

(** Every listing the world serves names its entries by single path elements. *)
Definition served_names_simple : Prop :=
  forall hist meth url hd body resp,
    doHTTPRequest env hist meth url hd body = (Some resp, None) ->
    Forall (fun f => simple (fi_Name f) = true) (parse_lines (Body resp)).

Definition names_spec (sub : list string) (m : M (option error)) : Prop :=
  forall s s' out, m s = (s', out) ->
  exists evs, trace s' = trace s ++ evs /\ Forall (emitted_under sub) evs.

(** *** Purge *)

Definition purge_url : string := "http://purge.upyun.com/purge/".

(** The request headers [Purge] builds. *)
Definition purge_headers (date purgeList : string) : gmap string string :=
  <["Content-Type" := "application/x-www-form-urlencoded;charset=utf-8"]>
    (<["Authorization" := makePurgeAuth purgeList date]> (<["Date" := date]> ∅)).

(** The answer of the world to the purge POST for [urls], asked after [hist]. *)
Definition purge_dispatch (hist : list Event) (urls : list string)
  : option Response * option error :=
  let purgeList := Join urls (String newline "") in
  doHTTPRequest env hist "POST" purge_url
    (purge_headers (genRFC1123Date env hist) purgeList)
    (Some (VStringReader (form_Encode env purgeList))).

(** *** Requests in general *)

(** The URL [doRESTRequest] builds for [uri] and [query]. *)
Definition rest_url_q (uri query : string) : string :=
  if String.eqb query "" then rest_url uri
  else rest_url uri +:+ "?" +:+ escapeURI env query.

(** The body [doRESTRequest] hands to the dispatch. *)
Definition rest_body (method : string) (value : option Value) : option Value :=
  match value with
  | Some v => if is_Reader v && negb (String.eqb method "GET")
                 && negb (String.eqb method "HEAD")
              then Some v else None
  | None => None
  end.

(** The status of the response is in the 200s. *)
Definition is_2xx (r : Response) : bool := Z.quot (StatusCode r) 100 =? 2.

(** The answer of the world to the request [doRESTRequest] sends for these
    arguments when the caller's header map holds [m], asked after [hist]. *)
Definition rest_dispatch (hist : list Event) (method uri query : string)
    (m : gmap string string) (value : option Value) : option Response * option error :=
  doHTTPRequest env hist method (rest_url_q uri query)
    (rest_headers method uri (genRFC1123Date env hist) m) (rest_body method value).

(** *** Uploads in parts *)

(** The calls [reporter(part, maxPartID)] among the events. *)
Definition report_of (e : Event) : option (Z * Z) :=
  match e with EvReport p m => Some (p, m) | _ => None end.

Definition reports (evs : list Event) : list (Z * Z) := omap report_of evs.

(** An event of the retry loop that sends [file] under [key]. *)
Definition retry_event (key : string) (file : Value) (e : Event) : Prop :=
  match e with
  | EvHTTP method url _ body _ _ => method = "PUT" /\ url = rest_url key /\ body = Some file
  | EvSleep d => d = ResumeWaitTime env
  | EvFragmentSeek v off => v = file /\ off = 0
  | _ => False
  end.

(** An event of the upload of part [part] of the file [value]: the window of
    the part is [resumePartSize] bytes from [part * resumePartSize] on. *)
Definition part_step (key : string) (value : nat) (useMD5 : bool) (maxPartID part : Z)
    (e : Event) : Prop :=
  let offset := wrap (part * resumePartSize env) in
  let file := VFragment value offset (resumePartSize env) in
  match e with
  | EvHTTP _ _ h _ _ _ =>
      retry_event key file e /\ h !! "X-Upyun-Part-Id" = Some (itoa part)
  | EvSleep _ | EvFragmentSeek _ _ => retry_event key file e
  | EvNewFragment fd off lim _ => fd = value /\ off = offset /\ lim = resumePartSize env
  | EvFragmentMD5 v _ => useMD5 = true /\ v = file
  | EvFileSeek fd off =>
      useMD5 = true /\ fd = value /\ off = 0 /\ part = maxPartID /\ part <> 0
  | EvMd5sum v _ => useMD5 = true /\ v = VFile value /\ part = maxPartID /\ part <> 0
  | _ => False
  end.

(** An event of the loop over the parts [lo .. hi - 1]. *)
Definition resume_event (key : string) (value : nat) (useMD5 : bool) (maxPartID lo hi : Z)
    (e : Event) : Prop :=
  exists part, lo <= part < hi
    /\ (e = EvReport part maxPartID \/ part_step key value useMD5 maxPartID part e).

(** The error a call returns is the error of the event [e]: of a window that
    could not be opened, or of a request that [Put] reports as failed with
    the headers [h]. *)
Definition error_of_event (e : Event) (h : Header) (err : error) : Prop :=
  match e with
  | EvNewFragment _ _ _ r => r = Some err
  | EvHTTP _ _ _ _ resp r => put_result (resp, r) = Ok (h, Some err)
  | _ => False
  end.

(** What [Put] does with a file before it sends it. *)
Definition put_prelude (fd : nat) (e : Event) : Prop :=
  match e with
  | EvStat fd' _ => fd' = fd
  | EvRead v _ _ => v = VFile fd
  | EvFileSeek fd' off => fd' = fd /\ off = 0
  | _ => False
  end.

(** The headers [Put] and [doRESTRequest] write on their own. *)
Definition put_written (k : string) : Prop :=
  k = "Date" \/ k = "Authorization" \/ k = "Host" \/ k = "Content-Length" \/ k = "Content-MD5".

(** The one request of a plain [Put] of the file [fd] under [key], on the
    caller's headers [m]. *)
Definition plain_put (key : string) (fd : nat) (m : gmap string string) (e : Event) : Prop :=
  exists hd resp err,
    e = EvHTTP "PUT" (rest_url key) hd (Some (VFile fd)) resp err
    /\ forall k, ~ put_written k -> hd !! k = m !! k.

(** *** Listing, further *)

(** A step all of whose events satisfy [Q]. *)
Definition all_events {A} (Q : Event -> Prop) (m : M A) : Prop :=
  forall s s' out, m s = (s', out) -> exists evs, trace s' = trace s ++ evs /\ Forall Q evs.

(** An event of a traversal in the order [order]: what goes into the two
    channels, or a page request. *)
Definition listing_event (order : string) (e : Event) : Prop :=
  match e with
  | EvHTTP method _ h body _ _ =>
      method = "GET" /\ body = None
      /\ h !! "X-List-Limit" = Some "50" /\ h !! "X-List-Order" = Some order
      /\ h !! "X-List-Iter" <> Some ""
  | EvSendInfo _ | EvSendErr _ | EvCloseErr | EvCloseInfo => True
  | _ => False
  end.

(** Every request among the events goes to the directory [k]. *)
Definition fetches_only (k : string) (e : Event) : Prop :=
  match e with
  | EvHTTP _ url _ _ _ _ => url = rest_url k
  | _ => True
  end.

(** *** The single-shot calls *)

(** The dispatch went through: no error, a status in the 200s, and a body
    that could be read. *)
Definition accepted (resp : option Response) (err : option error) : Prop :=
  exists r, resp = Some r /\ err = None /\ is_2xx r = true /\ BodyErr r = None.

(** The string has the byte [c]. *)
Fixpoint has_byte (c : ascii) (s : string) : bool :=
  match s with
  | EmptyString => false
  | String x s' => Ascii.eqb x c || has_byte c s'
  end.
(** ** What a request does to the store and the trace *)

Lemma doREST_run method l m value s key :
  heap s !! l = Some m ->
  (value = None \/ String.eqb method "GET" = false) ->
  doRESTRequest method key "" (Some l) value s =
    let d := genRFC1123Date env (trace s) in
    let hd := rest_headers method key d m in
    let rc := match value with
              | Some v => if is_Reader v && negb (String.eqb method "GET")
                             && negb (String.eqb method "HEAD") then Some v else None
              | None => None
              end in
    let r := doHTTPRequest env (trace s) method (rest_url key) hd rc in
    (mkState (<[l := hd]> (heap s))
             (trace s ++ [EvHTTP method (rest_url key) hd rc (fst r) (snd r)]),
     rest_result r).
Proof.
  intros Hl Hv. destruct s as [H T]. simpl in *.
  unfold doRESTRequest, or_make, bind, ret, call_date, map_get, map_set, call_http,
    rest_headers, rest_url, rest_uri, rest_result. simpl.
  rewrite Hl. simpl. rewrite lookup_insert_eq. simpl. rewrite insert_insert_eq.
  assert (Hv' : match value with Some _ => String.eqb method "GET" = false | None => True end)
    by (destruct Hv as [-> | Hv]; [exact I | destruct value; auto]).
  clear Hv.
  destruct (Contains (endpoint u) "api.upyun.com"); simpl;
    rewrite ?lookup_insert_eq, ?insert_insert_eq; simpl.
  all: match goal with |- context [doHTTPRequest ?a ?b ?c ?d ?e ?f] =>
         destruct (doHTTPRequest a b c d e f) as [[resp|] [e0|]] end; simpl; try reflexivity.
  all: destruct (StatusCode resp `quot` 100 =? 2); simpl.
  all: try (destruct (BodyErr resp); [reflexivity|];
            destruct (String.length (Body resp) =? 0)%nat; reflexivity).
  all: destruct value; [rewrite Hv'|]; reflexivity.
Qed.

Lemma bind_Ok {A B} (m : M A) (k : A -> M B) s s1 a :
  m s = (s1, Ok a) -> bind m k s = k a s1.
Proof. intros H. unfold bind. rewrite H. reflexivity. Qed.

Lemma Put_content_length_present v l m s :
  heap s !! l = Some m -> is_Some (m !! "Content-Length") ->
  Put_content_length v l s = (s, Ok (inl v)).
Proof.
  intros Hl [cl Hcl]. unfold Put_content_length, bind, map_get.
  rewrite Hl. simpl. rewrite Hcl. reflexivity.
Qed.

Lemma Put_content_md5_fragment fd off lim useMD5 l s :
  Put_content_md5 (VFragment fd off lim) useMD5 l s = (s, Ok None).
Proof.
  unfold Put_content_md5, bind, map_get.
  destruct (default ∅ (heap s !! l) !! "Content-MD5"); [reflexivity|].
  destruct useMD5; reflexivity.
Qed.

Lemma Put_fragment key fd off lim useMD5 l m s :
  heap s !! l = Some m -> is_Some (m !! "Content-Length") ->
  Put key (VFragment fd off lim) useMD5 (Some l) s =
    let d := genRFC1123Date env (trace s) in
    let hd := rest_headers "PUT" key d m in
    let r := doHTTPRequest env (trace s) "PUT" (rest_url key) hd (Some (VFragment fd off lim)) in
    (mkState (<[l := hd]> (heap s))
             (trace s ++ [EvHTTP "PUT" (rest_url key) hd (Some (VFragment fd off lim)) (fst r) (snd r)]),
     put_result r).
Proof.
  intros Hl Hcl. unfold Put, or_make.
  rewrite (bind_Ok (ret l) _ s s l) by reflexivity.
  rewrite (bind_Ok _ _ _ _ _ (Put_content_length_present _ _ _ _ Hl Hcl)).
  rewrite (bind_Ok _ _ _ _ _ (Put_content_md5_fragment _ _ _ _ _ _)).
  unfold bind. rewrite (doREST_run "PUT" l m) by auto.
  simpl. unfold put_result.
  destruct (rest_result _) as [[[a b] c]| |]; reflexivity.
Qed.

(** ** The retry loop *)

Lemma rest_headers_lookup_ne method key d m k :
  k <> "Date" -> k <> "Authorization" -> k <> "Host" ->
  rest_headers method key d m !! k = m !! k.
Proof.
  intros H1 H2 H3. unfold rest_headers.
  destruct (Contains (endpoint u) "api.upyun.com");
    rewrite ?(lookup_insert_ne _ "Host"), ?(lookup_insert_ne _ "Authorization"),
      ?(lookup_insert_ne _ "Date") by congruence; reflexivity.
Qed.

Lemma rest_headers_CL method key d m :
  rest_headers method key d m !! "Content-Length" = m !! "Content-Length".
Proof. apply rest_headers_lookup_ne; discriminate. Qed.

Lemma rest_headers_idem method key d1 d2 m :
  rest_headers method key d2 (rest_headers method key d1 m) = rest_headers method key d2 m.
Proof.
  unfold rest_headers at 1. rewrite rest_headers_CL. unfold rest_headers.
  destruct (Contains (endpoint u) "api.upyun.com"); apply map_eq; intros k;
    rewrite !lookup_insert; repeat case_decide; congruence.
Qed.

Section RetryLoop.

Variables (key : string) (fd : nat) (off lim : Z) (useMD5 : bool) (l : nat).

Let file := VFragment fd off lim.


Lemma wrap_id z : int_min <= z <= int_max -> wrap z = z.
Proof.
  unfold wrap, int_min, int_max. intros H.
  rewrite Z.mod_small by lia. lia.
Qed.

Lemma retry_loop_net n :
  (forall hist meth url hd body, exists r e,
      doHTTPRequest env hist meth url hd body = (r, Some e) /\ err_net e = true) ->
  forall i s m resp0,
  heap s !! l = Some m -> is_Some (m !! "Content-Length") ->
  0 <= i -> i + Z.of_nat n = ResumeRetryCount env + 1 -> ResumeRetryCount env < int_max ->
  (1 <= n)%nat ->
  exists s' attempts h r e,
    retry_loop n i key file useMD5 l resp0 s = (s', Ok (LoopReturn ∅ (Some e)))
    /\ length attempts = n
    /\ Forall (net_failed key file) attempts
    /\ last attempts = Some (EvHTTP "PUT" (rest_url key) h (Some file) r (Some e))
    /\ trace s' = trace s ++ retry_shape (ResumeWaitTime env) file attempts.
Proof.
  intros Hnet. induction n as [|n IH]; intros i s m resp0 Hl Hcl Hi Hn Hmax Hn1; [lia|].
  simpl. unfold bind at 1. unfold file. rewrite (Put_fragment _ _ _ _ _ _ _ _ Hl Hcl).
  cbv zeta.
  destruct (Hnet (trace s) "PUT" (rest_url key)
              (rest_headers "PUT" key (genRFC1123Date env (trace s)) m) (Some file))
    as (r & e & Hr & He).
  fold file. rewrite Hr. unfold put_result, rest_result. simpl. rewrite He. simpl.
  destruct (Z.eqb_spec i (ResumeRetryCount env)) as [Heq|Hne].
  - assert (n = 0%nat) by lia. subst n.
    eexists _, [_], _, r, e. split; [reflexivity|]. split; [reflexivity|].
    split; [|split; reflexivity].
    constructor; [|constructor]. eexists _, r, e. split; [reflexivity|assumption].
  - unfold bind at 1. unfold emit at 1. unfold bind at 1. unfold emit at 1. simpl.
    rewrite wrap_id by (unfold int_min, int_max in *; lia).
    edestruct (IH (i + 1)) as (s' & attempts & h' & r' & e' & Hrun & Hlen & Hall & Hlast & Htr);
      [ | | | | | | ].
    7:{ rewrite Hrun. eexists s', (_ :: attempts), h', r', e'.
        split; [reflexivity|]. split; [simpl; rewrite Hlen; reflexivity|].
        split; [constructor; [eexists _, r, e; split; [reflexivity|assumption]|exact Hall]|].
        destruct attempts as [|a attempts]; [simpl in Hlen; lia|].
        split; [exact Hlast|].
        rewrite Htr. simpl. rewrite <- !app_assoc. reflexivity. }
    + simpl. apply lookup_insert_eq.
    + rewrite rest_headers_CL. exact Hcl.
    + lia.
    + lia.
    + exact Hmax.
    + lia.
Qed.

End RetryLoop.

Section RetryLoopRun.

Variables (key : string) (fd : nat) (off lim : Z) (useMD5 : bool) (l : nat).
Variable m0 : gmap string string.
Hypothesis Hcl0 : is_Some (m0 !! "Content-Length").

Let file := VFragment fd off lim.

Lemma rest_equiv_CL m : rest_equiv key m m0 -> is_Some (m !! "Content-Length").
Proof. intros [-> | [d ->]]; [assumption|]. rewrite rest_headers_CL. assumption. Qed.

Lemma rest_equiv_step m d :
  rest_equiv key m m0 -> rest_headers "PUT" key d m = rest_headers "PUT" key d m0.
Proof. intros [-> | [d' ->]]; [reflexivity|]. apply rest_headers_idem. Qed.

Lemma succeeded_put_result method url h body (r : option Response * option error) :
  succeeded (EvHTTP method url h body (fst r) (snd r)) =
    match put_result r with
    | Ok (hd, None) => Some hd
    | _ => None
    end.
Proof. destruct r; reflexivity. Qed.

Lemma retry_loop_run n :
  forall i s m resp0,
  heap s !! l = Some m -> rest_equiv key m m0 ->
  0 <= i -> i + Z.of_nat n = ResumeRetryCount env + 1 -> ResumeRetryCount env < int_max ->
  (1 <= n)%nat ->
  exists s' out evs m',
    retry_loop n i key file useMD5 l resp0 s = (s', out)
    /\ trace s' = trace s ++ evs
    /\ heap s' = <[l := m']> (heap s)
    /\ rest_equiv key m' m0
    /\ Forall (attempt_of key m0) evs
    /\ exit_events out evs.
Proof.
  induction n as [|n IH]; intros i s m resp0 Hl Heq Hi Hn Hmax Hn1; [lia|].
  simpl. unfold bind at 1. unfold file.
  rewrite (Put_fragment _ _ _ _ _ _ _ _ Hl (rest_equiv_CL _ Heq)). cbv zeta.
  rewrite (rest_equiv_step _ _ Heq). fold file.
  set (d := genRFC1123Date env (trace s)).
  set (hd := rest_headers "PUT" key d m0).
  set (r := doHTTPRequest env (trace s) "PUT" (rest_url key) hd (Some file)).
  set (ev := EvHTTP "PUT" (rest_url key) hd (Some file) (fst r) (snd r)).
  assert (Hev : attempt_of key m0 ev).
  { intros h Hh. simpl in Hh. injection Hh as <-. exists d. reflexivity. }
  assert (Hsucc := succeeded_put_result "PUT" (rest_url key) hd (Some file) r).
  fold ev in Hsucc.
  assert (Hm' : rest_equiv key hd m0) by (right; exists d; reflexivity).
  destruct (put_result r) as [[resp [e|]]| |] eqn:Hput.
  - (* the attempt failed *)
    assert (Hone : exists s' out evs m',
      (mkState (<[l:=hd]> (heap s)) (trace s ++ [ev]), Ok (LoopReturn resp (Some e))) = (s', out)
      /\ trace s' = trace s ++ evs /\ heap s' = <[l := m']> (heap s)
      /\ rest_equiv key m' m0 /\ Forall (attempt_of key m0) evs /\ exit_events out evs).
    { eexists _, _, [ev], hd. split; [reflexivity|]. simpl.
      repeat split; auto. }
    destruct (err_net e); simpl; [|exact Hone].
    destruct (Z.eqb_spec i (ResumeRetryCount env)) as [Hi'|Hi']; [exact Hone|].
    clear Hone.
    unfold bind at 1. unfold emit at 1. unfold bind at 1. unfold emit at 1. simpl.
    rewrite wrap_id by (unfold int_min, int_max in *; lia).
    edestruct (IH (i + 1)) as (s' & out & evs & m' & Hrun & Htr & Hheap & Hm & Hall & Hex);
      [ | exact Hm' | | | | | ]; cycle -1.
    { rewrite Hrun. eexists s', out, (ev :: EvSleep _ :: EvFragmentSeek file 0 :: evs), m'.
      split; [reflexivity|].
      split; [rewrite Htr; simpl; rewrite <- !app_assoc; reflexivity|].
      split; [rewrite Hheap; simpl; apply insert_insert_eq|].
      split; [exact Hm|].
      split.
      { constructor; [exact Hev|]. constructor; [intros h Hh; discriminate|].
        constructor; [intros h Hh; discriminate|exact Hall]. }
      assert (Hns : Forall no_success [ev; EvSleep (ResumeWaitTime env); EvFragmentSeek file 0]).
      { repeat constructor. exact Hsucc. }
      unfold exit_events in *. destruct out as [[resp'|resp' err']| |].
      - destruct Hex as (pre & e' & -> & Hs & Hpre).
        exists ([ev; EvSleep (ResumeWaitTime env); EvFragmentSeek file 0] ++ pre), e'.
        split; [reflexivity|]. split; [exact Hs|]. apply Forall_app. split; assumption.
      - destruct Hex as [Herr Hex]. split; [exact Herr|].
        apply (Forall_app _ [_;_;_]). split; assumption.
      - apply (Forall_app _ [_;_;_]). split; assumption.
      - apply (Forall_app _ [_;_;_]). split; assumption. }
    + simpl. apply lookup_insert_eq.
    + lia.
    + lia.
    + exact Hmax.
    + lia.
  - (* the attempt succeeded *)
    eexists _, _, [ev], hd. split; [reflexivity|]. simpl.
    repeat split; auto.
    exists [], ev. repeat split; auto.
  - eexists _, _, [ev], hd. split; [reflexivity|]. simpl.
    repeat split; auto.
  - eexists _, _, [ev], hd. split; [reflexivity|]. simpl.
    repeat split; auto.
Qed.

End RetryLoopRun.

(** ** The headers of a part *)

Lemma make_map_run s :
  make_map s = (mkState (<[fresh (dom (heap s)) := ∅]> (heap s)) (trace s),
                Ok (fresh (dom (heap s)))).
Proof. reflexivity. Qed.

Lemma fresh_not_in (H : gmap nat (gmap string string)) l m :
  H !! l = Some m -> l <> fresh (dom H).
Proof.
  intros Hl Heq. apply (is_fresh (dom H)). rewrite <- Heq.
  apply elem_of_dom. eauto.
Qed.

Lemma not_http_part_event key b size maxPartID part e :
  is_http e = false -> part_event key b size maxPartID part e.
Proof. intros H h Hh. destruct e; simpl in *; discriminate. Qed.

Lemma not_http_no_success e : is_http e = false -> no_success e.
Proof. intros H. destruct e; simpl in *; try discriminate; reflexivity. Qed.

Lemma map_set_run l k v H T m :
  H !! l = Some m ->
  map_set l k v (mkState H T) = (mkState (<[l := <[k := v]> m]> H) T, Ok tt).
Proof. intros Hl. unfold map_set. simpl. rewrite Hl. reflexivity. Qed.

Lemma map_get_run l k H T m :
  H !! l = Some m -> map_get l k (mkState H T) = (mkState H T, Ok (m !! k)).
Proof. intros Hl. unfold map_get. simpl. rewrite Hl. reflexivity. Qed.

Lemma map_copy_into_run src dst H T m :
  H !! src = Some m -> H !! dst = Some ∅ ->
  map_copy_into src dst (mkState H T) = (mkState (<[dst := m]> H) T, Ok tt).
Proof.
  intros Hs Hd. unfold map_copy_into. simpl. rewrite Hs, Hd. simpl.
  rewrite (right_id_L ∅ (∪)). reflexivity.
Qed.

Ltac solve_lookup :=
  first [ eassumption
        | apply lookup_insert_eq
        | rewrite lookup_insert_ne by congruence; solve_lookup ].

Ltac set_step :=
  erewrite bind_Ok; [ | apply map_set_run; solve_lookup ]; rewrite ?insert_insert_eq.

Lemma part_headers_run value useMD5 hl il size maxPartID part b s :
  heap s !! hl = Some b -> heap s !! il = Some ∅ -> hl <> il ->
  exists evs mm,
    part_headers value useMD5 hl il size maxPartID part s =
      (mkState (<[il := inner_headers b size maxPartID part mm None]> (heap s))
               (trace s ++ evs), Ok tt)
    /\ Forall (fun e => is_http e = false) evs.
Proof.
  intros Hb Hi Hne. destruct s as [H T]. simpl in *.
  unfold part_headers, inner_headers.
  erewrite bind_Ok by (apply map_copy_into_run; eassumption).
  set_step.
  destruct (part =? 0).
  - erewrite bind_Ok by (apply map_get_run; solve_lookup).
    do 3 set_step.
    erewrite map_set_run by solve_lookup. rewrite insert_insert_eq.
    exists [], None. rewrite app_nil_r. split; [reflexivity|constructor].
  - destruct (part =? maxPartID).
    + do 2 set_step.
      destruct useMD5.
      * unfold bind at 1. unfold call_Seek at 1. cbn [heap trace].
        unfold bind at 1. unfold call_md5sum at 1. cbn [heap trace].
        erewrite map_set_run by solve_lookup. rewrite insert_insert_eq.
        eexists [_; _], (Some _). rewrite <- app_assoc.
        split; [reflexivity|repeat constructor].
      * exists [], None. rewrite app_nil_r. split; [reflexivity|constructor].
    + set_step.
      erewrite map_set_run by solve_lookup. rewrite insert_insert_eq.
      exists [], None. rewrite app_nil_r. split; [reflexivity|constructor].
Qed.

Ltac map_look :=
  repeat first [ rewrite lookup_insert_eq
               | rewrite lookup_insert_ne by discriminate ].

Lemma inner_headers_part_id b size maxPartID part mm pm :
  inner_headers b size maxPartID part mm pm !! "X-Upyun-Part-Id" = Some (itoa part).
Proof.
  unfold inner_headers.
  destruct (part =? 0), (part =? maxPartID), mm, pm; map_look; reflexivity.
Qed.

Lemma inner_headers_CL b size maxPartID part mm pm :
  inner_headers b size maxPartID part mm pm !! "Content-Length" =
    Some (if part =? 0 then itoa (resumePartSize env)
          else if part =? maxPartID
               then itoa (wrap (size - wrap (resumePartSize env * part)))
               else itoa (resumePartSize env)).
Proof.
  unfold inner_headers.
  destruct (part =? 0), (part =? maxPartID), mm, pm; map_look; reflexivity.
Qed.

Lemma inner_headers_stage b size maxPartID part mm pm :
  inner_headers b size maxPartID part mm pm !! "X-Upyun-Multi-Stage" =
    Some (if part =? 0 then "initiate,upload"
          else if part =? maxPartID then "upload,complete" else "upload").
Proof.
  unfold inner_headers.
  destruct (part =? 0), (part =? maxPartID), mm, pm; map_look; reflexivity.
Qed.

Lemma inner_headers_first b size maxPartID mm pm :
  inner_headers b size maxPartID 0 mm pm !! "X-Upyun-Multi-Length" = Some (itoa size)
  /\ inner_headers b size maxPartID 0 mm pm !! "X-Upyun-Multi-Type"
     = Some (default "" (b !! "Content-Type")).
Proof.
  unfold inner_headers. simpl. destruct pm; map_look; split; reflexivity.
Qed.

Lemma inner_headers_token b size maxPartID part mm pm :
  inner_headers b size maxPartID part mm pm !! "X-Upyun-Multi-UUID" = b !! "X-Upyun-Multi-UUID".
Proof.
  unfold inner_headers.
  destruct (part =? 0), (part =? maxPartID), mm, pm; map_look; reflexivity.
Qed.

Lemma retry_count_eq :
  0 <= ResumeRetryCount env < int_max ->
  Z.of_nat retry_count = ResumeRetryCount env + 1.
Proof.
  intros H. unfold retry_count. rewrite wrap_id by (unfold int_min, int_max in *; lia). lia.
Qed.

Lemma send_part_run key value useMD5 hl size maxPartID part resp0 b s :
  heap s !! hl = Some b -> 0 <= ResumeRetryCount env < int_max ->
  exists s' out evs il m',
    send_part key value useMD5 hl size maxPartID part resp0 s = (s', out)
    /\ trace s' = trace s ++ evs
    /\ heap s !! il = None /\ heap s' = <[il := m']> (heap s)
    /\ Forall (part_event key b size maxPartID part) evs
    /\ exit_events out evs.
Proof.
  intros Hb HN. destruct s as [H T]. simpl in *.
  pose proof (retry_count_eq HN) as Hrc.
  unfold send_part. rewrite (bind_Ok _ _ _ _ _ (make_map_run _)). cbn [heap trace].
  set (il := fresh (dom H)).
  assert (Hne : hl <> il) by (eapply fresh_not_in; eassumption).
  assert (Hil : H !! il = None) by (apply not_elem_of_dom, is_fresh).
  destruct (part_headers_run value useMD5 hl il size maxPartID part b
              (mkState (<[il:=∅]> H) T)) as (evs1 & mm & Hrun1 & Hev1);
    [simpl; rewrite lookup_insert_ne by congruence; exact Hb
    |simpl; apply lookup_insert_eq|exact Hne|].
  rewrite (bind_Ok _ _ _ _ _ Hrun1). cbn [heap trace]. rewrite insert_insert_eq.
  unfold bind at 1. unfold call_NewFragmentFile at 1. cbn [heap trace].
  set (off := wrap (part * resumePartSize env)).
  set (evn := EvNewFragment value off (resumePartSize env) _).
  assert (Hpre : Forall (fun e => is_http e = false) (evs1 ++ [evn])).
  { apply Forall_app. split; [exact Hev1|repeat constructor]. }
  destruct (NewFragmentFile env (T ++ evs1) value off (resumePartSize env)) as [err|].
  { eexists _, _, (evs1 ++ [evn]), il, _. split; [reflexivity|]. cbn [heap trace].
    split; [rewrite app_assoc; reflexivity|]. split; [exact Hil|]. split; [reflexivity|].
    split.
    - eapply Forall_impl; [exact Hpre|]. intros e. apply not_http_part_event.
    - simpl. split; [discriminate|].
      eapply Forall_impl; [exact Hpre|]. intros e. apply not_http_no_success. }
  assert (Hmd : exists evs2 pm,
    (if useMD5
     then let* hex := call_Fragment_MD5 (VFragment value off (resumePartSize env)) in
          map_set il "Content-MD5" hex
     else ret tt)
      (mkState (<[il:=inner_headers b size maxPartID part mm None]> H) ((T ++ evs1) ++ [evn]))
    = (mkState (<[il:=inner_headers b size maxPartID part mm pm]> H) (T ++ evs2), Ok tt)
    /\ Forall (fun e => is_http e = false) evs2).
  { destruct useMD5.
    - unfold bind at 1. unfold call_Fragment_MD5 at 1. cbn [heap trace].
      erewrite map_set_run by solve_lookup. rewrite insert_insert_eq.
      eexists (evs1 ++ [evn; _]), (Some _). split.
      + rewrite <- !app_assoc. reflexivity.
      + apply Forall_app. split; [exact Hev1|repeat constructor].
    - exists (evs1 ++ [evn]), None. split; [rewrite app_assoc; reflexivity|exact Hpre]. }
  destruct Hmd as (evs2 & pm & Hrun2 & Hev2).
  rewrite (bind_Ok _ _ _ _ _ Hrun2).
  set (m0 := inner_headers b size maxPartID part mm pm).
  destruct (retry_loop_run key value off (resumePartSize env) useMD5 il m0
              ltac:(unfold m0; rewrite inner_headers_CL; eauto)
              retry_count 0 (mkState (<[il:=m0]> H) (T ++ evs2)) m0 resp0)
    as (s' & out & evs3 & m' & Hrun3 & Htr3 & Hheap3 & _ & Hall3 & Hex3);
    [simpl; apply lookup_insert_eq|left; reflexivity|lia|lia|lia|lia|].
  rewrite Hrun3. exists s', out, (evs2 ++ evs3), il, m'.
  split; [reflexivity|]. split; [rewrite Htr3; simpl; rewrite app_assoc; reflexivity|].
  split; [exact Hil|]. split; [rewrite Hheap3; simpl; apply insert_insert_eq|].
  split.
  - apply Forall_app. split.
    + eapply Forall_impl; [exact Hev2|]. intros e. apply not_http_part_event.
    + eapply Forall_impl; [exact Hall3|]. intros e He h Hh.
      destruct (He h Hh) as [d ->]. exists d, mm, pm. reflexivity.
  - assert (Hns2 : Forall no_success evs2).
    { eapply Forall_impl; [exact Hev2|]. intros e. apply not_http_no_success. }
    unfold exit_events in *. destruct out as [[resp|resp err]| |].
    + destruct Hex3 as (pre & e & -> & Hs & Hpre3).
      exists (evs2 ++ pre), e. split; [rewrite app_assoc; reflexivity|].
      split; [exact Hs|]. apply Forall_app. split; assumption.
    + destruct Hex3 as [Herr Hex3]. split; [exact Herr|].
      apply Forall_app. split; assumption.
    + apply Forall_app. split; assumption.
    + apply Forall_app. split; assumption.
Qed.

(** ** The loop over the parts *)

Lemma sent_parts_app a b : sent_parts (a ++ b) = sent_parts a ++ sent_parts b.
Proof. unfold sent_parts. apply omap_app. Qed.

Lemma sent_parts_no_success evs : Forall no_success evs -> sent_parts evs = [].
Proof.
  induction 1 as [|e evs He _ IH]; [reflexivity|].
  change (sent_parts (e :: evs))
    with (match sent_part e with Some y => y :: sent_parts evs | None => sent_parts evs end).
  rewrite IH. unfold no_success in He.
  destruct e; try reflexivity. unfold sent_part. rewrite He. reflexivity.
Qed.

Lemma part_request_part_id key b size maxPartID part h :
  part_request key b size maxPartID part h -> h !! "X-Upyun-Part-Id" = Some (itoa part).
Proof.
  intros (d & mm & pm & ->).
  rewrite rest_headers_lookup_ne by discriminate. apply inner_headers_part_id.
Qed.

Lemma sent_part_succeeded key b size maxPartID part e resp :
  part_event key b size maxPartID part e -> succeeded e = Some resp ->
  sent_part e = Some (itoa part).
Proof.
  intros He Hs. destruct e; try discriminate.
  unfold sent_part. rewrite Hs.
  eapply part_request_part_id. apply He. reflexivity.
Qed.

Lemma exit_done_sent_parts key b size maxPartID part evs resp :
  Forall (part_event key b size maxPartID part) evs ->
  exit_events (Ok (LoopDone resp)) evs ->
  sent_parts evs = [itoa part].
Proof.
  intros Hall (pre & e & -> & Hs & Hpre).
  rewrite sent_parts_app, (sent_parts_no_success _ Hpre). simpl.
  apply Forall_app in Hall as [_ Hall]. inversion Hall as [|? ? He _]; subst.
  change (sent_parts [e])
    with (match sent_part e with Some y => y :: sent_parts [] | None => sent_parts [] end).
  rewrite (sent_part_succeeded _ _ _ _ _ _ _ He Hs). reflexivity.
Qed.

Lemma not_http_later key b size maxPartID lo e :
  is_http e = false -> later_part_event key b size maxPartID lo e.
Proof. intros H h Hh. destruct e; simpl in *; discriminate. Qed.

Lemma heap_frame_refl hl H : heap_frame hl H H.
Proof. intros l m Hl _. exact Hl. Qed.

Lemma heap_frame_trans hl H1 H2 H3 :
  heap_frame hl H1 H2 -> heap_frame hl H2 H3 -> heap_frame hl H1 H3.
Proof. intros H12 H23 l m Hl Hne. apply H23; [apply H12|]; assumption. Qed.

Lemma heap_frame_fresh hl H il m :
  H !! il = None -> heap_frame hl H (<[il := m]> H).
Proof.
  intros Hil l m' Hl _. rewrite lookup_insert_ne; [exact Hl|]. congruence.
Qed.

Lemma heap_frame_base hl H m : heap_frame hl H (<[hl := m]> H).
Proof. intros l m' Hl Hne. rewrite lookup_insert_ne; [exact Hl|]. congruence. Qed.

Section PartsLoop.

Variables (key : string) (value : nat) (useMD5 : bool) (hl : nat) (reporter : bool).
Variables (size maxPartID : Z).
Hypothesis HN : 0 <= ResumeRetryCount env < int_max.
Hypothesis Hmax : maxPartID < int_max.

Lemma report_run part s :
  (if reporter then emit (EvReport part maxPartID) else ret tt) s =
    (mkState (heap s) (trace s ++ (if reporter then [EvReport part maxPartID] else [])), Ok tt).
Proof.
  destruct reporter; [reflexivity|]. unfold ret. rewrite app_nil_r. destruct s; reflexivity.
Qed.

Lemma report_not_http part :
  Forall (fun e => is_http e = false) (if reporter then [EvReport part maxPartID] else []).
Proof. destruct reporter; repeat constructor. Qed.

Lemma parts_loop_run b n :
  forall p s resp0,
  1 <= p -> p + Z.of_nat n = maxPartID + 1 ->
  heap s !! hl = Some b ->
  exists s' out evs,
    parts_loop n p key value useMD5 hl reporter size maxPartID resp0 s = (s', out)
    /\ trace s' = trace s ++ evs
    /\ heap s' !! hl = Some b
    /\ heap_frame hl (heap s) (heap s')
    /\ Forall (later_part_event key b size maxPartID p) evs
    /\ (forall h, out = Ok (h, None) -> sent_parts evs = map itoa (seqZ p (Z.of_nat n))).
Proof.
  induction n as [|n IH]; intros p s resp0 Hp Hn Hb.
  { exists s, (Ok (resp0, None)), []. simpl. rewrite app_nil_r.
    repeat split; auto using heap_frame_refl. }
  cbn [parts_loop].
  destruct (send_part_run key value useMD5 hl size maxPartID p resp0 b s Hb HN)
    as (s1 & out1 & evs1 & il & m' & Hrun1 & Htr1 & Hil & Hheap1 & Hall1 & Hex1).
  assert (Hne : hl <> il) by congruence.
  assert (Hb1 : heap s1 !! hl = Some b).
  { rewrite Hheap1, lookup_insert_ne by congruence. exact Hb. }
  assert (Hfr1 : heap_frame hl (heap s) (heap s1)).
  { rewrite Hheap1. apply heap_frame_fresh. exact Hil. }
  assert (Hlater1 : Forall (later_part_event key b size maxPartID p) evs1).
  { eapply Forall_impl; [exact Hall1|]. intros e He h Hh. exists p. split; [lia|].
    apply He. exact Hh. }
  unfold bind at 1. rewrite Hrun1.
  destruct out1 as [[resp|resp err]| |].
  - (* the part was sent *)
    rewrite (bind_Ok _ _ _ _ _ (report_run p s1)).
    assert (Hp0 : (p =? 0) = false) by lia. rewrite Hp0.
    rewrite (bind_Ok (ret tt) _ _ _ tt eq_refl).
    rewrite wrap_id by (unfold int_min, int_max in *; lia).
    set (s2 := mkState (heap s1) _).
    destruct (IH (p + 1) s2 resp) as (s' & out & evs2 & Hrun2 & Htr2 & Hb2 & Hfr2 & Hall2 & Hsent2);
      [lia|lia|exact Hb1|].
    rewrite Hrun2. exists s', out, (evs1 ++ (if reporter then [EvReport p maxPartID] else []) ++ evs2).
    split; [reflexivity|].
    split; [rewrite Htr2; unfold s2; cbn [trace]; rewrite Htr1, <- !app_assoc; reflexivity|].
    split; [exact Hb2|].
    split; [eapply heap_frame_trans; [exact Hfr1|exact Hfr2]|].
    split.
    + apply Forall_app. split; [exact Hlater1|]. apply Forall_app. split.
      * eapply Forall_impl; [apply report_not_http|]. intros e He.
        apply not_http_later. exact He.
      * eapply Forall_impl; [exact Hall2|]. intros e He h Hh.
        destruct (He h Hh) as (part & Hpart & Hreq).
        exists part. split; [lia|exact Hreq].
    + intros h Hout. rewrite !sent_parts_app.
      rewrite (exit_done_sent_parts _ _ _ _ _ _ _ Hall1 Hex1).
      rewrite (sent_parts_no_success (if reporter then _ else _)).
      2:{ eapply Forall_impl; [apply report_not_http|]. intros e. apply not_http_no_success. }
      rewrite (Hsent2 h Hout). simpl.
      rewrite (seqZ_cons p) by lia. simpl. repeat f_equal; lia.
  - (* ResumePut returns *)
    exists s1, (Ok (resp, err)), evs1. split; [reflexivity|].
    repeat split; auto.
    intros h Hout. destruct Hex1 as [Herr _]. congruence.
  - exists s1, (Panic msg), evs1. repeat split; auto. intros h Hout. discriminate.
  - exists s1, OutOfFuel, evs1. repeat split; auto. intros h Hout. discriminate.
Qed.

End PartsLoop.

Section Multipart.

Variables (key : string) (value : nat) (useMD5 : bool) (reporter : bool).
Variables (size maxPartID : Z).
Hypothesis HN : 0 <= ResumeRetryCount env < int_max.
Hypothesis Hmax : maxPartID < int_max.

Lemma parts_loop_from_zero hl b s :
  heap s !! hl = Some b ->
  exists s' out evs fb,
    parts_loop (Z.to_nat (maxPartID + 1)) 0 key value useMD5 hl reporter size maxPartID ∅ s
      = (s', out)
    /\ trace s' = trace s ++ evs
    /\ heap s' !! hl = Some fb
    /\ heap_frame hl (heap s) (heap s')
    /\ multipart_events key b size maxPartID evs fb out.
Proof.
  intros Hb. destruct (Z.to_nat (maxPartID + 1)) as [|n] eqn:Hn.
  { exists s, (Ok (∅, None)), [], b. simpl. rewrite app_nil_r.
    split; [reflexivity|]. split; [reflexivity|]. split; [exact Hb|].
    split; [apply heap_frame_refl|]. left. repeat split; auto. intros h _. lia. }
  cbn [parts_loop].
  destruct (send_part_run key value useMD5 hl size maxPartID 0 ∅ b s Hb HN)
    as (s1 & out1 & evs1 & il & m' & Hrun1 & Htr1 & Hil & Hheap1 & Hall1 & Hex1).
  assert (Hne : hl <> il) by congruence.
  assert (Hb1 : heap s1 !! hl = Some b).
  { rewrite Hheap1, lookup_insert_ne by congruence. exact Hb. }
  assert (Hfr1 : heap_frame hl (heap s) (heap s1)).
  { rewrite Hheap1. apply heap_frame_fresh. exact Hil. }
  unfold bind at 1. rewrite Hrun1.
  destruct out1 as [[resp|resp err]| |].
  - rewrite (bind_Ok _ _ _ _ _ (report_run reporter maxPartID 0 s1)).
    change (0 =? 0) with true. cbv iota.
    erewrite bind_Ok by (apply map_set_run; exact Hb1).
    fold (token_base b resp).
    rewrite wrap_id by (unfold int_min, int_max; lia).
    set (s2 := mkState (<[hl := token_base b resp]> (heap s1)) _).
    destruct (parts_loop_run key value useMD5 hl reporter size maxPartID HN Hmax
                (token_base b resp) n 1 s2 resp)
      as (s' & out & evs2 & Hrun2 & Htr2 & Hb2 & Hfr2 & Hall2 & Hsent2);
      [lia|lia|apply lookup_insert_eq|].
    change (0 + 1) with 1. rewrite Hrun2.
    destruct Hex1 as (pre & e0 & -> & Hs0 & Hpre).
    apply Forall_app in Hall1 as [Hallpre Halle0].
    inversion Halle0 as [|? ? He0 _]; subst.
    exists s', out, (pre ++ e0 :: (if reporter then [EvReport 0 maxPartID] else []) ++ evs2),
      (token_base b resp).
    split; [reflexivity|].
    split; [rewrite Htr2; unfold s2; cbn [trace]; rewrite Htr1, <- !app_assoc; reflexivity|].
    split; [exact Hb2|].
    split.
    { eapply heap_frame_trans; [exact Hfr1|].
      eapply heap_frame_trans; [|exact Hfr2]. apply heap_frame_base. }
    right. exists pre, e0, resp, ((if reporter then [EvReport 0 maxPartID] else []) ++ evs2).
    split; [reflexivity|]. split; [lia|].
    repeat split; auto.
    + apply Forall_app. split; [|exact Hall2].
      eapply Forall_impl; [apply report_not_http|]. intros e He.
      apply not_http_later. exact He.
    + intros h Hout. rewrite sent_parts_app.
      rewrite (sent_parts_no_success (if reporter then _ else _)).
      2:{ eapply Forall_impl; [apply report_not_http|]. intros e. apply not_http_no_success. }
      rewrite (Hsent2 h Hout). simpl. f_equal. f_equal. lia.
  - exists s1, (Ok (resp, err)), evs1, b. split; [reflexivity|].
    repeat split; auto. left. destruct Hex1 as [Herr Hns].
    repeat split; auto. intros h Hout. congruence.
  - exists s1, (Panic msg), evs1, b. repeat split; auto. left. repeat split; auto.
    intros h Hout. discriminate.
  - exists s1, OutOfFuel, evs1, b. repeat split; auto. left. repeat split; auto.
    intros h Hout. discriminate.
Qed.

End Multipart.

Lemma div_bounds P size :
  0 < P -> 0 <= size <= int_max ->
  0 <= size / P <= size /\ (size mod P <> 0 -> size / P < int_max).
Proof.
  intros HP Hs. pose proof (Z.mul_div_le size P HP) as Hle.
  assert (0 <= size / P) by (apply Z.div_pos; lia).
  split; [nia|]. intros Hm.
  destruct (Z.eq_dec P 1) as [H1|H1].
  - subst P. rewrite Z.mod_1_r in Hm. lia.
  - unfold int_max in *. nia.
Qed.

Lemma maxPartID_of_eq size :
  0 < resumePartSize env -> 0 <= size <= int_max ->
  maxPartID_of size =
    (if size mod resumePartSize env =? 0
     then size / resumePartSize env - 1 else size / resumePartSize env)
  /\ -1 <= maxPartID_of size < int_max.
Proof.
  intros HP Hs. unfold maxPartID_of.
  rewrite Z.quot_div_nonneg, Z.rem_mod_nonneg by lia.
  destruct (div_bounds _ _ HP Hs) as [Hd Hlt].
  destruct (Z.eqb_spec (size mod resumePartSize env) 0) as [Hm|Hm].
  - rewrite wrap_id by (unfold int_min, int_max in *; lia). lia.
  - specialize (Hlt Hm). lia.
Qed.

(** The chunked path of [ResumePut]: the file is at least
    [resumeFileSizeLowerLimit] long. *)
Lemma ResumePut_multipart key value useMD5 headers reporter s b size :
  0 <= ResumeRetryCount env < int_max ->
  0 < resumePartSize env -> 0 <= size <= int_max ->
  base_headers s headers b ->
  os_Stat env (trace s) value = inl size ->
  resumeFileSizeLowerLimit env <= size ->
  exists s' out evs hl fb,
    ResumePut key value useMD5 headers reporter s = (s', out)
    /\ trace s' = trace s ++ EvStat value (inl size) :: evs
    /\ (forall l, headers = Some l -> hl = l)
    /\ heap s' !! hl = Some fb
    /\ heap_frame hl (heap s) (heap s')
    /\ multipart_events key b size (maxPartID_of size) evs fb out.
Proof.
  intros HN HP Hsize Hb Hstat Hlim.
  assert (Hmax : maxPartID_of size < int_max) by (apply maxPartID_of_eq; assumption).
  assert (Hor : exists hl s0, or_make headers s = (s0, Ok hl)
      /\ trace s0 = trace s /\ heap s0 !! hl = Some b
      /\ heap_frame hl (heap s) (heap s0) /\ (forall l, headers = Some l -> hl = l)).
  { destruct headers as [l|]; simpl in Hb.
    - exists l, s. repeat split; auto using heap_frame_refl. congruence.
    - subst b. eexists _, _. split; [apply make_map_run|]. simpl.
      split; [reflexivity|]. split; [apply lookup_insert_eq|].
      split; [|discriminate]. apply heap_frame_fresh. apply not_elem_of_dom, is_fresh. }
  destruct Hor as (hl & s0 & Hor & Htr0 & Hb0 & Hfr0 & Hhl).
  unfold ResumePut. rewrite (bind_Ok _ _ _ _ _ Hor).
  unfold bind at 1. unfold call_Stat at 1. rewrite Htr0, Hstat.
  assert (Hlt : (size <? resumeFileSizeLowerLimit env) = false) by lia. rewrite Hlt.
  destruct (parts_loop_from_zero key value useMD5 reporter size (maxPartID_of size) HN Hmax
              hl b (mkState (heap s0) (trace s ++ [EvStat value (inl size)])) Hb0)
    as (s' & out & evs & fb & Hrun & Htr & Hfb & Hfr & Hev).
  rewrite Hrun. exists s', out, evs, hl, fb. split; [reflexivity|].
  split; [rewrite Htr; simpl; rewrite <- app_assoc; reflexivity|].
  split; [exact Hhl|]. split; [exact Hfb|].
  split; [eapply heap_frame_trans; [exact Hfr0|exact Hfr]|exact Hev].
Qed.

(** ** The claims about [ResumePut] *)

(** C1. The retry policy of a part upload.  With a retry count [N >= 0]: when
    every dispatch fails with a network error, the part is attempted exactly
    [N + 1] times, a sleep of [ResumeWaitTime] and a seek of the fragment to
    its start stand between any two attempts, and the error of the last
    attempt is returned; when the first attempt ends with an error that is not
    a network error, the loop returns that error after this one attempt. *)
Theorem C1_retry_policy key fd off lim useMD5 l s m resp0 :
  0 <= ResumeRetryCount env < int_max ->
  heap s !! l = Some m -> is_Some (m !! "Content-Length") ->
  ((forall hist meth url hd body, exists r e,
       doHTTPRequest env hist meth url hd body = (r, Some e) /\ err_net e = true) ->
   exists s' attempts h r e,
     retry_loop retry_count 0 key (VFragment fd off lim) useMD5 l resp0 s
       = (s', Ok (LoopReturn ∅ (Some e)))
     /\ Z.of_nat (length attempts) = ResumeRetryCount env + 1
     /\ Forall (net_failed key (VFragment fd off lim)) attempts
     /\ last attempts = Some (EvHTTP "PUT" (rest_url key) h (Some (VFragment fd off lim)) r (Some e))
     /\ trace s' = trace s ++ retry_shape (ResumeWaitTime env) (VFragment fd off lim) attempts)
  /\
  (forall s1 h e,
     Put key (VFragment fd off lim) useMD5 (Some l) s = (s1, Ok (h, Some e)) ->
     err_net e = false ->
     retry_loop retry_count 0 key (VFragment fd off lim) useMD5 l resp0 s
       = (s1, Ok (LoopReturn h (Some e)))
     /\ exists ev, is_http ev = true /\ trace s1 = trace s ++ [ev]).
Proof.
  intros HN Hl Hcl. pose proof (retry_count_eq HN) as Hrc. split.
  - intros Hnet.
    destruct (retry_loop_net key fd off lim useMD5 l retry_count Hnet 0 s m resp0)
      as (s' & attempts & h & r & e & Hrun & Hlen & Hall & Hlast & Htr);
      [exact Hl|exact Hcl|lia|lia|lia|lia|].
    exists s', attempts, h, r, e. rewrite Hlen. auto.
  - intros s1 h e HPut He.
    destruct retry_count as [|n] eqn:Hn; [lia|].
    cbn [retry_loop]. rewrite (bind_Ok _ _ _ _ _ HPut). rewrite He. simpl.
    split; [reflexivity|].
    rewrite (Put_fragment _ _ _ _ _ _ _ _ Hl Hcl) in HPut. cbv zeta in HPut.
    injection HPut as <- _. eexists. split; [|reflexivity]. reflexivity.
Qed.

(** C2. For a file of [size] bytes, at or above the chunking threshold, and
    part size [P]: [maxPartID] is [count - 1], where [count] is [size / P]
    when [P] divides [size] and [size / P + 1] otherwise; and a call of
    [ResumePut] that returns without error has sent exactly the parts
    [0 .. count - 1], each once, in this order. *)
Theorem C2_part_count key value useMD5 headers reporter s b size :
  0 <= ResumeRetryCount env < int_max ->
  0 < resumePartSize env -> 0 <= size <= int_max ->
  base_headers s headers b ->
  os_Stat env (trace s) value = inl size ->
  resumeFileSizeLowerLimit env <= size ->
  let count := if size mod resumePartSize env =? 0
               then size / resumePartSize env else size / resumePartSize env + 1 in
  maxPartID_of size = count - 1
  /\ forall s' h,
       ResumePut key value useMD5 headers reporter s = (s', Ok (h, None)) ->
       exists evs,
         trace s' = trace s ++ evs
         /\ sent_parts evs = map itoa (seqZ 0 count)
         /\ Z.of_nat (length (sent_parts evs)) = count.
Proof.
  intros HN HP Hsize Hb Hstat Hlim count.
  destruct (maxPartID_of_eq size HP Hsize) as [Hmax Hrange].
  assert (Hcount : maxPartID_of size = count - 1).
  { rewrite Hmax. unfold count. destruct (size mod resumePartSize env =? 0); lia. }
  split; [exact Hcount|]. intros s' h Hrun.
  destruct (ResumePut_multipart key value useMD5 headers reporter s b size
              HN HP Hsize Hb Hstat Hlim)
    as (s'' & out & evs & hl & fb & Hrun' & Htr & _ & _ & _ & Hev).
  rewrite Hrun in Hrun'. injection Hrun' as <- <-.
  exists (EvStat value (inl size) :: evs). split; [exact Htr|].
  assert (Hsent : sent_parts (EvStat value (inl size) :: evs) = map itoa (seqZ 0 count)).
  { change (sent_parts (EvStat value (inl size) :: evs)) with (sent_parts evs).
    destruct Hev as [(_ & Hns & _ & Hneg) | (pre & e0 & resp0 & evs1 & -> & Hge & Hpre & Hns & He0 & Hs0 & _ & _ & Hsent)].
    - rewrite (sent_parts_no_success _ Hns).
      specialize (Hneg h eq_refl). replace count with 0 by lia. reflexivity.
    - rewrite sent_parts_app, (sent_parts_no_success _ Hns). simpl.
      change (sent_parts (e0 :: evs1))
        with (match sent_part e0 with Some y => y :: sent_parts evs1 | None => sent_parts evs1 end).
      rewrite (sent_part_succeeded _ _ _ _ _ _ _ He0 Hs0), (Hsent h eq_refl).
      rewrite (seqZ_cons 0 count) by lia. simpl. repeat f_equal; lia. }
  split; [exact Hsent|]. rewrite Hsent, length_map, length_seqZ. lia.
Qed.

Lemma part_request_ok key b b' size part h :
  0 < resumePartSize env -> 0 <= size <= int_max -> resumePartSize env < size ->
  0 <= part <= maxPartID_of size ->
  (part = 0 -> b' = b) ->
  part_request key b' size (maxPartID_of size) part h ->
  part_headers_ok b size (maxPartID_of size) part h.
Proof.
  intros HP Hsize Hmulti Hpart Hb (d & mm & pm & ->).
  destruct (maxPartID_of_eq size HP Hsize) as [Hmax Hrange].
  destruct (div_bounds _ _ HP Hsize) as [Hd _].
  pose proof (Z.mul_div_le size _ HP) as Hle.
  assert (Hone : 1 <= maxPartID_of size).
  { rewrite Hmax. destruct (Z.eqb_spec (size mod resumePartSize env) 0) as [Hm|Hm].
    - pose proof (Z.div_mod size (resumePartSize env) ltac:(lia)). nia.
    - assert (1 <= size / resumePartSize env); [|lia].
      apply Z.div_le_lower_bound; lia. }
  assert (Hprod : 0 <= resumePartSize env * maxPartID_of size <= size).
  { rewrite Hmax. destruct (size mod resumePartSize env =? 0); nia. }
  unfold part_headers_ok.
  rewrite !rest_headers_lookup_ne by discriminate.
  rewrite inner_headers_part_id, inner_headers_stage, inner_headers_CL.
  split; [reflexivity|]. split; [|split].
  - intros ->. rewrite (Hb eq_refl). simpl.
    destruct (inner_headers_first b size (maxPartID_of size) mm pm) as [-> ->]. auto.
  - intros Hmid. assert (E1 : (part =? 0) = false) by lia.
    assert (E2 : (part =? maxPartID_of size) = false) by lia.
    rewrite E1, E2. auto.
  - intros ->. assert (E1 : (maxPartID_of size =? 0) = false) by lia.
    rewrite E1, Z.eqb_refl.
    rewrite (wrap_id (resumePartSize env * _)) by (unfold int_min, int_max in *; lia).
    rewrite wrap_id by (unfold int_min, int_max in *; lia). auto.
Qed.


Lemma itoa_inj a b : itoa a = itoa b -> a = b.
Proof. unfold itoa. apply (inj pretty). Qed.

Lemma part_event_not_later key b size maxPartID e :
  part_event key b size maxPartID 0 e -> ~ later_request e.
Proof.
  intros He (h & part & Hh & Hid & Hpart).
  pose proof (part_request_part_id _ _ _ _ _ _ (He h Hh)) as H0.
  assert (Heq : itoa part = itoa 0) by congruence.
  apply itoa_inj in Heq. lia.
Qed.

Lemma later_carries_token key b resp0 size maxPartID lo e :
  later_part_event key (token_base b resp0) size maxPartID lo e -> carries_token resp0 e.
Proof.
  intros He h Hh. destruct (He h Hh) as (part & _ & d & mm & pm & ->).
  rewrite rest_headers_lookup_ne by discriminate.
  rewrite inner_headers_token. apply lookup_insert_eq.
Qed.

(** C4. In a chunked upload, either no request of a part after part 0 is
    sent, or the events split at the request of part 0 that succeeded: no
    request of a later part comes before it, and every request after it
    carries, under [X-Upyun-Multi-UUID], the session token read from the
    response of that request. *)
Theorem C4_session_token key value useMD5 headers reporter s b size s' out :
  0 <= ResumeRetryCount env < int_max ->
  0 < resumePartSize env -> 0 <= size <= int_max ->
  base_headers s headers b ->
  os_Stat env (trace s) value = inl size ->
  resumeFileSizeLowerLimit env <= size ->
  ResumePut key value useMD5 headers reporter s = (s', out) ->
  exists evs,
    trace s' = trace s ++ evs
    /\ (Forall (fun e => ~ later_request e) evs
        \/ exists pre e0 post h0 resp0,
             evs = pre ++ e0 :: post
             /\ Forall (fun e => ~ later_request e) pre
             /\ http_headers e0 = Some h0
             /\ h0 !! "X-Upyun-Part-Id" = Some (itoa 0)
             /\ succeeded e0 = Some resp0
             /\ Forall (carries_token resp0) post).
Proof.
  intros HN HP Hsize Hb Hstat Hlim Hrun.
  destruct (ResumePut_multipart key value useMD5 headers reporter s b size
              HN HP Hsize Hb Hstat Hlim)
    as (s'' & out' & evs & hl & fb & Hrun' & Htr & _ & _ & _ & Hev).
  rewrite Hrun in Hrun'. injection Hrun' as <- <-.
  exists (EvStat value (inl size) :: evs). split; [exact Htr|].
  assert (Hstat' : ~ later_request (EvStat value (inl size))).
  { intros (h & part & Hh & _). discriminate. }
  destruct Hev as [(Hall & _) | (pre & e0 & resp0 & evs1 & -> & _ & Hpre & _ & He0 & Hs0 & _ & Hlater & _)].
  - left. constructor; [exact Hstat'|].
    eapply Forall_impl; [exact Hall|]. intros e. apply part_event_not_later.
  - right. destruct e0 as [meth url h0 body r err| | | | | | | | | | | | | |]; try discriminate.
    exists (EvStat value (inl size) :: pre), (EvHTTP meth url h0 body r err), evs1, h0, resp0.
    split; [reflexivity|]. split.
    { constructor; [exact Hstat'|].
      eapply Forall_impl; [exact Hpre|]. intros e. apply part_event_not_later. }
    split; [reflexivity|].
    split; [eapply part_request_part_id; apply He0; reflexivity|].
    split; [exact Hs0|].
    eapply Forall_impl; [exact Hlater|]. intros e. apply later_carries_token.
Qed.


(** ** Listing: what one page fetch does *)

Lemma loopList_run k iter order s :
  loopList k iter order 50 s =
    (mkState (<[fresh (dom (heap s)) :=
                 rest_headers "GET" k (genRFC1123Date env (trace s)) (list_headers iter order 50)]>
                (heap s))
             (trace s ++ [page_event (trace s) k iter order]),
     page_result (page_fetch (trace s) k iter order)).
Proof.
  destruct s as [H T]. unfold loopList.
  rewrite (bind_Ok _ _ _ _ _ (make_map_run _)). cbn [heap trace].
  set (l := fresh (dom H)).
  do 2 set_step.
  assert (Hset : exists m,
    (if String.eqb iter "" then ret tt else map_set l "X-List-Iter" iter)
      (mkState (<[l:=<["X-List-Order":=order]> (<["X-List-Limit":=itoa 50]> ∅)]> H) T)
    = (mkState (<[l:=m]> H) T, Ok tt) /\ m = list_headers iter order 50).
  { unfold list_headers. destruct (String.eqb iter "").
    - eexists. split; reflexivity.
    - eexists. erewrite map_set_run by solve_lookup. rewrite insert_insert_eq.
      split; reflexivity. }
  destruct Hset as (m & Hset & ->). rewrite (bind_Ok _ _ _ _ _ Hset).
  unfold bind. rewrite (doREST_run "GET" l (list_headers iter order 50) None)
    by (auto; apply lookup_insert_eq).
  cbv zeta. cbn [heap trace]. rewrite insert_insert_eq.
  unfold page_result, page_event, page_fetch.
  destruct (rest_result _) as [[[body hd] [e|]]| |]; try reflexivity.
  cbn [fst snd]. destruct (hd !! "X-Upyun-List-Iter") as [[|n rest]|]; reflexivity.
Qed.

Lemma page_event_error hist k iter order :
  fetch_error (page_event hist k iter order) =
    match page_result (page_fetch hist k iter order) with
    | Ok (_, Some e) => Some e
    | _ => None
    end.
Proof.
  unfold page_event, fetch_error, page_result.
  destruct (page_fetch hist k iter order) as [resp err]. cbn [fst snd].
  destruct (rest_result (resp, err)) as [[[body hd] [e|]]| |]; try reflexivity.
  cbn [fst snd]. destruct (hd !! "X-Upyun-List-Iter") as [[|n rest]|]; reflexivity.
Qed.

Lemma page_result_success hist k iter order resp :
  page_fetch hist k iter order = (Some resp, None) ->
  Z.quot (StatusCode resp) 100 = 2 -> BodyErr resp = None ->
  page_result (page_fetch hist k iter order) =
    match RespHeader resp !! "X-Upyun-List-Iter" with
    | Some (nextIter :: _) =>
        Ok (parse_lines (Body resp),
            if String.eqb nextIter end_of_list then "" else nextIter, None)
    | Some [] => Panic "index out of range"
    | None => Ok ([], "", None)
    end.
Proof.
  intros -> Hst Hbe. unfold page_result, rest_result. cbn [fst snd].
  rewrite Hst, Hbe. reflexivity.
Qed.

(** ** The claims about the listing traversal *)

(** C9. When the response to a page fetch is a success without the cursor
    header, the traversal of that directory ends with this fetch: [listDir]
    returns nil, nothing is sent on either channel and no other page is
    fetched. *)
Theorem C9_missing_cursor fuel key order recursive k iter s resp :
  page_fetch (trace s) k iter order = (Some resp, None) ->
  Z.quot (StatusCode resp) 100 = 2 -> BodyErr resp = None ->
  RespHeader resp !! "X-Upyun-List-Iter" = None ->
  exists s',
    listDir_from (S fuel) key order recursive k iter s = (s', Ok None)
    /\ trace s' = trace s ++ [page_event (trace s) k iter order].
Proof.
  intros Hf Hst Hbe Hh. cbn [listDir_from]. unfold bind at 1.
  rewrite loopList_run, (page_result_success _ _ _ _ _ Hf Hst Hbe), Hh.
  cbn. eexists. split; reflexivity.
Qed.

(** C7. When the response to a page fetch is a success whose cursor is the
    end-of-list token, [loopList] returns the entries of the page with the
    empty cursor, exactly as for a response whose cursor is empty; and
    [listDir], once the entries of this page are dealt with, returns without
    another fetch for this directory: its result and final state are those of
    the loop over the entries of the page. *)
Theorem C7_sentinel_cursor fuel key order recursive k iter s resp tok rest :
  page_fetch (trace s) k iter order = (Some resp, None) ->
  Z.quot (StatusCode resp) 100 = 2 -> BodyErr resp = None ->
  RespHeader resp !! "X-Upyun-List-Iter" = Some (tok :: rest) ->
  tok = end_of_list \/ tok = "" ->
  exists s1,
    loopList k iter order 50 s = (s1, Ok (parse_lines (Body resp), "", None))
    /\ trace s1 = trace s ++ [page_event (trace s) k iter order]
    /\ listDir_from (S fuel) key order recursive k iter s
       = entries_loop (fun k' => listDir_from fuel key order recursive k' "")
                      key recursive k (parse_lines (Body resp)) s1.
Proof.
  intros Hf Hst Hbe Hh Htok.
  assert (Hp : page_result (page_fetch (trace s) k iter order)
               = Ok (parse_lines (Body resp), "", None)).
  { rewrite (page_result_success _ _ _ _ _ Hf Hst Hbe), Hh.
    destruct Htok as [-> | ->]; reflexivity. }
  eexists. split; [rewrite loopList_run, Hp; reflexivity|]. split; [reflexivity|].
  cbn [listDir_from]. unfold bind at 1. rewrite loopList_run, Hp. cbn [fst snd].
  unfold bind.
  destruct (entries_loop _ key recursive k (parse_lines (Body resp)) _)
    as [s2 [[e|]| |]]; reflexivity.
Qed.

Lemma traversal_outcome_app pre out evs :
  Forall (fun e => quiet e = true) pre ->
  traversal_outcome out evs -> traversal_outcome out (pre ++ evs).
Proof.
  intros Hpre. destruct out as [[err|]| |]; simpl.
  - intros (p & ev & -> & He & Hp). exists (pre ++ p), ev.
    split; [rewrite app_assoc; reflexivity|]. split; [exact He|].
    apply Forall_app. split; assumption.
  - intros H. apply Forall_app. split; assumption.
  - intros H. apply Forall_app. split; assumption.
  - intros H. apply Forall_app. split; assumption.
Qed.

Section TraversalEvents.

Variables (key order : string) (recursive : bool).

Lemma entries_loop_events rec k :
  (forall k', traversal_spec (rec k')) ->
  forall infos, traversal_spec (entries_loop rec key recursive k infos).
Proof.
  intros Hrec. induction infos as [|f infos IH]; intros s s' out Hrun.
  { injection Hrun as <- <-. exists []. rewrite app_nil_r. split; [reflexivity|constructor]. }
  cbn [entries_loop] in Hrun.
  destruct (Replace1 (path_Join [k; fi_Name f]) key "") as [|c tl].
  { injection Hrun as <- <-. exists []. rewrite app_nil_r. split; [reflexivity|constructor]. }
  set (f' := set_Name f _) in Hrun. unfold bind at 1 in Hrun.
  assert (Hsub : traversal_spec
            (if recursive && String.eqb (fi_Type f') "folder"
             then rec (path_Join [k; fi_Name f] +:+ "/") else ret None)).
  { destruct (recursive && String.eqb (fi_Type f') "folder"); [apply Hrec|].
    intros t t' o Ht. injection Ht as <- <-. exists []. rewrite app_nil_r.
    split; [reflexivity|constructor]. }
  destruct ((if recursive && String.eqb (fi_Type f') "folder"
             then rec (path_Join [k; fi_Name f] +:+ "/") else ret None) s)
    as [s1 out1] eqn:Hrun1.
  destruct (Hsub _ _ _ Hrun1) as (evs1 & Htr1 & Hout1).
  destruct out1 as [[err|]| |].
  - injection Hrun as <- <-. exists evs1. auto.
  - unfold bind at 1, emit at 1 in Hrun.
    destruct (IH _ _ _ Hrun) as (evs2 & Htr2 & Hout2). cbn [trace] in Htr2.
    exists (evs1 ++ [EvSendInfo f'] ++ evs2).
    split; [rewrite Htr2, Htr1, <- !app_assoc; reflexivity|].
    apply traversal_outcome_app; [exact Hout1|].
    apply traversal_outcome_app; [repeat constructor|exact Hout2].
  - injection Hrun as <- <-. exists evs1. auto.
  - injection Hrun as <- <-. exists evs1. auto.
Qed.

Lemma listDir_from_events fuel :
  forall k iter, traversal_spec (listDir_from fuel key order recursive k iter).
Proof.
  induction fuel as [|fuel IH]; intros k iter s s' out Hrun.
  { injection Hrun as <- <-. exists []. rewrite app_nil_r. split; [reflexivity|constructor]. }
  cbn [listDir_from] in Hrun. unfold bind at 1 in Hrun. rewrite loopList_run in Hrun.
  pose proof (page_event_error (trace s) k iter order) as Herr.
  set (ev := page_event (trace s) k iter order) in *.
  destruct (page_result (page_fetch (trace s) k iter order)) as [[[infos niter] [e|]]| |].
  - unfold bind, emit in Hrun. cbn in Hrun. injection Hrun as <- <-.
    exists [ev; EvSendErr e]. cbn [trace]. rewrite <- app_assoc. split; [reflexivity|].
    exists [], ev. repeat split; auto.
  - assert (Hq : quiet ev = true).
    { unfold quiet. rewrite Herr. subst ev. reflexivity. }
    cbn [fst snd] in Hrun. unfold bind at 1 in Hrun.
    match type of Hrun with context [entries_loop ?rec key recursive k infos ?s1] =>
      destruct (entries_loop rec key recursive k infos s1) as [s2 out2] eqn:Hrun2 end.
    apply (entries_loop_events _ k (fun k' => IH k' "")) in Hrun2.
    destruct Hrun2 as (evs2 & Htr2 & Hout2). cbn [trace] in Htr2.
    destruct out2 as [[err|]| |].
    + injection Hrun as <- <-. exists (ev :: evs2).
      split; [rewrite Htr2, <- app_assoc; reflexivity|].
      apply (traversal_outcome_app [ev]); [repeat constructor; exact Hq|exact Hout2].
    + destruct (String.eqb niter "").
      * injection Hrun as <- <-. exists (ev :: evs2).
        split; [rewrite Htr2, <- app_assoc; reflexivity|].
        apply (traversal_outcome_app [ev]); [repeat constructor; exact Hq|exact Hout2].
      * destruct (IH _ _ _ _ _ Hrun) as (evs3 & Htr3 & Hout3).
        exists ((ev :: evs2) ++ evs3).
        split; [rewrite Htr3, Htr2, <- !app_assoc; reflexivity|].
        apply traversal_outcome_app; [|exact Hout3].
        constructor; [exact Hq|exact Hout2].
    + injection Hrun as <- <-. exists (ev :: evs2).
      split; [rewrite Htr2, <- app_assoc; reflexivity|].
      apply (traversal_outcome_app [ev]); [repeat constructor; exact Hq|exact Hout2].
    + injection Hrun as <- <-. exists (ev :: evs2).
      split; [rewrite Htr2, <- app_assoc; reflexivity|].
      apply (traversal_outcome_app [ev]); [repeat constructor; exact Hq|exact Hout2].
  - injection Hrun as <- <-. exists [ev]. split; [reflexivity|].
    repeat constructor. unfold quiet. rewrite Herr. subst ev. reflexivity.
  - injection Hrun as <- <-. exists [ev]. split; [reflexivity|].
    repeat constructor. unfold quiet. rewrite Herr. subst ev. reflexivity.
Qed.

End TraversalEvents.

(** C6. The events of the traversal goroutine.  Up to the first page fetch
    that fails, no error is sent and no channel is closed; the error of that
    fetch is sent at once, and it is the last event before the channels are
    closed: no fetch, no entry and no other error follows it.  Whenever the
    goroutine runs to its end, with or without such an error, its last two
    events close the error channel and the entry channel. *)
Theorem C6_first_error_and_close fuel key asc recursive s s' out :
  GetLargeList fuel key asc recursive s = (s', out) ->
  exists evs,
    trace s' = trace s ++ evs
    /\ match out with
       | Ok _ =>
           exists body r,
             evs = body ++ [EvCloseErr; EvCloseInfo] /\ traversal_events r body
       | _ => Forall (fun e => quiet e = true) evs
       end.
Proof.
  unfold GetLargeList, listDir. intros Hrun. unfold bind at 1 in Hrun.
  match type of Hrun with context [listDir_from fuel ?k ?o recursive ?k ""] =>
    destruct (listDir_from fuel k o recursive k "" s) as [s1 out1] eqn:Hrun1 end.
  apply listDir_from_events in Hrun1. destruct Hrun1 as (evs & Htr & Hout).
  destruct out1 as [r| |].
  - unfold bind, emit in Hrun. cbn in Hrun. injection Hrun as <- <-.
    exists (evs ++ [EvCloseErr; EvCloseInfo]). cbn [trace].
    split; [rewrite Htr, <- !app_assoc; reflexivity|].
    exists evs, r. split; [reflexivity|exact Hout].
  - injection Hrun as <- <-. exists evs. auto.
  - injection Hrun as <- <-. exists evs. auto.
Qed.

(** ** Paths *)

Lemma append_cons x (a b : string) : String x a +:+ b = String x (a +:+ b).
Proof. reflexivity. Qed.

Lemma append_assoc (a b c : string) : (a +:+ b) +:+ c = a +:+ (b +:+ c).
Proof.
  induction a as [|x a IH]; [reflexivity|]. rewrite !append_cons. f_equal. exact IH.
Qed.

Lemma HasPrefix_append (a b : string) : HasPrefix (a +:+ b) a = true.
Proof.
  induction a as [|x a IH]; [destruct b; reflexivity|].
  rewrite append_cons. cbn [HasPrefix]. rewrite Ascii.eqb_refl. exact IH.
Qed.

Lemma string_drop_append (a b : string) : string_drop (String.length a) (a +:+ b) = b.
Proof.
  induction a as [|x a IH]; [destruct b; reflexivity|].
  rewrite append_cons. cbn [String.length string_drop]. exact IH.
Qed.

Lemma Replace1_unfold s old new :
  Replace1 s old new =
    if HasPrefix s old then new +:+ string_drop (String.length old) s
    else match s with
         | EmptyString => EmptyString
         | String c s' => String c (Replace1 s' old new)
         end.
Proof. destruct s; reflexivity. Qed.

Lemma Replace1_prefix (key t : string) : Replace1 (key +:+ t) key "" = t.
Proof. rewrite Replace1_unfold, HasPrefix_append, string_drop_append. reflexivity. Qed.

Lemma simple_inv c :
  simple c = true ->
  c <> "" /\ c <> "." /\ c <> ".." /\ has_slash c = false.
Proof.
  unfold simple. intros H.
  apply andb_prop in H as [H H4]. apply andb_prop in H as [H H3].
  apply andb_prop in H as [H1 H2].
  apply negb_true_iff in H1, H2, H3, H4.
  apply String.eqb_neq in H1, H2, H3. auto.
Qed.

Lemma Split_no_slash c s :
  has_slash c = false -> Split slash (c +:+ String slash s) = c :: Split slash s.
Proof.
  induction c as [|x c IH]; intros H.
  - simpl. reflexivity.
  - simpl in H. apply orb_false_iff in H as [Hx Hc].
    rewrite append_cons. cbn [Split]. rewrite Hx, (IH Hc). reflexivity.
Qed.

Lemma Split_single c : has_slash c = false -> Split slash c = [c].
Proof.
  induction c as [|x c IH]; intros H; [reflexivity|].
  simpl in H. apply orb_false_iff in H as [Hx Hc].
  cbn [Split]. rewrite Hx, (IH Hc). reflexivity.
Qed.

Lemma Split_dir_of comps s :
  Forall (fun c => simple c = true) comps ->
  Split slash (dir_of comps +:+ s) = comps ++ Split slash s.
Proof.
  induction 1 as [|c comps Hc _ IH]; [reflexivity|].
  cbn [dir_of]. rewrite append_assoc.
  change (("/" +:+ dir_of comps) +:+ s) with (String slash (dir_of comps +:+ s)).
  rewrite Split_no_slash by (apply simple_inv; exact Hc).
  rewrite IH. reflexivity.
Qed.

Lemma clean_step_simple rooted stack c :
  simple c = true -> clean_step rooted stack c = c :: stack.
Proof.
  intros H. destruct (simple_inv c H) as (H1 & H2 & H3 & _).
  unfold clean_step.
  apply String.eqb_neq in H1, H2, H3. rewrite H1, H2, H3. reflexivity.
Qed.

Lemma clean_fold_simple rooted comps stack :
  Forall (fun c => simple c = true) comps ->
  fold_left (clean_step rooted) comps stack = rev comps ++ stack.
Proof.
  intros H. revert stack. induction H as [|c comps Hc _ IH]; intros stack; [reflexivity|].
  cbn [fold_left]. rewrite clean_step_simple by exact Hc.
  rewrite IH. cbn [rev]. rewrite <- app_assoc. reflexivity.
Qed.

Lemma Join_snoc comps c : Join (comps ++ [c]) "/" = dir_of comps +:+ c.
Proof.
  induction comps as [|x comps IH]; [reflexivity|].
  cbn [app dir_of]. rewrite append_assoc.
  change (("/" +:+ dir_of comps) +:+ c) with ("/" +:+ (dir_of comps +:+ c)).
  rewrite <- IH.
  destruct (comps ++ [c]) eqn:E; [destruct comps; discriminate|reflexivity].
Qed.

Lemma simple_first c : simple c = true -> HasPrefix c "/" = false.
Proof.
  intros H. destruct (simple_inv c H) as (H1 & _ & _ & H4).
  destruct c as [|x c]; [congruence|]. cbn [has_slash] in H4.
  apply orb_false_iff in H4 as [Hx _].
  change (HasPrefix (String x c) "/") with (Ascii.eqb slash x && HasPrefix c "").
  rewrite Ascii.eqb_sym, Hx. reflexivity.
Qed.

Lemma HasPrefix_append_l (a b : string) c :
  a <> "" -> HasPrefix (a +:+ b) (String c "") = HasPrefix a (String c "").
Proof.
  destruct a as [|x a]; [congruence|]. intros _. rewrite append_cons.
  cbn [HasPrefix]. destruct a, b; reflexivity.
Qed.

Lemma simple_nonempty c : simple c = true -> c <> "".
Proof. intros H. apply simple_inv in H. tauto. Qed.

Lemma Split_slash_cons s : Split slash (String slash s) = "" :: Split slash s.
Proof. cbn [Split]. rewrite Ascii.eqb_refl. reflexivity. Qed.

Lemma HasPrefix_slash_cons s : HasPrefix (String slash s) "/" = true.
Proof. destruct s; reflexivity. Qed.

(** [path.Join] of a clean directory and a single element appends the element. *)
Lemma path_Join_canonical (rooted : bool) comps c :
  Forall (fun x => simple x = true) comps -> simple c = true ->
  rooted = true \/ comps <> [] ->
  path_Join [(if rooted then "/" else "") +:+ dir_of comps; c]
    = ((if rooted then "/" else "") +:+ dir_of comps) +:+ c.
Proof.
  intros Hcomps Hc Hne.
  assert (Hk : (if rooted then "/" else "") +:+ dir_of comps <> "").
  { destruct rooted; [discriminate|]. destruct Hne as [?|Hne]; [discriminate|].
    destruct comps as [|x comps]; [congruence|]. inversion Hcomps; subst.
    cbn. pose proof (simple_nonempty x ltac:(assumption)). destruct x; [congruence|discriminate]. }
  cbn [path_Join]. apply String.eqb_neq in Hk. rewrite Hk.
  cbn [Join]. unfold Clean.
  assert (Hsplit : Split slash (dir_of comps +:+ ("/" +:+ c)) = comps ++ [""; c]).
  { rewrite Split_dir_of by exact Hcomps.
    change ("/" +:+ c) with (String slash c). rewrite Split_slash_cons.
    rewrite Split_single by (apply simple_inv; exact Hc). reflexivity. }
  assert (Hfold : forall r, fold_left (clean_step r) (comps ++ [""; c]) [] = c :: rev comps).
  { intros r. rewrite fold_left_app, (clean_fold_simple r comps []) by exact Hcomps.
    cbn [fold_left]. rewrite app_nil_r.
    change (clean_step r (rev comps) "") with (rev comps).
    apply clean_step_simple. exact Hc. }
  assert (Hjoin : Join (rev (c :: rev comps)) "/" = dir_of comps +:+ c).
  { cbn [rev]. rewrite rev_involutive. apply Join_snoc. }
  destruct rooted.
  - change (("/" +:+ dir_of comps) +:+ "/" +:+ c)
      with (String slash (dir_of comps +:+ ("/" +:+ c))).
    rewrite HasPrefix_slash_cons, Split_slash_cons, Hsplit.
    cbn [fold_left]. change (clean_step true [] "") with (@nil string).
    rewrite Hfold, Hjoin. reflexivity.
  - change ("" +:+ dir_of comps) with (dir_of comps).
    rewrite Hsplit, Hfold, Hjoin.
    destruct Hne as [?|Hne]; [discriminate|].
    destruct comps as [|x comps]; [congruence|]. inversion Hcomps; subst.
    assert (Hx : HasPrefix (dir_of (x :: comps) +:+ "/" +:+ c) "/" = false).
    { cbn [dir_of]. rewrite append_assoc.
      rewrite HasPrefix_append_l by (apply simple_nonempty; assumption).
      apply simple_first. assumption. }
    rewrite Hx. change ("" +:+ ?a) with a.
    destruct (String.eqb_spec (dir_of (x :: comps) +:+ c) "") as [E|E]; [|reflexivity].
    exfalso. cbn [dir_of] in E. pose proof (simple_nonempty x ltac:(assumption)).
    destruct x; [congruence|discriminate].
Qed.

Lemma dir_of_app a b : dir_of (a ++ b) = dir_of a +:+ dir_of b.
Proof.
  induction a as [|x a IH]; [reflexivity|].
  cbn [app dir_of]. rewrite IH, !append_assoc. reflexivity.
Qed.

Lemma Forall_simple_app a b :
  Forall (fun c => simple c = true) a -> Forall (fun c => simple c = true) b ->
  Forall (fun c => simple c = true) (a ++ b).
Proof. intros Ha Hb. apply Forall_app. split; assumption. Qed.

Lemma rel_first sub c :
  Forall (fun x => simple x = true) sub -> simple c = true ->
  HasPrefix (dir_of sub +:+ c) "/" = false /\ dir_of sub +:+ c <> "".
Proof.
  intros Hsub Hc. destruct Hsub as [|x sub Hx _].
  - cbn [dir_of]. change ("" +:+ c) with c.
    split; [apply simple_first; exact Hc|apply simple_nonempty; exact Hc].
  - cbn [dir_of]. rewrite append_assoc. pose proof (simple_nonempty x Hx) as Hn.
    split.
    + rewrite HasPrefix_append_l by exact Hn. apply simple_first. exact Hx.
    + destruct x; [congruence|discriminate].
Qed.

Section Names.

Variables (key order : string) (recursive : bool).
Hypothesis Hkey : canonical_root key.
Hypothesis Hserved : served_names_simple.

Lemma path_abs sub c :
  Forall (fun x => simple x = true) sub -> simple c = true ->
  path_Join [key +:+ dir_of sub; c] = key +:+ (dir_of sub +:+ c).
Proof.
  intros Hsub Hc. destruct Hkey as (rooted & comps & Hcomps & -> & Hne).
  rewrite (append_assoc _ (dir_of comps) (dir_of sub)), <- dir_of_app.
  rewrite path_Join_canonical.
  - rewrite dir_of_app, !append_assoc. reflexivity.
  - apply Forall_simple_app; assumption.
  - exact Hc.
  - destruct Hne as [?|Hne]; [left; assumption|right].
    destruct comps; [congruence|discriminate].
Qed.

Lemma entries_loop_cons rec sub f rest :
  Forall (fun x => simple x = true) sub -> simple (fi_Name f) = true ->
  entries_loop rec key recursive (key +:+ dir_of sub) (f :: rest) =
    (let* r := (if recursive && String.eqb (fi_Type f) "folder"
                then rec (key +:+ dir_of (sub ++ [fi_Name f])) else ret None) in
     match r with
     | Some err => ret (Some err)
     | None =>
         emit (EvSendInfo (set_Name f (dir_of sub +:+ fi_Name f))) ;;;
         entries_loop rec key recursive (key +:+ dir_of sub) rest
     end).
Proof.
  intros Hsub Hf. cbn [entries_loop].
  rewrite (path_abs sub (fi_Name f) Hsub Hf), Replace1_prefix.
  destruct (rel_first sub (fi_Name f) Hsub Hf) as [Hfirst Hne].
  destruct (dir_of sub +:+ fi_Name f) as [|c tl] eqn:E; [congruence|].
  assert (Hc : Ascii.eqb c slash = false).
  { change (HasPrefix (String c tl) "/") with (Ascii.eqb slash c && HasPrefix tl "") in Hfirst.
    rewrite Ascii.eqb_sym. destruct tl; cbn in Hfirst;
      rewrite ?andb_true_r in Hfirst; exact Hfirst. }
  rewrite Hc. cbn [fi_Type set_Name].
  replace ((key +:+ String c tl) +:+ "/") with (key +:+ dir_of (sub ++ [fi_Name f])).
  - reflexivity.
  - rewrite <- E, dir_of_app. cbn [dir_of]. rewrite !append_assoc. reflexivity.
Qed.

Lemma emitted_under_deeper sub c e :
  simple c = true ->
  emitted_under (sub ++ [c]) e -> emitted_under sub e.
Proof.
  intros Hc He f Hf. destruct (He f Hf) as (H1 & more & c' & Hall & Hp). split; [exact H1|].
  exists (c :: more), c'. split; [constructor; assumption|].
  rewrite Hp, <- !app_assoc. reflexivity.
Qed.

Lemma entries_loop_names rec sub :
  Forall (fun x => simple x = true) sub ->
  (forall c, simple c = true ->
             names_spec (sub ++ [c]) (rec (key +:+ dir_of (sub ++ [c])))) ->
  forall infos,
  Forall (fun f => simple (fi_Name f) = true) infos ->
  names_spec sub (entries_loop rec key recursive (key +:+ dir_of sub) infos).
Proof.
  intros Hsub Hrec. induction 1 as [|f infos Hf _ IH]; intros s s' out Hrun.
  { injection Hrun as <- <-. exists []. rewrite app_nil_r. split; [reflexivity|constructor]. }
  rewrite (entries_loop_cons rec sub f infos Hsub Hf) in Hrun.
  unfold bind at 1 in Hrun.
  assert (Hstep : names_spec sub
            (if recursive && String.eqb (fi_Type f) "folder"
             then rec (key +:+ dir_of (sub ++ [fi_Name f])) else ret None)).
  { destruct (recursive && String.eqb (fi_Type f) "folder").
    - intros t t' o Ht. destruct (Hrec _ Hf _ _ _ Ht) as (evs & Htr & Hall).
      exists evs. split; [exact Htr|].
      eapply Forall_impl; [exact Hall|]. intros e. apply emitted_under_deeper. exact Hf.
    - intros t t' o Ht. injection Ht as <- <-. exists []. rewrite app_nil_r.
      split; [reflexivity|constructor]. }
  destruct ((if recursive && String.eqb (fi_Type f) "folder"
             then rec (key +:+ dir_of (sub ++ [fi_Name f])) else ret None) s)
    as [s1 out1] eqn:Hrun1.
  destruct (Hstep _ _ _ Hrun1) as (evs1 & Htr1 & Hall1).
  destruct out1 as [[err|]| |]; try (injection Hrun as <- <-; exists evs1; auto).
  unfold bind at 1, emit at 1 in Hrun.
  destruct (IH _ _ _ Hrun) as (evs2 & Htr2 & Hall2). cbn [trace] in Htr2.
  exists (evs1 ++ [EvSendInfo (set_Name f (dir_of sub +:+ fi_Name f))] ++ evs2).
  split; [rewrite Htr2, Htr1, <- !app_assoc; reflexivity|].
  apply Forall_app. split; [exact Hall1|]. constructor; [|exact Hall2].
  intros f0 Hf0. injection Hf0 as <-. cbn [fi_Name set_Name].
  destruct (rel_first sub (fi_Name f) Hsub Hf) as [Hfirst _].
  split; [exact Hfirst|]. exists [], (fi_Name f).
  split; [repeat constructor; exact Hf|]. cbn [app]. symmetry. apply Join_snoc.
Qed.

Lemma page_result_infos hist k iter infos niter :
  page_result (page_fetch hist k iter order) = Ok (infos, niter, None) ->
  Forall (fun f => simple (fi_Name f) = true) infos.
Proof.
  unfold page_result, rest_result, page_fetch.
  destruct (doHTTPRequest env hist "GET" _ _ None) as [[resp|] [e|]] eqn:Hr;
    cbn [fst snd]; try discriminate.
  pose proof (Hserved _ _ _ _ _ _ Hr) as Hs.
  destruct (StatusCode resp `quot` 100 =? 2).
  - cbn [fst snd]. destruct (BodyErr resp); [discriminate|].
    destruct (RespHeader resp !! "X-Upyun-List-Iter") as [[|n rest]|]; try discriminate.
    + intros H. injection H as <- _. exact Hs.
    + intros H. injection H as <- _. constructor.
  - destruct (BodyErr resp); [discriminate|].
    destruct (String.length (Body resp) =? 0)%nat; discriminate.
Qed.

Lemma not_send_emitted_under D e :
  (forall f, e <> EvSendInfo f) -> emitted_under D e.
Proof. intros H f Hf. destruct (H f Hf). Qed.

Lemma listDir_from_names fuel :
  forall sub iter,
  Forall (fun x => simple x = true) sub ->
  names_spec sub (listDir_from fuel key order recursive (key +:+ dir_of sub) iter).
Proof.
  induction fuel as [|fuel IH]; intros sub iter Hsub s s' out Hrun.
  { injection Hrun as <- <-. exists []. rewrite app_nil_r. split; [reflexivity|constructor]. }
  cbn [listDir_from] in Hrun. unfold bind at 1 in Hrun. rewrite loopList_run in Hrun.
  set (k := key +:+ dir_of sub) in *.
  set (ev := page_event (trace s) k iter order) in *.
  assert (Hev : emitted_under sub ev).
  { apply not_send_emitted_under. intros f. discriminate. }
  destruct (page_result (page_fetch (trace s) k iter order))
    as [[[infos niter] [e|]]| |] eqn:Hpage.
  - unfold bind, emit in Hrun. cbn in Hrun. injection Hrun as <- <-.
    exists [ev; EvSendErr e]. cbn [trace]. rewrite <- app_assoc. split; [reflexivity|].
    constructor; [exact Hev|]. constructor; [|constructor].
    apply not_send_emitted_under. intros f. discriminate.
  - apply page_result_infos in Hpage.
    cbn [fst snd] in Hrun. unfold bind at 1 in Hrun.
    match type of Hrun with context [entries_loop ?rec key recursive k infos ?s1] =>
      destruct (entries_loop rec key recursive k infos s1) as [s2 out2] eqn:Hrun2 end.
    apply (entries_loop_names _ sub Hsub) in Hrun2; [| |exact Hpage].
    2:{ intros c Hc. apply IH. apply Forall_simple_app; [exact Hsub|]. repeat constructor. exact Hc. }
    destruct Hrun2 as (evs2 & Htr2 & Hall2). cbn [trace] in Htr2.
    assert (Hdone : exists evs, trace s2 = trace s ++ evs /\ Forall (emitted_under sub) evs).
    { exists (ev :: evs2). split; [rewrite Htr2, <- app_assoc; reflexivity|].
      constructor; assumption. }
    destruct out2 as [[err|]| |]; try (injection Hrun as <- <-; exact Hdone).
    destruct (String.eqb niter ""); [injection Hrun as <- <-; exact Hdone|].
    destruct (IH sub niter Hsub _ _ _ Hrun) as (evs3 & Htr3 & Hall3).
    exists ((ev :: evs2) ++ evs3).
    split; [rewrite Htr3, Htr2, <- !app_assoc; reflexivity|].
    apply Forall_app. split; [constructor; assumption|exact Hall3].
  - injection Hrun as <- <-. exists [ev]. split; [reflexivity|]. constructor; [exact Hev|constructor].
  - injection Hrun as <- <-. exists [ev]. split; [reflexivity|]. constructor; [exact Hev|constructor].
Qed.

End Names.


(** ** The claim about [Purge] *)

(** C10. In any state of the world in which the dispatch of the purge POST
    gives no response and an error, [Purge] does not return: after the
    request it dereferences the nil response and panics, and the error of
    the dispatch is lost. *)
Theorem C10_purge_nil_response urls s e :
  purge_dispatch (trace s) urls = (None, Some e) ->
  exists s',
    Purge urls s = (s', Panic "nil pointer dereference")
    /\ trace s' =
       trace s ++ [EvHTTP "POST" purge_url
                     (purge_headers (genRFC1123Date env (trace s))
                                    (Join urls (String newline "")))
                     (Some (VStringReader (form_Encode env (Join urls (String newline "")))))
                     None (Some e)].
Proof.
  intros Hd. destruct s as [H T]. unfold purge_dispatch in Hd. cbn [trace] in *.
  unfold Purge. unfold bind at 1. unfold call_date at 1. cbn [trace].
  rewrite (bind_Ok _ _ _ _ _ (make_map_run _)). cbn [heap trace].
  do 3 set_step.
  unfold bind at 1. unfold call_http at 1. cbn [heap trace].
  rewrite lookup_insert_eq. cbn [default from_option]. unfold id.
  fold (purge_headers (genRFC1123Date env T) (Join urls (String newline ""))).
  fold purge_url. rewrite Hd. cbn [fst snd].
  eexists. split; reflexivity.
Qed.

(** ** More about [doRESTRequest] *)

Lemma doREST_general method uri query l m value s :
  heap s !! l = Some m ->
  (value = None \/ String.eqb method "GET" = false) ->
  doRESTRequest method uri query (Some l) value s =
    let d := genRFC1123Date env (trace s) in
    let hd := rest_headers method uri d m in
    let r := doHTTPRequest env (trace s) method (rest_url_q uri query) hd
               (rest_body method value) in
    (mkState (<[l := hd]> (heap s))
             (trace s ++ [EvHTTP method (rest_url_q uri query) hd (rest_body method value)
                            (fst r) (snd r)]),
     rest_result r).
Proof.
  intros Hl Hv. destruct s as [H T]. simpl in *.
  unfold doRESTRequest, or_make, bind, ret, call_date, map_get, map_set, call_http,
    rest_headers, rest_url_q, rest_url, rest_uri, rest_result, rest_body. simpl.
  rewrite Hl. simpl. rewrite lookup_insert_eq. simpl. rewrite insert_insert_eq.
  assert (Hv' : match value with Some _ => String.eqb method "GET" = false | None => True end)
    by (destruct Hv as [-> | Hv]; [exact I | destruct value; auto]).
  clear Hv.
  destruct (String.eqb query "");
  destruct (Contains (endpoint u) "api.upyun.com"); simpl;
    rewrite ?lookup_insert_eq, ?insert_insert_eq; simpl.
  all: match goal with |- context [doHTTPRequest ?a ?b ?c ?d ?e ?f] =>
         destruct (doHTTPRequest a b c d e f) as [[resp|] [e0|]] end; simpl; try reflexivity.
  all: destruct (StatusCode resp `quot` 100 =? 2); simpl.
  all: try (destruct (BodyErr resp); [reflexivity|];
            destruct (String.length (Body resp) =? 0)%nat; reflexivity).
  all: destruct value; [rewrite Hv'|]; reflexivity.
Qed.

Lemma doREST_nil method uri query value s :
  doRESTRequest method uri query None value s =
    doRESTRequest method uri query (Some (fresh (dom (heap s)))) value
      (mkState (<[fresh (dom (heap s)) := ∅]> (heap s)) (trace s)).
Proof. reflexivity. Qed.

Lemma rest_result_ok (r : option Response * option error) body hdr :
  rest_result r = Ok (body, hdr, None) <->
  exists resp, r = (Some resp, None) /\ is_2xx resp = true /\ BodyErr resp = None
               /\ body = Body resp /\ hdr = RespHeader resp.
Proof.
  unfold rest_result, is_2xx. destruct r as [[resp|] [e|]]; cbn [fst snd].
  - split; [discriminate|]. intros (r & H & _). discriminate.
  - destruct (StatusCode resp `quot` 100 =? 2) eqn:E.
    + split.
      * intros H. injection H as <- <- Hb. exists resp. auto.
      * intros (r & H & _ & Hb & -> & ->). injection H as <-. rewrite Hb. reflexivity.
    + split.
      * destruct (BodyErr resp); [discriminate|].
        destruct (String.length (Body resp) =? 0)%nat; discriminate.
      * intros (r & H & H2 & _). injection H as <-. congruence.
  - split; [discriminate|]. intros (r & H & _). discriminate.
  - split; [discriminate|]. intros (r & H & _). discriminate.
Qed.

(** X1. [doRESTRequest] reports success exactly for a dispatch without error
    whose response has a status in the 200s and a body that could be read;
    it then returns that body and the response headers.  (For every call
    that does not copy a GET into a writer.) *)
Theorem doRESTRequest_succeeds_iff method uri query l m value s s' out :
  heap s !! l = Some m ->
  (value = None \/ String.eqb method "GET" = false) ->
  doRESTRequest method uri query (Some l) value s = (s', out) ->
  forall body hdr,
    out = Ok (body, hdr, None) <->
    exists resp,
      rest_dispatch (trace s) method uri query m value = (Some resp, None)
      /\ is_2xx resp = true /\ BodyErr resp = None
      /\ body = Body resp /\ hdr = RespHeader resp.
Proof.
  intros Hl Hv Hrun body hdr.
  rewrite (doREST_general _ _ _ _ _ _ _ Hl Hv) in Hrun. cbv zeta in Hrun.
  injection Hrun as _ <-. apply rest_result_ok.
Qed.


(** X3. [doRESTRequest] never hands a body to the dispatch of a GET or a HEAD,
    whatever value it is given; the request is the first event of the call
    and the only request. *)
Theorem doRESTRequest_no_body_for_GET_HEAD method uri query headers value s s' out :
  String.eqb method "GET" || String.eqb method "HEAD" = true ->
  doRESTRequest method uri query headers value s = (s', out) ->
  exists url h resp err rest,
    trace s' = trace s ++ EvHTTP method url h None resp err :: rest
    /\ Forall (fun e => is_http e = false) rest.
Proof.
  intros Hm Hrun.
  assert (Hrc : rest_body method value = None).
  { unfold rest_body. destruct value as [v|]; [|reflexivity].
    apply orb_true_iff in Hm as [-> | ->]; rewrite ?andb_false_r; reflexivity. }
  unfold doRESTRequest in Hrun.
  destruct (or_make headers s) as [s0 [l| |]] eqn:Hor;
    [|destruct headers; discriminate|destruct headers; discriminate].
  assert (Htr0 : trace s0 = trace s).
  { destruct headers; injection Hor as <- _; reflexivity. }
  rewrite (bind_Ok _ _ _ _ _ Hor) in Hrun.
  unfold bind at 1, call_date at 1 in Hrun. unfold bind at 1, map_get at 1 in Hrun.
  unfold bind at 1, map_set at 1 in Hrun. unfold bind at 1, map_set at 1 in Hrun.
  cbn [heap trace] in Hrun. unfold bind at 1 in Hrun.
  match type of Hrun with context [(if Contains _ _ then ret tt else ?f) ?st] =>
    assert (Hhost : exists H1, (if Contains (endpoint u) "api.upyun.com" then ret tt else f) st
                               = (mkState H1 (trace s0), Ok tt))
      by (destruct (Contains (endpoint u) "api.upyun.com"); eexists; reflexivity)
  end.
  destruct Hhost as (H1 & Hhost). rewrite Hhost in Hrun.
  fold (rest_body method value) in Hrun. rewrite Hrc in Hrun.
  unfold bind at 1, call_http at 1 in Hrun. cbn [heap trace fst snd] in Hrun.
  rewrite Htr0 in Hrun.
  match type of Hrun with context [doHTTPRequest env ?a ?b ?c ?d ?e] =>
    destruct (doHTTPRequest env a b c d e) as [resp err] eqn:Hd end.
  cbn [fst snd] in Hrun.
  destruct err as [e|].
  { injection Hrun as <- _. eexists _, _, resp, (Some e), []. split; [reflexivity|constructor]. }
  destruct resp as [r|].
  2:{ injection Hrun as <- _. eexists _, _, None, None, []. split; [reflexivity|constructor]. }
  destruct (StatusCode r `quot` 100 =? 2).
  - destruct value as [v|].
    + destruct (String.eqb method "GET").
      * destruct (is_Writer v).
        -- unfold bind, call_chunkedCopy, ret in Hrun. cbn [heap trace fst snd] in Hrun.
           match type of Hrun with context [chunkedCopy env ?a ?b ?c] =>
             destruct (chunkedCopy env a b c) as [w cerr] end.
           injection Hrun as <- _. cbn [trace].
           eexists _, _, (Some r), None, [_]. rewrite <- app_assoc.
           split; [reflexivity|repeat constructor].
        -- injection Hrun as <- _. eexists _, _, (Some r), None, [].
           split; [reflexivity|constructor].
      * injection Hrun as <- _. eexists _, _, (Some r), None, [].
        split; [reflexivity|constructor].
    + injection Hrun as <- _. eexists _, _, (Some r), None, [].
      split; [reflexivity|constructor].
  - destruct (BodyErr r); [|destruct (String.length (Body r) =? 0)%nat];
      injection Hrun as <- _; eexists _, _, (Some r), None, [];
      (split; [reflexivity|constructor]).
Qed.

(** X4. [doRESTRequest] writes into the header map of its caller: after the call
    the map holds the date of the call under [Date] and, under
    [Authorization], the signature over that date and over the
    [Content-Length] the map had (0 without one); no other entry changes but
    [Host], no other map changes, and the request carries the map as it then
    is. *)
Theorem doRESTRequest_writes_caller_headers method uri query l m value s s' out :
  heap s !! l = Some m ->
  (value = None \/ String.eqb method "GET" = false) ->
  doRESTRequest method uri query (Some l) value s = (s', out) ->
  exists hd,
    heap s' = <[l := hd]> (heap s)
    /\ hd !! "Date" = Some (genRFC1123Date env (trace s))
    /\ hd !! "Authorization"
       = Some (makeRESTAuth method (rest_uri uri) (genRFC1123Date env (trace s))
                 (default "0" (m !! "Content-Length")))
    /\ (forall k, k <> "Date" -> k <> "Authorization" -> k <> "Host" -> hd !! k = m !! k)
    /\ exists url rc resp err, trace s' = trace s ++ [EvHTTP method url hd rc resp err].
Proof.
  intros Hl Hv Hrun.
  rewrite (doREST_general _ _ _ _ _ _ _ Hl Hv) in Hrun. cbv zeta in Hrun.
  injection Hrun as <- _. eexists. split; [reflexivity|].
  split; [|split; [|split]].
  - unfold rest_headers. destruct (Contains (endpoint u) "api.upyun.com"); map_look; reflexivity.
  - unfold rest_headers. destruct (Contains (endpoint u) "api.upyun.com"); map_look; reflexivity.
  - intros k H1 H2 H3. apply rest_headers_lookup_ne; assumption.
  - cbn [trace]. eexists _, _, _, _. reflexivity.
Qed.

(** X5. A key is the same with and without its leading separator. *)
Theorem doRESTRequest_leading_slash method uri query headers value :
  HasPrefix uri "/" = false ->
  doRESTRequest method uri query headers value
  = doRESTRequest method ("/" +:+ uri) query headers value.
Proof.
  intros H. unfold doRESTRequest. rewrite H.
  change ("/" +:+ uri) with (String slash uri). rewrite HasPrefix_slash_cons. reflexivity.
Qed.

(** ** [Put] *)

Lemma rest_body_PUT v : is_Reader v = true -> rest_body "PUT" (Some v) = Some v.
Proof. intros H. unfold rest_body. rewrite H. reflexivity. Qed.

Lemma Put_content_md5_off v l s :
  Put_content_md5 v false l s = (s, Ok None).
Proof.
  unfold Put_content_md5, bind, map_get.
  destruct (default ∅ (heap s !! l) !! "Content-MD5"); reflexivity.
Qed.

Lemma Put_content_md5_not_file v useMD5 l s :
  (forall fd, v <> VFile fd) ->
  Put_content_md5 v useMD5 l s = (s, Ok None).
Proof.
  intros Hv. unfold Put_content_md5, bind, map_get.
  destruct (default ∅ (heap s !! l) !! "Content-MD5"); [reflexivity|].
  destruct useMD5; [|reflexivity].
  destruct v; try reflexivity. destruct (Hv fd); reflexivity.
Qed.

Lemma Put_content_md5_present v useMD5 l m s :
  heap s !! l = Some m -> is_Some (m !! "Content-MD5") ->
  Put_content_md5 v useMD5 l s = (s, Ok None).
Proof.
  intros Hl [md Hmd]. unfold Put_content_md5, bind, map_get.
  rewrite Hl. simpl. rewrite Hmd. reflexivity.
Qed.

Lemma Put_send key v l m s :
  heap s !! l = Some m -> 
  (let* (res, err) := doRESTRequest "PUT" key "" (Some l) (Some v) in
   ret (snd res, err)) s =
    let d := genRFC1123Date env (trace s) in
    let hd := rest_headers "PUT" key d m in
    let r := doHTTPRequest env (trace s) "PUT" (rest_url key) hd (rest_body "PUT" (Some v)) in
    (mkState (<[l := hd]> (heap s))
             (trace s ++ [EvHTTP "PUT" (rest_url key) hd (rest_body "PUT" (Some v))
                            (fst r) (snd r)]),
     put_result r).
Proof.
  intros Hl. unfold bind. rewrite (doREST_general "PUT" key "" l m) by auto.
  cbv zeta. unfold put_result, rest_url_q. simpl.
  destruct (rest_result _) as [[[a b] c]| |]; reflexivity.
Qed.

Lemma bind_ext_run {A B} (m : M A) (k1 k2 : A -> M B) s :
  (forall a s1, m s = (s1, Ok a) -> k1 a s1 = k2 a s1) ->
  bind m k1 s = bind m k2 s.
Proof.
  intros H. unfold bind. destruct (m s) as [s1 [a| |]]; auto.
Qed.

Lemma Put_file_stat_error key fd useMD5 l m s e :
  heap s !! l = Some m -> m !! "Content-Length" = None ->
  os_Stat env (trace s) fd = inr e ->
  Put key (VFile fd) useMD5 (Some l) s
  = (mkState (heap s) (trace s ++ [EvStat fd (inr e)]), Ok (∅, Some e)).
Proof.
  intros Hl Hcl Hst. unfold Put, or_make, Put_content_length, bind, ret, map_get, call_Stat.
  rewrite Hl. simpl. rewrite Hcl, Hst. reflexivity.
Qed.

(** X6. A file whose length the caller did not give is asked for its size.
    When that fails, [Put] returns the failure, sends nothing and leaves the
    caller's headers as they were; otherwise the size goes out as
    [Content-Length], the signature covers it, and the body of the request
    is the file itself. *)
Theorem Put_file_is_measured key fd useMD5 l m s s' out :
  heap s !! l = Some m -> m !! "Content-Length" = None ->
  useMD5 = false \/ is_Some (m !! "Content-MD5") ->
  Put key (VFile fd) useMD5 (Some l) s = (s', out) ->
  match os_Stat env (trace s) fd with
  | inr e =>
      out = Ok (∅, Some e) /\ heap s' = heap s
      /\ trace s' = trace s ++ [EvStat fd (inr e)]
  | inl size =>
      exists hd resp err,
        trace s' = trace s ++ [EvStat fd (inl size);
                               EvHTTP "PUT" (rest_url key) hd (Some (VFile fd)) resp err]
        /\ heap s' !! l = Some hd
        /\ hd !! "Content-Length" = Some (itoa size)
        /\ hd !! "Authorization"
           = Some (makeRESTAuth "PUT" (rest_uri key)
                     (genRFC1123Date env (trace s ++ [EvStat fd (inl size)])) (itoa size))
        /\ out = put_result (resp, err)
  end.
Proof.
  intros Hl Hcl Hmd Hrun. destruct (os_Stat env (trace s) fd) as [size|e] eqn:Hst.
  2:{ rewrite (Put_file_stat_error key fd useMD5 l m s e Hl Hcl Hst) in Hrun.
      injection Hrun as <- <-. auto. }
  unfold Put, or_make in Hrun.
  rewrite (bind_Ok (ret l) _ s s l) in Hrun by reflexivity.
  erewrite bind_Ok in Hrun.
  2:{ unfold Put_content_length, bind, ret, map_get, call_Stat, map_set.
      rewrite Hl. simpl. rewrite Hcl, Hst. simpl. rewrite Hl. reflexivity. }
  cbv beta iota in Hrun.
  assert (Hstage : forall s1,
    heap s1 !! l = Some (<["Content-Length" := itoa size]> m) ->
    Put_content_md5 (VFile fd) useMD5 l s1 = (s1, Ok None)).
  { intros s1 Hl1. destruct Hmd as [Hmd | Hmd].
    - subst useMD5. apply Put_content_md5_off.
    - eapply Put_content_md5_present; [exact Hl1|].
      rewrite lookup_insert_ne by discriminate. exact Hmd. }
  cbn [default from_option] in Hrun. unfold id in Hrun.
  erewrite bind_Ok in Hrun by (apply Hstage; simpl; apply lookup_insert_eq).
  cbv beta iota in Hrun.
  rewrite (Put_send key (VFile fd) l (<["Content-Length" := itoa size]> m)) in Hrun
    by (simpl; apply lookup_insert_eq).
  cbv zeta in Hrun. cbn [heap trace] in Hrun. injection Hrun as <- <-.
  eexists _, _, _. split; [cbn [trace]; rewrite <- app_assoc; reflexivity|].
  split; [cbn [heap]; apply lookup_insert_eq|].
  split; [rewrite rest_headers_CL; apply lookup_insert_eq|].
  split; [|destruct (doHTTPRequest _ _ _ _ _ _); reflexivity].
  unfold rest_headers. rewrite lookup_insert_eq. cbn [default from_option]. unfold id.
  destruct (Contains (endpoint u) "api.upyun.com"); map_look; reflexivity.
Qed.

(** X7. A reader that is not a file and comes without [Content-Length] is read
    to its end before anything is sent: a failing read is returned with no
    request made, and otherwise the request carries the bytes read, their
    count as [Content-Length], and no digest the caller did not give,
    whatever [useMD5] says. *)
Theorem Put_reader_is_buffered key v useMD5 l m s s' out :
  heap s !! l = Some m -> m !! "Content-Length" = None ->
  (forall fd, v <> VFile fd) ->
  Put key v useMD5 (Some l) s = (s', out) ->
  let r := io_Copy env (trace s) v in
  match snd r with
  | Some e =>
      out = Ok (∅, Some e) /\ heap s' = heap s
      /\ trace s' = trace s ++ [EvRead v (fst r) (Some e)]
  | None =>
      exists hd resp err,
        trace s' = trace s ++ [EvRead v (fst r) None;
                               EvHTTP "PUT" (rest_url key) hd (Some (VBuffer (fst r))) resp err]
        /\ hd !! "Content-Length" = Some (itoa (Z.of_nat (String.length (fst r))))
        /\ hd !! "Content-MD5" = m !! "Content-MD5"
        /\ out = put_result (resp, err)
  end.
Proof.
  intros Hl Hcl Hv Hrun r. unfold Put, or_make in Hrun.
  rewrite (bind_Ok (ret l) _ s s l) in Hrun by reflexivity.
  assert (Hstage : Put_content_length v l s =
    (let* (data, err) := call_io_Copy v in
     match err with
     | Some e => ret (inr (∅, Some e))
     | None =>
         map_set l "Content-Length" (itoa (Z.of_nat (String.length data))) ;;;
         ret (inl (VBuffer data))
     end) s).
  { unfold Put_content_length. unfold bind at 1. unfold map_get.
    rewrite Hl. cbn [default from_option]. unfold id. rewrite Hcl.
    destruct v; try reflexivity. destruct (Hv fd); reflexivity. }
  unfold bind at 1 in Hrun. rewrite Hstage in Hrun. clear Hstage.
  unfold bind at 1, call_io_Copy in Hrun. fold r in Hrun.
  destruct r as [data [e|]] eqn:Er; cbn [fst snd] in *.
  - injection Hrun as <- <-. auto.
  - unfold bind at 1, map_set, ret in Hrun. cbn [heap trace] in Hrun.
    rewrite Hl in Hrun. cbn [default from_option] in Hrun. unfold id in Hrun.
    rewrite (bind_Ok _ _ _ _ _ (Put_content_md5_not_file (VBuffer data) useMD5 l _
               ltac:(discriminate))) in Hrun.
    cbv beta iota in Hrun.
    rewrite (Put_send key (VBuffer data) l
               (<["Content-Length" := itoa (Z.of_nat (String.length data))]> m)) in Hrun
      by (simpl; apply lookup_insert_eq).
    cbv zeta in Hrun. cbn [heap trace] in Hrun. injection Hrun as <- <-.
    eexists _, _, _. split; [cbn [trace]; rewrite <- app_assoc; reflexivity|].
    split; [rewrite rest_headers_CL; apply lookup_insert_eq|].
    split; [|destruct (doHTTPRequest _ _ _ _ _ _); reflexivity].
    rewrite rest_headers_lookup_ne by discriminate.
    rewrite lookup_insert_ne by discriminate. reflexivity.
Qed.

(** X8. [useMD5] only matters for files: for every other reader [Put] does the
    same with and without it. *)
Theorem Put_useMD5_only_files key v headers s :
  (forall fd, v <> VFile fd) ->
  Put key v true headers s = Put key v false headers s.
Proof.
  intros Hv. unfold Put. apply bind_ext_run. intros l s1 _.
  apply bind_ext_run. intros [v'|early] s2 E; [|reflexivity].
  assert (Hv' : forall fd, v' <> VFile fd).
  { unfold Put_content_length, bind, map_get, ret in E.
    destruct (default ∅ (heap s1 !! l) !! "Content-Length").
    - injection E as _ <-. exact Hv.
    - destruct v; try (destruct (Hv fd); reflexivity).
      all: unfold call_io_Copy, map_set in E; cbn [heap trace] in E;
        match type of E with context [io_Copy ?a ?b ?c] =>
          destruct (io_Copy a b c) as [? [?|]] end; cbn [fst snd] in E;
        [discriminate|]; injection E as _ <-; discriminate. }
  unfold bind at 1 3.
  rewrite (Put_content_md5_not_file v' true l s2 Hv'), (Put_content_md5_off v' l s2).
  reflexivity.
Qed.


(** X10. With [Content-Length] and [Content-MD5] both given, [Put] neither
    measures nor reads what it sends: its one event is the request, which
    carries the reader as it came and every header of the caller's other
    than [Date], [Authorization] and [Host] unchanged. *)
Theorem Put_supplied_headers_untouched key v useMD5 l m s s' out :
  heap s !! l = Some m ->
  is_Some (m !! "Content-Length") -> is_Some (m !! "Content-MD5") ->
  Put key v useMD5 (Some l) s = (s', out) ->
  exists hd resp err,
    trace s' = trace s ++ [EvHTTP "PUT" (rest_url key) hd (rest_body "PUT" (Some v)) resp err]
    /\ (forall k, k <> "Date" -> k <> "Authorization" -> k <> "Host" -> hd !! k = m !! k)
    /\ out = put_result (resp, err).
Proof.
  intros Hl Hcl Hmd Hrun. unfold Put, or_make in Hrun.
  rewrite (bind_Ok (ret l) _ s s l) in Hrun by reflexivity.
  rewrite (bind_Ok _ _ _ _ _ (Put_content_length_present v l m s Hl Hcl)) in Hrun.
  cbv beta iota in Hrun.
  rewrite (bind_Ok _ _ _ _ _ (Put_content_md5_present v useMD5 l m s Hl Hmd)) in Hrun.
  cbv beta iota in Hrun.
  rewrite (Put_send key v l m s Hl) in Hrun. cbv zeta in Hrun.
  injection Hrun as <- <-.
  eexists _, _, _. split; [reflexivity|].
  split; [|destruct (doHTTPRequest _ _ _ _ _ _); reflexivity].
  intros k H1 H2 H3. apply rest_headers_lookup_ne; assumption.
Qed.

Lemma plain_put_intro key fd m m' d resp err :
  (forall k, ~ put_written k -> m' !! k = m !! k) ->
  plain_put key fd m
    (EvHTTP "PUT" (rest_url key) (rest_headers "PUT" key d m') (Some (VFile fd)) resp err).
Proof.
  intros Hm. eexists _, _, _. split; [reflexivity|]. intros k Hk.
  rewrite rest_headers_lookup_ne; [apply Hm; exact Hk|..];
    intros ->; apply Hk; unfold put_written; auto.
Qed.

(** The events of a [Put] of a file: what it does with the file, then at
    most one request. *)
Lemma Put_file_events key fd useMD5 l m s s' out :
  heap s !! l = Some m ->
  Put key (VFile fd) useMD5 (Some l) s = (s', out) ->
  exists pre last,
    trace s' = trace s ++ pre ++ last
    /\ Forall (put_prelude fd) pre
    /\ (last = [] \/ exists e, last = [e] /\ plain_put key fd m e).
Proof.
  intros Hl Hrun. unfold Put, or_make in Hrun.
  rewrite (bind_Ok (ret l) _ s s l) in Hrun by reflexivity.
  assert (Hlen : exists s1 r pre m1,
    Put_content_length (VFile fd) l s = (s1, Ok r)
    /\ trace s1 = trace s ++ pre /\ Forall (put_prelude fd) pre
    /\ heap s1 !! l = Some m1 /\ (forall k, ~ put_written k -> m1 !! k = m !! k)
    /\ match r with inl v => v = VFile fd | inr _ => True end).
  { unfold Put_content_length, bind, map_get, call_Stat, map_set, ret.
    rewrite Hl. cbn [default from_option]. unfold id.
    destruct (m !! "Content-Length").
    - exists s, (inl (VFile fd)), [], m. rewrite app_nil_r. repeat split; auto.
    - destruct (os_Stat env (trace s) fd) as [size|e] eqn:Est.
      + eexists _, _, [_], _. split; [reflexivity|]. cbn [heap trace].
        split; [reflexivity|]. split; [repeat constructor|].
        split; [apply lookup_insert_eq|]. rewrite Hl. cbn [default from_option]. unfold id.
        split; [|reflexivity]. intros k Hk. apply lookup_insert_ne.
        intros <-. apply Hk. unfold put_written. auto.
      + eexists _, _, [_], m. split; [reflexivity|]. cbn [heap trace].
        split; [reflexivity|]. split; [repeat constructor|]. repeat split; auto. }
  destruct Hlen as (s1 & r & pre1 & m1 & Hrun1 & Htr1 & Hpre1 & Hl1 & Hm1 & Hr).
  rewrite (bind_Ok _ _ _ _ _ Hrun1) in Hrun.
  destruct r as [v|early].
  2:{ injection Hrun as <- _. exists pre1, []. rewrite app_nil_r. auto. }
  subst v.
  assert (Hmd : exists s2 r pre m2,
    Put_content_md5 (VFile fd) useMD5 l s1 = (s2, Ok r)
    /\ trace s2 = trace s1 ++ pre /\ Forall (put_prelude fd) pre
    /\ heap s2 !! l = Some m2 /\ (forall k, ~ put_written k -> m2 !! k = m1 !! k)).
  { unfold Put_content_md5, bind, map_get, call_io_Copy, call_Seek, map_set, ret.
    rewrite Hl1. cbn [default from_option]. unfold id.
    destruct (m1 !! "Content-MD5").
    { exists s1, None, [], m1. rewrite app_nil_r. repeat split; auto. }
    destruct useMD5.
    2:{ exists s1, None, [], m1. rewrite app_nil_r. repeat split; auto. }
    destruct (io_Copy env (trace s1) (VFile fd)) as [data [e|]]; cbn [fst snd heap trace].
    { eexists _, _, [_], m1. split; [reflexivity|]. cbn [heap trace].
      split; [reflexivity|]. split; [repeat constructor|]. split; auto. }
    rewrite Hl1. cbn [default from_option]. unfold id.
    assert (Hk : forall k, ~ put_written k ->
              <["Content-MD5" := md5_hex env data]> m1 !! k = m1 !! k).
    { intros k Hk. apply lookup_insert_ne. intros <-. apply Hk. unfold put_written. auto. }
    destruct (os_Seek env _ fd 0).
    - eexists _, _, [_; _], _. split; [reflexivity|]. cbn [heap trace].
      split; [rewrite <- app_assoc; reflexivity|]. split; [repeat constructor|].
      split; [apply lookup_insert_eq|exact Hk].
    - eexists _, _, [_; _], _. split; [reflexivity|]. cbn [heap trace].
      split; [rewrite <- app_assoc; reflexivity|]. split; [repeat constructor|].
      split; [apply lookup_insert_eq|exact Hk]. }
  destruct Hmd as (s2 & r & pre2 & m2 & Hrun2 & Htr2 & Hpre2 & Hl2 & Hm2).
  rewrite (bind_Ok _ _ _ _ _ Hrun2) in Hrun.
  destruct r as [early|].
  { injection Hrun as <- _. exists (pre1 ++ pre2), []. rewrite app_nil_r.
    split; [rewrite Htr2, Htr1, app_assoc; reflexivity|].
    split; [apply Forall_app; split; assumption|left; reflexivity]. }
  rewrite (Put_send key (VFile fd) l m2 s2 Hl2) in Hrun. cbv zeta in Hrun.
  injection Hrun as <- _. cbn [trace]. eexists (pre1 ++ pre2), [_].
  split; [rewrite Htr2, Htr1, <- !app_assoc; reflexivity|].
  split; [apply Forall_app; split; assumption|]. right. eexists. split; [reflexivity|].
  apply plain_put_intro. intros k Hk. rewrite (Hm2 k Hk). apply Hm1. exact Hk.
Qed.

(** ** More about [ResumePut] *)

Section RetryShape.

Variables (key : string) (fd : nat) (off lim : Z) (useMD5 : bool) (l : nat).

Let file := VFragment fd off lim.

Lemma retry_loop_shape n :
  forall i s m resp0,
  heap s !! l = Some m -> is_Some (m !! "Content-Length") ->
  exists s' out evs,
    retry_loop n i key file useMD5 l resp0 s = (s', out)
    /\ trace s' = trace s ++ evs
    /\ Forall (retry_event key file) evs
    /\ (forall h err, out = Ok (LoopReturn h err) ->
        exists pre e x, evs = pre ++ [e] /\ err = Some x /\ is_http e = true
                        /\ error_of_event e h x).
Proof.
  induction n as [|n IH]; intros i s m resp0 Hl Hcl.
  { exists s, (Ok (LoopDone resp0)), []. simpl. rewrite app_nil_r.
    repeat split; auto. discriminate. }
  simpl. unfold bind at 1. unfold file.
  rewrite (Put_fragment _ _ _ _ _ _ _ _ Hl Hcl). cbv zeta. fold file.
  set (d := genRFC1123Date env (trace s)).
  set (hd := rest_headers "PUT" key d m).
  set (r := doHTTPRequest env (trace s) "PUT" (rest_url key) hd (Some file)).
  set (ev := EvHTTP "PUT" (rest_url key) hd (Some file) (fst r) (snd r)).
  assert (Hev : retry_event key file ev) by (simpl; auto).
  destruct (put_result r) as [[resp [e|]]| |] eqn:Hput.
  - assert (Hone : exists s' out evs,
      (mkState (<[l:=hd]> (heap s)) (trace s ++ [ev]), Ok (LoopReturn resp (Some e))) = (s', out)
      /\ trace s' = trace s ++ evs /\ Forall (retry_event key file) evs
      /\ (forall h err, out = Ok (LoopReturn h err) ->
          exists pre e x, evs = pre ++ [e] /\ err = Some x /\ is_http e = true
                          /\ error_of_event e h x)).
    { eexists _, _, [ev]. split; [reflexivity|]. split; [reflexivity|].
      split; [constructor; [exact Hev|constructor]|].
      intros h err Hout. injection Hout as <- <-. exists [], ev, e.
      repeat split. simpl. destruct r; exact Hput. }
    destruct (err_net e); simpl; [|exact Hone].
    destruct (i =? ResumeRetryCount env); [exact Hone|]. clear Hone.
    unfold bind at 1. unfold emit at 1. unfold bind at 1. unfold emit at 1. simpl.
    destruct (IH (wrap (i + 1))
                (mkState (<[l:=hd]> (heap s))
                   (((trace s ++ [ev]) ++ [EvSleep (ResumeWaitTime env)])
                    ++ [EvFragmentSeek file 0])) hd resp)
      as (s' & out & evs & Hrun & Htr & Hall & Hex).
    { simpl. apply lookup_insert_eq. }
    { unfold hd. rewrite rest_headers_CL. exact Hcl. }
    simpl in Hrun. rewrite Hrun.
    exists s', out, (ev :: EvSleep (ResumeWaitTime env) :: EvFragmentSeek file 0 :: evs).
    split; [reflexivity|].
    split; [rewrite Htr; simpl; rewrite <- !app_assoc; reflexivity|].
    split.
    { constructor; [exact Hev|]. constructor; [reflexivity|].
      constructor; [split; reflexivity|exact Hall]. }
    intros h err Hout. destruct (Hex h err Hout) as (pre & e' & x & -> & Hx & He').
    exists (ev :: EvSleep (ResumeWaitTime env) :: EvFragmentSeek file 0 :: pre), e', x.
    split; [reflexivity|]. split; assumption.
  - eexists _, _, [ev]. split; [reflexivity|]. split; [reflexivity|].
    split; [constructor; [exact Hev|constructor]|]. discriminate.
  - eexists _, _, [ev]. split; [reflexivity|]. split; [reflexivity|].
    split; [constructor; [exact Hev|constructor]|]. discriminate.
  - eexists _, _, [ev]. split; [reflexivity|]. split; [reflexivity|].
    split; [constructor; [exact Hev|constructor]|]. discriminate.
Qed.

End RetryShape.

(** The events of [part_headers]: the whole file is rewound and hashed for
    the last part of several, when [useMD5] is set, and otherwise never. *)
Lemma part_headers_trace value useMD5 hl il size maxPartID part s s' out :
  part_headers value useMD5 hl il size maxPartID part s = (s', out) ->
  trace s' = trace s ++
    (if useMD5 && negb (part =? 0) && (part =? maxPartID)
     then [EvFileSeek value 0;
           EvMd5sum (VFile value) (md5sum env (trace s ++ [EvFileSeek value 0]) (VFile value))]
     else []).
Proof.
  destruct s as [H T]. 
  unfold part_headers, bind, map_copy_into, map_set, map_get, ret, call_Seek, call_md5sum.
  cbn [heap trace].
  destruct (part =? 0); cbn [negb andb].
  - rewrite andb_false_r. intros E. injection E as <- _. simpl. rewrite app_nil_r. reflexivity.
  - rewrite andb_true_r. destruct (part =? maxPartID).
    + rewrite andb_true_r. destruct useMD5.
      * intros E. injection E as <- _. simpl. rewrite <- app_assoc. reflexivity.
      * intros E. injection E as <- _. simpl. rewrite app_nil_r. reflexivity.
    + rewrite andb_false_r. intros E. injection E as <- _. simpl. rewrite app_nil_r. reflexivity.
Qed.

Lemma part_headers_steps key value useMD5 maxPartID part hex :
  Forall (part_step key value useMD5 maxPartID part)
    (if useMD5 && negb (part =? 0) && (part =? maxPartID)
     then [EvFileSeek value 0; EvMd5sum (VFile value) hex] else []).
Proof.
  destruct useMD5; [|constructor].
  destruct (Z.eqb_spec part 0); [constructor|].
  destruct (Z.eqb_spec part maxPartID); [|constructor].
  cbn [andb negb]. repeat constructor; assumption.
Qed.

Lemma send_part_shape key value useMD5 hl size maxPartID part resp0 b s :
  heap s !! hl = Some b -> 0 <= ResumeRetryCount env < int_max ->
  exists s' out evs,
    send_part key value useMD5 hl size maxPartID part resp0 s = (s', out)
    /\ trace s' = trace s ++ evs
    /\ heap s' !! hl = Some b
    /\ sent_parts evs = match out with Ok (LoopDone _) => [itoa part] | _ => [] end
    /\ Forall (part_step key value useMD5 maxPartID part) evs
    /\ (forall h err, out = Ok (LoopReturn h err) ->
        exists pre e x, evs = pre ++ [e] /\ err = Some x /\ error_of_event e h x).
Proof.
  intros Hb HN.
  destruct (send_part_run key value useMD5 hl size maxPartID part resp0 b s Hb HN)
    as (s' & out & evs & il0 & m' & Hrun & Htr & Hil0 & Hheap0 & Hall & Hex).
  exists s', out, evs. split; [exact Hrun|]. split; [exact Htr|].
  split.
  { rewrite Hheap0, lookup_insert_ne by congruence. exact Hb. }
  split.
  { destruct out as [[resp|resp err]| |].
    - eapply exit_done_sent_parts; eassumption.
    - apply sent_parts_no_success. apply Hex.
    - apply sent_parts_no_success. exact Hex.
    - apply sent_parts_no_success. exact Hex. }
  clear Hil0 Hheap0 Hex.
  assert (Hweak : forall evs',
    Forall (fun e => match e with
                     | EvHTTP _ _ _ _ _ _ =>
                         retry_event key (VFragment value (wrap (part * resumePartSize env))
                                            (resumePartSize env)) e
                     | _ => part_step key value useMD5 maxPartID part e
                     end) evs' ->
    Forall (part_event key b size maxPartID part) evs' ->
    Forall (part_step key value useMD5 maxPartID part) evs').
  { intros evs' H1 H2. induction H1 as [|e evs' He _ IH]; [constructor|].
    inversion H2 as [|? ? He2 H2']; subst. constructor; [|apply IH; exact H2'].
    destruct e; try exact He. split; [exact He|].
    eapply part_request_part_id. apply He2. reflexivity. }
  enough (Hshape :
    Forall (fun e => match e with
                     | EvHTTP _ _ _ _ _ _ =>
                         retry_event key (VFragment value (wrap (part * resumePartSize env))
                                            (resumePartSize env)) e
                     | _ => part_step key value useMD5 maxPartID part e
                     end) evs
    /\ (forall h err, out = Ok (LoopReturn h err) ->
        exists pre e x, evs = pre ++ [e] /\ err = Some x /\ error_of_event e h x)).
  { destruct Hshape as [H1 H2]. split; [apply Hweak; assumption|exact H2]. }
  clear Hweak Hall.
  destruct s as [H T]. simpl in *. revert Hrun.
  unfold send_part. rewrite (bind_Ok _ _ _ _ _ (make_map_run _)). cbn [heap trace].
  set (il := fresh (dom H)).
  assert (Hne : hl <> il) by (eapply fresh_not_in; eassumption).
  destruct (part_headers_run value useMD5 hl il size maxPartID part b
              (mkState (<[il:=∅]> H) T)) as (evs1 & mm & Hrun1 & Hev1);
    [simpl; rewrite lookup_insert_ne by congruence; exact Hb
    |simpl; apply lookup_insert_eq|exact Hne|].
  pose proof (part_headers_trace _ _ _ _ _ _ _ _ _ _ Hrun1) as Htr1.
  cbn [trace] in Htr1. apply app_inv_head in Htr1.
  assert (Hst1 : Forall (part_step key value useMD5 maxPartID part) evs1)
    by (rewrite Htr1; apply part_headers_steps).
  clear Htr1 Hev1.
  rewrite (bind_Ok _ _ _ _ _ Hrun1). cbn [heap trace]. rewrite insert_insert_eq.
  unfold bind at 1. unfold call_NewFragmentFile at 1. cbn [heap trace].
  set (off := wrap (part * resumePartSize env)).
  set (file := VFragment value off (resumePartSize env)).
  destruct (NewFragmentFile env (T ++ evs1) value off (resumePartSize env)) as [err|] eqn:Enf.
  { intros E. injection E as <- <-. cbn [trace] in Htr.
    rewrite <- app_assoc in Htr. apply app_inv_head in Htr. subst evs.
    split.
    - apply Forall_app. split.
      + eapply Forall_impl; [exact Hst1|]. intros e He. destruct e; try exact He.
        destruct He as [He _]. exact He.
      + repeat constructor.
    - intros h e Hout. injection Hout as <- <-. eexists evs1, _, err.
      split; [reflexivity|]. split; reflexivity. }
  set (evn := EvNewFragment value off (resumePartSize env) None).
  assert (Hmd : exists evs2 pm,
    (if useMD5
     then let* hex := call_Fragment_MD5 file in map_set il "Content-MD5" hex
     else ret tt)
      (mkState (<[il:=inner_headers b size maxPartID part mm None]> H) ((T ++ evs1) ++ [evn]))
    = (mkState (<[il:=inner_headers b size maxPartID part mm pm]> H) (T ++ evs2), Ok tt)
    /\ Forall (part_step key value useMD5 maxPartID part) evs2).
  { destruct useMD5.
    - unfold bind at 1. unfold call_Fragment_MD5 at 1. cbn [heap trace].
      erewrite map_set_run by solve_lookup. rewrite insert_insert_eq.
      eexists (evs1 ++ [evn; _]), (Some _). split.
      + rewrite <- !app_assoc. reflexivity.
      + apply Forall_app. split; [exact Hst1|]. repeat constructor.
    - exists (evs1 ++ [evn]), None. split; [rewrite app_assoc; reflexivity|].
      apply Forall_app. split; [exact Hst1|]. repeat constructor. }
  destruct Hmd as (evs2 & pm & Hrun2 & Hst2).
  rewrite (bind_Ok _ _ _ _ _ Hrun2).
  set (m0 := inner_headers b size maxPartID part mm pm).
  destruct (retry_loop_shape key value off (resumePartSize env) useMD5 il
              retry_count 0 (mkState (<[il:=m0]> H) (T ++ evs2)) m0 resp0)
    as (s3 & out3 & evs3 & Hrun3 & Htr3 & Hall3 & Hex3);
    [simpl; apply lookup_insert_eq|unfold m0; rewrite inner_headers_CL; eauto|].
  fold file in Hrun3, Hall3. rewrite Hrun3. intros E. injection E as <- <-.
  rewrite Htr3 in Htr. cbn [trace] in Htr. rewrite <- app_assoc in Htr.
  apply app_inv_head in Htr. subst evs. split.
  - apply Forall_app. split.
    + eapply Forall_impl; [exact Hst2|]. intros e He. destruct e; try exact He.
      destruct He as [He _]. exact He.
    + eapply Forall_impl; [exact Hall3|]. intros e He.
      destruct e; try exact He; destruct He.
  - intros h err Hout. destruct (Hex3 h err Hout) as (pre & e & x & -> & Hx & _ & He).
    exists (evs2 ++ pre), e, x. split; [rewrite app_assoc; reflexivity|]. split; assumption.
Qed.

Lemma reports_app a b : reports (a ++ b) = reports a ++ reports b.
Proof. unfold reports. apply omap_app. Qed.

Lemma reports_part_steps key value useMD5 maxPartID part evs :
  Forall (part_step key value useMD5 maxPartID part) evs -> reports evs = [].
Proof.
  induction 1 as [|e evs He _ IH]; [reflexivity|].
  change (reports (e :: evs))
    with (match report_of e with Some y => y :: reports evs | None => reports evs end).
  rewrite IH. destruct e; try reflexivity. destruct He.
Qed.

Lemma resume_event_mono key value useMD5 maxPartID lo hi lo' hi' e :
  lo' <= lo -> hi <= hi' ->
  resume_event key value useMD5 maxPartID lo hi e ->
  resume_event key value useMD5 maxPartID lo' hi' e.
Proof. intros H1 H2 (part & Hp & He). exists part. split; [lia|exact He]. Qed.

Section PartsShape.

Variables (key : string) (value : nat) (useMD5 : bool) (hl : nat) (reporter : bool).
Variables (size maxPartID : Z).
Hypothesis HN : 0 <= ResumeRetryCount env < int_max.
Hypothesis Hmax : maxPartID < int_max.

Lemma parts_loop_shape n :
  forall p s resp0 b,
  0 <= p -> p + Z.of_nat n = maxPartID + 1 ->
  heap s !! hl = Some b ->
  exists s' out evs k,
    parts_loop n p key value useMD5 hl reporter size maxPartID resp0 s = (s', out)
    /\ trace s' = trace s ++ evs
    /\ Forall (resume_event key value useMD5 maxPartID p (p + k + 1)) evs
    /\ 0 <= k <= Z.of_nat n
    /\ sent_parts evs = map itoa (seqZ p k)
    /\ reports evs = (if reporter then map (fun q => (q, maxPartID)) (seqZ p k) else [])
    /\ (k = Z.of_nat n <-> exists h, out = Ok (h, None))
    /\ (k = Z.of_nat n -> Forall (resume_event key value useMD5 maxPartID p (p + k)) evs)
    /\ (forall h x, out = Ok (h, Some x) ->
        exists pre e, evs = pre ++ [e] /\ error_of_event e h x).
Proof.
  induction n as [|n IH]; intros p s resp0 b Hp Hn Hb.
  { exists s, (Ok (resp0, None)), [], 0. simpl. rewrite app_nil_r.
    split; [reflexivity|]. split; [reflexivity|]. split; [constructor|].
    split; [lia|]. split; [reflexivity|]. split; [destruct reporter; reflexivity|].
    split; [split; eauto|]. split; [constructor|]. discriminate. }
  cbn [parts_loop].
  destruct (send_part_shape key value useMD5 hl size maxPartID p resp0 b s Hb HN)
    as (s1 & out1 & evs1 & Hrun1 & Htr1 & Hb1 & Hsent1 & Hst1 & Herr1).
  assert (Hres1 : forall hi, p < hi ->
            Forall (resume_event key value useMD5 maxPartID p hi) evs1).
  { intros hi Hhi. eapply Forall_impl; [exact Hst1|]. intros e He.
    exists p. split; [lia|]. right. exact He. }
  assert (Hrep1 : reports evs1 = []) by (eapply reports_part_steps; exact Hst1).
  unfold bind at 1. rewrite Hrun1.
  destruct out1 as [[resp|resp err]| |].
  - (* the part was sent *)
    rewrite (bind_Ok _ _ _ _ _ (report_run reporter maxPartID p s1)).
    assert (Hnext : exists b2 s2,
      (if p =? 0
       then map_set hl "X-Upyun-Multi-UUID" (Header_Get resp "X-Upyun-Multi-Uuid")
       else ret tt)
        (mkState (heap s1) (trace s1 ++ (if reporter then [EvReport p maxPartID] else [])))
      = (s2, Ok tt)
      /\ heap s2 !! hl = Some b2
      /\ trace s2 = trace s1 ++ (if reporter then [EvReport p maxPartID] else [])).
    { destruct (p =? 0).
      - eexists _, _. split; [apply map_set_run; exact Hb1|].
        split; [apply lookup_insert_eq|reflexivity].
      - eexists b, _. split; [reflexivity|]. split; [exact Hb1|reflexivity]. }
    destruct Hnext as (b2 & s2 & Hrun2 & Hb2 & Htr2).
    rewrite (bind_Ok _ _ _ _ _ Hrun2).
    rewrite wrap_id by (unfold int_min, int_max in *; lia).
    destruct (IH (p + 1) s2 resp b2)
      as (s' & out & evs3 & k & Hrun3 & Htr3 & Hall3 & Hk & Hsent3 & Hrep3 & Hiff & Hfull & Herr3);
      [lia|lia|exact Hb2|].
    rewrite Hrun3.
    exists s', out, (evs1 ++ (if reporter then [EvReport p maxPartID] else []) ++ evs3), (k + 1).
    split; [reflexivity|].
    split; [rewrite Htr3, Htr2, Htr1, <- !app_assoc; reflexivity|].
    assert (Hrp : forall hi, p < hi ->
              Forall (resume_event key value useMD5 maxPartID p hi)
                (if reporter then [EvReport p maxPartID] else [])).
    { intros hi Hhi. destruct reporter; constructor; [|constructor].
      exists p. split; [lia|]. left. reflexivity. }
    split.
    { apply Forall_app. split; [apply Hres1; lia|].
      apply Forall_app. split; [apply Hrp; lia|].
      eapply Forall_impl; [exact Hall3|]. intros e.
      apply resume_event_mono; lia. }
    split; [lia|].
    split.
    { rewrite !sent_parts_app, Hsent1, Hsent3.
      rewrite (sent_parts_no_success (if reporter then _ else _)).
      2:{ eapply Forall_impl; [apply report_not_http|]. intros e. apply not_http_no_success. }
      rewrite (seqZ_cons p) by lia. simpl. repeat f_equal; lia. }
    split.
    { rewrite !reports_app, Hrep1, Hrep3. simpl.
      destruct reporter; [|reflexivity].
      rewrite (seqZ_cons p) by lia. simpl. repeat f_equal; lia. }
    split.
    { rewrite <- Hiff. lia. }
    split.
    { intros Hkn. apply Forall_app. split; [apply Hres1; lia|].
      apply Forall_app. split; [apply Hrp; lia|].
      eapply Forall_impl; [apply Hfull; lia|]. intros e.
      apply resume_event_mono; lia. }
    intros h x Hout. destruct (Herr3 h x Hout) as (pre & e & -> & He).
    exists (evs1 ++ (if reporter then [EvReport p maxPartID] else []) ++ pre), e.
    split; [rewrite <- !app_assoc; reflexivity|exact He].
  - (* ResumePut returns *)
    destruct (Herr1 resp err eq_refl) as (pre & e & x & Hevs & -> & He).
    exists s1, (Ok (resp, Some x)), evs1, 0. split; [reflexivity|].
    split; [exact Htr1|]. split; [apply Hres1; lia|]. split; [lia|].
    split; [exact Hsent1|]. split; [rewrite Hrep1; destruct reporter; reflexivity|].
    split; [split; [lia|intros [h Hh]; discriminate]|].
    split; [lia|].
    intros h x' Hout. injection Hout as <- <-. exists pre, e. split; assumption.
  - exists s1, (Panic msg), evs1, 0. split; [reflexivity|].
    split; [exact Htr1|]. split; [apply Hres1; lia|]. split; [lia|].
    split; [exact Hsent1|]. split; [rewrite Hrep1; destruct reporter; reflexivity|].
    split; [split; [lia|intros [h Hh]; discriminate]|].
    split; [lia|]. discriminate.
  - exists s1, OutOfFuel, evs1, 0. split; [reflexivity|].
    split; [exact Htr1|]. split; [apply Hres1; lia|]. split; [lia|].
    split; [exact Hsent1|]. split; [rewrite Hrep1; destruct reporter; reflexivity|].
    split; [split; [lia|intros [h Hh]; discriminate]|].
    split; [lia|]. discriminate.
Qed.

End PartsShape.

(** The chunked path of [ResumePut], event by event. *)
Lemma ResumePut_chunked key value useMD5 headers reporter s b size :
  0 <= ResumeRetryCount env < int_max ->
  0 < resumePartSize env -> 0 <= size <= int_max ->
  base_headers s headers b ->
  os_Stat env (trace s) value = inl size ->
  resumeFileSizeLowerLimit env <= size ->
  exists s' out evs k,
    ResumePut key value useMD5 headers reporter s = (s', out)
    /\ trace s' = trace s ++ EvStat value (inl size) :: evs
    /\ Forall (resume_event key value useMD5 (maxPartID_of size) 0 (maxPartID_of size + 1)) evs
    /\ 0 <= k <= maxPartID_of size + 1
    /\ sent_parts evs = map itoa (seqZ 0 k)
    /\ reports evs
       = (if reporter then map (fun q => (q, maxPartID_of size)) (seqZ 0 k) else [])
    /\ (k = maxPartID_of size + 1 <-> exists h, out = Ok (h, None))
    /\ (forall h x, out = Ok (h, Some x) ->
        exists pre e, evs = pre ++ [e] /\ error_of_event e h x).
Proof.
  intros HN HP Hsize Hb Hstat Hlim.
  destruct (maxPartID_of_eq size HP Hsize) as [_ Hrange].
  assert (Hor : exists hl s0, or_make headers s = (s0, Ok hl)
      /\ trace s0 = trace s /\ heap s0 !! hl = Some b).
  { destruct headers as [l|]; simpl in Hb.
    - exists l, s. auto.
    - subst b. eexists _, _. split; [apply make_map_run|]. simpl.
      split; [reflexivity|apply lookup_insert_eq]. }
  destruct Hor as (hl & s0 & Hor & Htr0 & Hb0).
  unfold ResumePut. rewrite (bind_Ok _ _ _ _ _ Hor).
  unfold bind at 1. unfold call_Stat at 1. rewrite Htr0, Hstat.
  assert (Hlt : (size <? resumeFileSizeLowerLimit env) = false) by lia. rewrite Hlt.
  destruct (parts_loop_shape key value useMD5 hl reporter size (maxPartID_of size) HN
              ltac:(lia) (Z.to_nat (maxPartID_of size + 1)) 0
              (mkState (heap s0) (trace s ++ [EvStat value (inl size)])) ∅ b)
    as (s' & out & evs & k & Hrun & Htr & Hall & Hk & Hsent & Hrep & Hiff & Hfull & Herr);
    [lia|lia|exact Hb0|].
  rewrite Z2Nat.id in * by lia.
  rewrite Hrun. exists s', out, evs, k. split; [reflexivity|].
  split; [rewrite Htr; simpl; rewrite <- app_assoc; reflexivity|].
  split.
  { destruct (Z.eq_dec k (maxPartID_of size + 1)) as [Hkn|Hkn].
    - eapply Forall_impl; [apply Hfull; exact Hkn|]. intros e.
      apply resume_event_mono; lia.
    - eapply Forall_impl; [exact Hall|]. intros e. apply resume_event_mono; lia. }
  repeat split; try tauto; try lia.
Qed.

(** X11. When the file cannot be measured, [ResumePut] returns that failure and
    nothing reaches the network or the reporter. *)
Theorem ResumePut_stat_error key value useMD5 headers reporter s e :
  os_Stat env (trace s) value = inr e ->
  exists s',
    ResumePut key value useMD5 headers reporter s = (s', Ok (∅, Some e))
    /\ trace s' = trace s ++ [EvStat value (inr e)].
Proof.
  intros Hst. unfold ResumePut.
  destruct headers as [l|]; cbn [or_make].
  - rewrite (bind_Ok (ret l) _ s s l) by reflexivity.
    unfold bind, call_Stat. rewrite Hst. eexists. split; reflexivity.
  - rewrite (bind_Ok _ _ _ _ _ (make_map_run s)).
    unfold bind, call_Stat. cbn [trace heap]. rewrite Hst. eexists. split; reflexivity.
Qed.

(** X12. A file below the threshold goes out as one plain [Put]: after the
    measuring, [ResumePut] only prepares that file and sends at most one
    request, whose body is the whole file and whose headers are the caller's
    plus those [Put] writes; there is no part header, no window, no wait and
    no call of the reporter. *)
Theorem ResumePut_small_file key value useMD5 l m reporter s size s' out :
  heap s !! l = Some m ->
  os_Stat env (trace s) value = inl size ->
  size < resumeFileSizeLowerLimit env ->
  ResumePut key value useMD5 (Some l) reporter s = (s', out) ->
  exists pre last,
    trace s' = trace s ++ EvStat value (inl size) :: pre ++ last
    /\ Forall (put_prelude value) pre
    /\ (last = [] \/ exists e, last = [e] /\ plain_put key value m e)
    /\ reports (pre ++ last) = [].
Proof.
  intros Hl Hst Hlt Hrun. unfold ResumePut, or_make in Hrun.
  rewrite (bind_Ok (ret l) _ s s l) in Hrun by reflexivity.
  unfold bind at 1, call_Stat in Hrun. rewrite Hst in Hrun.
  assert (Hb : (size <? resumeFileSizeLowerLimit env) = true) by lia.
  rewrite Hb in Hrun.
  apply (Put_file_events key value useMD5 l m) in Hrun; [|exact Hl].
  destruct Hrun as (pre & last & Htr & Hpre & Hlast).
  exists pre, last. split; [rewrite Htr; cbn [trace]; rewrite <- app_assoc; reflexivity|].
  split; [exact Hpre|]. split; [exact Hlast|].
  rewrite reports_app.
  assert (Hr1 : reports pre = []).
  { clear -Hpre. induction Hpre as [|e pre He _ IH]; [reflexivity|].
    change (reports (e :: pre))
      with (match report_of e with Some y => y :: reports pre | None => reports pre end).
    rewrite IH. destruct e; try reflexivity. destruct He. }
  rewrite Hr1. destruct Hlast as [-> | (e & -> & hd & resp & err & -> & _)]; reflexivity.
Qed.

(** X13. Progress of a chunked upload.  In every run, failed or not, the parts
    that went through are [0 .. k - 1] in this order, each once; the
    reporter, when there is one, was called once after each of them, in the
    same order and with the number of the last part; and the call returns
    without error exactly when [k] is the number of parts. *)
Theorem ResumePut_progress key value useMD5 headers reporter s b size s' out :
  0 <= ResumeRetryCount env < int_max ->
  0 < resumePartSize env -> 0 <= size <= int_max ->
  base_headers s headers b ->
  os_Stat env (trace s) value = inl size ->
  resumeFileSizeLowerLimit env <= size ->
  ResumePut key value useMD5 headers reporter s = (s', out) ->
  exists evs k,
    trace s' = trace s ++ evs
    /\ 0 <= k <= maxPartID_of size + 1
    /\ sent_parts evs = map itoa (seqZ 0 k)
    /\ reports evs
       = (if reporter then map (fun q => (q, maxPartID_of size)) (seqZ 0 k) else [])
    /\ (k = maxPartID_of size + 1 <-> exists h, out = Ok (h, None)).
Proof.
  intros HN HP Hsize Hb Hstat Hlim Hrun.
  destruct (ResumePut_chunked key value useMD5 headers reporter s b size
              HN HP Hsize Hb Hstat Hlim)
    as (s'' & out' & evs & k & Hrun' & Htr & _ & Hk & Hsent & Hrep & Hiff & _).
  rewrite Hrun in Hrun'. injection Hrun' as <- <-.
  exists (EvStat value (inl size) :: evs), k. auto.
Qed.

(** X14. What a chunked upload touches.  After the measuring, every event is a
    call of the reporter or belongs to one part [0 .. maxPartID]: a request
    is a PUT to the key whose body is the window of [resumePartSize] bytes
    at [part * resumePartSize] and whose part header names that part; the
    whole file is rewound and hashed only with [useMD5], and only for the
    last part of several.  No window offset overflows. *)
Theorem ResumePut_part_windows key value useMD5 headers reporter s b size s' out :
  0 <= ResumeRetryCount env < int_max ->
  0 < resumePartSize env -> 0 <= size <= int_max ->
  base_headers s headers b ->
  os_Stat env (trace s) value = inl size ->
  resumeFileSizeLowerLimit env <= size ->
  ResumePut key value useMD5 headers reporter s = (s', out) ->
  (exists evs,
     trace s' = trace s ++ EvStat value (inl size) :: evs
     /\ Forall (resume_event key value useMD5 (maxPartID_of size) 0 (maxPartID_of size + 1))
          evs)
  /\ forall part, 0 <= part <= maxPartID_of size ->
       wrap (part * resumePartSize env) = part * resumePartSize env
       /\ part * resumePartSize env < size.
Proof.
  intros HN HP Hsize Hb Hstat Hlim Hrun.
  destruct (ResumePut_chunked key value useMD5 headers reporter s b size
              HN HP Hsize Hb Hstat Hlim)
    as (s'' & out' & evs & k & Hrun' & Htr & Hall & _).
  rewrite Hrun in Hrun'. injection Hrun' as <- <-.
  split; [exists evs; auto|].
  intros part Hpart.
  destruct (maxPartID_of_eq size HP Hsize) as [Hmax _].
  pose proof (Z.mul_div_le size (resumePartSize env) HP) as Hle.
  pose proof (Z.div_mod size (resumePartSize env) ltac:(lia)) as Hdm.
  pose proof (Z.mod_pos_bound size (resumePartSize env) HP) as Hmod.
  assert (Hlt : part * resumePartSize env < size).
  { destruct (Z.eqb_spec (size mod resumePartSize env) 0) as [Hm|Hm]; nia. }
  split; [|exact Hlt]. apply wrap_id. unfold int_min, int_max in *. nia.
Qed.

(** X15. The error of a chunked upload is the error of its last event: the window
    that could not be opened, or the request that failed, whose response
    headers are returned with it.  Nothing happens after that failure. *)
Theorem ResumePut_error_is_last_event key value useMD5 headers reporter s b size s' h x :
  0 <= ResumeRetryCount env < int_max ->
  0 < resumePartSize env -> 0 <= size <= int_max ->
  base_headers s headers b ->
  os_Stat env (trace s) value = inl size ->
  resumeFileSizeLowerLimit env <= size ->
  ResumePut key value useMD5 headers reporter s = (s', Ok (h, Some x)) ->
  exists pre e, trace s' = trace s ++ pre ++ [e] /\ error_of_event e h x.
Proof.
  intros HN HP Hsize Hb Hstat Hlim Hrun.
  destruct (ResumePut_chunked key value useMD5 headers reporter s b size
              HN HP Hsize Hb Hstat Hlim)
    as (s'' & out' & evs & k & Hrun' & Htr & _ & _ & _ & _ & _ & Herr).
  rewrite Hrun in Hrun'. injection Hrun' as <- <-.
  destruct (Herr h x eq_refl) as (pre & e & -> & He).
  exists (EvStat value (inl size) :: pre), e. split; [exact Htr|exact He].
Qed.

(** ** More about the listing calls *)

Lemma all_events_ret {A} Q (a : A) : all_events Q (ret a).
Proof.
  intros s s' out H. injection H as <- <-. exists []. rewrite app_nil_r.
  split; [reflexivity|constructor].
Qed.

Section TraversalInvariant.

Variables (key order : string) (recursive : bool).
Variable Q : Event -> Prop.
Variable K : string -> Prop.
Hypothesis Qpage : forall hist k iter, K k -> Q (page_event hist k iter order).
Hypothesis Qinfo : forall f, Q (EvSendInfo f).
Hypothesis Qerr : forall e, Q (EvSendErr e).
Hypothesis Kstep :
  forall k name, K k -> recursive = true -> K (path_Join [k; name] +:+ "/").

Lemma entries_loop_inv rec k :
  K k -> (forall k', K k' -> all_events Q (rec k')) ->
  forall infos, all_events Q (entries_loop rec key recursive k infos).
Proof.
  intros Hk Hrec. induction infos as [|f infos IH]; [apply all_events_ret|].
  intros s s' out Hrun. cbn [entries_loop] in Hrun.
  destruct (Replace1 (path_Join [k; fi_Name f]) key "") as [|c tl].
  { injection Hrun as <- <-. exists []. rewrite app_nil_r. split; [reflexivity|constructor]. }
  set (f' := set_Name f _) in Hrun. unfold bind at 1 in Hrun.
  assert (Hsub : all_events Q
            (if recursive && String.eqb (fi_Type f') "folder"
             then rec (path_Join [k; fi_Name f] +:+ "/") else ret None)).
  { destruct recursive eqn:Hr; [|apply all_events_ret].
    destruct (String.eqb (fi_Type f') "folder"); [|apply all_events_ret].
    apply Hrec. apply Kstep; auto. }
  destruct ((if recursive && String.eqb (fi_Type f') "folder"
             then rec (path_Join [k; fi_Name f] +:+ "/") else ret None) s)
    as [s1 out1] eqn:Hrun1.
  destruct (Hsub _ _ _ Hrun1) as (evs1 & Htr1 & Hout1).
  destruct out1 as [[err|]| |].
  - injection Hrun as <- <-. exists evs1. auto.
  - unfold bind at 1, emit at 1 in Hrun.
    destruct (IH _ _ _ Hrun) as (evs2 & Htr2 & Hout2). cbn [trace] in Htr2.
    exists (evs1 ++ [EvSendInfo f'] ++ evs2).
    split; [rewrite Htr2, Htr1, <- !app_assoc; reflexivity|].
    apply Forall_app. split; [exact Hout1|].
    apply Forall_app. split; [repeat constructor; apply Qinfo|exact Hout2].
  - injection Hrun as <- <-. exists evs1. auto.
  - injection Hrun as <- <-. exists evs1. auto.
Qed.

Lemma listDir_from_inv fuel :
  forall k iter, K k -> all_events Q (listDir_from fuel key order recursive k iter).
Proof.
  induction fuel as [|fuel IH]; intros k iter Hk s s' out Hrun.
  { injection Hrun as <- <-. exists []. rewrite app_nil_r. split; [reflexivity|constructor]. }
  cbn [listDir_from] in Hrun. unfold bind at 1 in Hrun. rewrite loopList_run in Hrun.
  pose proof (Qpage (trace s) k iter Hk) as Hq.
  set (ev := page_event (trace s) k iter order) in *.
  destruct (page_result (page_fetch (trace s) k iter order)) as [[[infos niter] [e|]]| |].
  - unfold bind, emit in Hrun. cbn in Hrun. injection Hrun as <- <-.
    exists [ev; EvSendErr e]. cbn [trace]. rewrite <- app_assoc. split; [reflexivity|].
    repeat constructor; auto.
  - cbn [fst snd] in Hrun. unfold bind at 1 in Hrun.
    match type of Hrun with context [entries_loop ?rec key recursive k infos ?s1] =>
      destruct (entries_loop rec key recursive k infos s1) as [s2 out2] eqn:Hrun2 end.
    apply (entries_loop_inv _ k Hk (fun k' Hk' => IH k' "" Hk')) in Hrun2.
    destruct Hrun2 as (evs2 & Htr2 & Hout2). cbn [trace] in Htr2.
    assert (Hpre : Forall Q (ev :: evs2)) by (constructor; assumption).
    destruct out2 as [[err|]| |].
    + injection Hrun as <- <-. exists (ev :: evs2).
      split; [rewrite Htr2, <- app_assoc; reflexivity|exact Hpre].
    + destruct (String.eqb niter "").
      * injection Hrun as <- <-. exists (ev :: evs2).
        split; [rewrite Htr2, <- app_assoc; reflexivity|exact Hpre].
      * destruct (IH _ _ Hk _ _ _ Hrun) as (evs3 & Htr3 & Hout3).
        exists ((ev :: evs2) ++ evs3).
        split; [rewrite Htr3, Htr2, <- !app_assoc; reflexivity|].
        apply Forall_app. split; assumption.
    + injection Hrun as <- <-. exists (ev :: evs2).
      split; [rewrite Htr2, <- app_assoc; reflexivity|exact Hpre].
    + injection Hrun as <- <-. exists (ev :: evs2).
      split; [rewrite Htr2, <- app_assoc; reflexivity|exact Hpre].
  - injection Hrun as <- <-. exists [ev]. split; [reflexivity|].
    repeat constructor. exact Hq.
  - injection Hrun as <- <-. exists [ev]. split; [reflexivity|].
    repeat constructor. exact Hq.
Qed.

End TraversalInvariant.

Lemma GetLargeList_inv (Q : Event -> Prop) fuel (key : string) (asc recursive : bool) :
  all_events Q (listDir fuel (if HasSuffix key "/" then key else key +:+ "/")
                  (if asc then "asc" else "desc") recursive
                  (if HasSuffix key "/" then key else key +:+ "/")) ->
  Q EvCloseErr -> Q EvCloseInfo ->
  all_events Q (GetLargeList fuel key asc recursive).
Proof.
  intros Hdir Hc1 Hc2 s s' out Hrun. unfold GetLargeList in Hrun.
  unfold bind at 1 in Hrun.
  match type of Hrun with context [listDir fuel ?k ?o recursive ?k s] =>
    destruct (listDir fuel k o recursive k s) as [s1 out1] eqn:Hrun1 end.
  apply Hdir in Hrun1. destruct Hrun1 as (evs & Htr & Hout).
  destruct out1 as [r| |].
  - unfold bind, emit in Hrun. cbn in Hrun. injection Hrun as <- <-.
    exists (evs ++ [EvCloseErr; EvCloseInfo]). cbn [trace].
    split; [rewrite Htr, <- !app_assoc; reflexivity|].
    apply Forall_app. split; [exact Hout|repeat constructor; assumption].
  - injection Hrun as <- <-. exists evs. auto.
  - injection Hrun as <- <-. exists evs. auto.
Qed.

Lemma itoa_50 : itoa 50 = "50".
Proof. reflexivity. Qed.

Lemma page_event_listing hist k iter order :
  listing_event order (page_event hist k iter order).
Proof.
  unfold page_event, listing_event. split; [reflexivity|]. split; [reflexivity|].
  rewrite !rest_headers_lookup_ne by discriminate.
  unfold list_headers. rewrite itoa_50.
  destruct (String.eqb_spec iter "") as [->|Hne]; map_look.
  - repeat split; try reflexivity. rewrite lookup_empty. discriminate.
  - repeat split; try reflexivity. congruence.
Qed.

(** X16. A traversal only reads.  Whatever the listings answer, every event of
    [GetLargeList] is an entry or an error going into its channel, the close
    of a channel, or a GET without body that asks for a page of 50 entries
    in the order chosen, with a cursor that is never the empty string. *)
Theorem GetLargeList_only_page_requests fuel key asc recursive s s' out :
  GetLargeList fuel key asc recursive s = (s', out) ->
  exists evs,
    trace s' = trace s ++ evs
    /\ Forall (listing_event (if asc then "asc" else "desc")) evs.
Proof.
  intros Hrun.
  refine (GetLargeList_inv (listing_event _) fuel key asc recursive _ I I s s' out Hrun).
  unfold listDir.
  apply (listDir_from_inv _ _ recursive _ (fun _ => True)); try (intros; exact I).
  intros hist k iter _. apply page_event_listing.
Qed.

(** X17. Without [recursive] the traversal never leaves its directory: every
    request goes to the key, with the separator it lacked added. *)
Theorem GetLargeList_flat_stays_in_root fuel key asc s s' out :
  GetLargeList fuel key asc false s = (s', out) ->
  exists evs,
    trace s' = trace s ++ evs
    /\ Forall (fetches_only (if HasSuffix key "/" then key else key +:+ "/")) evs.
Proof.
  intros Hrun.
  refine (GetLargeList_inv (fetches_only _) fuel key asc false _ I I s s' out Hrun).
  unfold listDir.
  apply (listDir_from_inv _ _ false _
           (fun k => k = if HasSuffix key "/" then key else key +:+ "/")); auto.
  - intros hist k iter ->. reflexivity.
  - exact (fun _ => I).
  - exact (fun _ => I).
  - discriminate.
Qed.

Lemma length_append_slash (k : string) : String.length (k +:+ "/") = S (String.length k).
Proof.
  induction k as [|x k IH]; [reflexivity|]. rewrite append_cons. cbn [String.length].
  rewrite IH. reflexivity.
Qed.

Lemma HasSuffix_append_slash (k : string) : HasSuffix (k +:+ "/") "/" = true.
Proof.
  unfold HasSuffix. rewrite length_append_slash. cbn [String.length].
  replace (S (String.length k) - 1)%nat with (String.length k) by lia.
  rewrite string_drop_append. reflexivity.
Qed.

(** X18. A directory key is the same with and without its closing separator. *)
Theorem GetLargeList_trailing_slash fuel key asc recursive :
  HasSuffix key "/" = false ->
  GetLargeList fuel key asc recursive = GetLargeList fuel (key +:+ "/") asc recursive.
Proof.
  intros H. unfold GetLargeList. rewrite H, HasSuffix_append_slash. reflexivity.
Qed.

Lemma append_nil_r (a : string) : a +:+ "" = a.
Proof. induction a as [|x a IH]; [reflexivity|]. rewrite append_cons, IH. reflexivity. Qed.

Lemma set_Name_same f : set_Name f (fi_Name f) = f.
Proof. destruct f; reflexivity. Qed.

Lemma entries_loop_flat rec key infos :
  canonical_root key ->
  Forall (fun f => simple (fi_Name f) = true) infos ->
  forall s,
  entries_loop rec key false key infos s
  = (mkState (heap s) (trace s ++ map EvSendInfo infos), Ok None).
Proof.
  intros Hkey. induction 1 as [|f infos Hf _ IH]; intros s.
  { simpl. rewrite app_nil_r. destruct s; reflexivity. }
  pose proof (entries_loop_cons key false Hkey rec [] f infos (List.Forall_nil _) Hf) as Hc.
  cbn [dir_of andb] in Hc. rewrite append_nil_r in Hc.
  change ("" +:+ fi_Name f) with (fi_Name f) in Hc. rewrite set_Name_same in Hc.
  rewrite Hc. unfold bind at 1. unfold ret at 1. unfold bind at 1. unfold emit at 1.
  rewrite IH. cbn [heap trace map]. rewrite <- app_assoc. reflexivity.
Qed.

(** X19. A flat listing that fits one page.  When the root key is in clean form
    and the page served for it ends the listing and names its entries by
    single path elements, the traversal makes this one request and then
    emits exactly the entries of the page, in the order served and under
    the names served, and returns without error. *)
Theorem listDir_flat_page fuel key order s resp tok rest :
  canonical_root key ->
  page_fetch (trace s) key "" order = (Some resp, None) ->
  Z.quot (StatusCode resp) 100 = 2 -> BodyErr resp = None ->
  RespHeader resp !! "X-Upyun-List-Iter" = Some (tok :: rest) ->
  tok = end_of_list \/ tok = "" ->
  Forall (fun f => simple (fi_Name f) = true) (parse_lines (Body resp)) ->
  exists s',
    listDir (S fuel) key order false key s = (s', Ok None)
    /\ trace s' = trace s ++ page_event (trace s) key "" order
                          :: map EvSendInfo (parse_lines (Body resp)).
Proof.
  intros Hkey Hf Hst Hbe Hh Htok Hnames.
  assert (Hp : page_result (page_fetch (trace s) key "" order)
               = Ok (parse_lines (Body resp), "", None)).
  { rewrite (page_result_success _ _ _ _ _ Hf Hst Hbe), Hh.
    destruct Htok as [-> | ->]; reflexivity. }
  unfold listDir. cbn [listDir_from]. unfold bind at 1. rewrite loopList_run, Hp.
  cbn [fst snd]. unfold bind at 1.
  rewrite (entries_loop_flat _ key _ Hkey Hnames). cbn [heap trace].
  eexists. split; [reflexivity|]. cbn [trace]. rewrite <- app_assoc. reflexivity.
Qed.

(** X20. The cursor is handed on.  When a page comes with a cursor that is
    neither empty nor the end-of-list token, and the entries of the page are
    dealt with without error, the next event is the request for the same
    directory whose [X-List-Iter] header is that cursor, and the traversal
    goes on from its answer. *)
Theorem listDir_next_page fuel key order recursive k iter s resp tok rest :
  page_fetch (trace s) k iter order = (Some resp, None) ->
  Z.quot (StatusCode resp) 100 = 2 -> BodyErr resp = None ->
  RespHeader resp !! "X-Upyun-List-Iter" = Some (tok :: rest) ->
  tok <> end_of_list -> tok <> "" ->
  exists s1,
    loopList k iter order 50 s = (s1, Ok (parse_lines (Body resp), tok, None))
    /\ forall s2,
         entries_loop (fun k' => listDir_from (S fuel) key order recursive k' "")
                      key recursive k (parse_lines (Body resp)) s1 = (s2, Ok None) ->
         listDir_from (S (S fuel)) key order recursive k iter s
           = listDir_from (S fuel) key order recursive k tok s2
         /\ exists s3 out hd resp' err' evs,
              listDir_from (S fuel) key order recursive k tok s2 = (s3, out)
              /\ trace s3 = trace s2 ++ EvHTTP "GET" (rest_url k) hd None resp' err' :: evs
              /\ hd !! "X-List-Iter" = Some tok.
Proof.
  intros Hf Hst Hbe Hh Htok1 Htok2.
  assert (Hp : page_result (page_fetch (trace s) k iter order)
               = Ok (parse_lines (Body resp), tok, None)).
  { rewrite (page_result_success _ _ _ _ _ Hf Hst Hbe), Hh.
    apply String.eqb_neq in Htok1. rewrite Htok1. reflexivity. }
  eexists. split; [rewrite loopList_run, Hp; reflexivity|].
  intros s2 Hentries.
  split.
  - change (listDir_from (S (S fuel)) key order recursive k iter s)
      with ((let* (res, err) := loopList k iter order 50 in
             match err with
             | Some e => emit (EvSendErr e) ;;; ret (Some e)
             | None =>
                 let iter := snd res in
                 let* r := entries_loop (fun k' => listDir_from (S fuel) key order recursive k' "")
                             key recursive k (fst res) in
                 match r with
                 | Some e => ret (Some e)
                 | None =>
                     if String.eqb iter "" then ret None
                     else listDir_from (S fuel) key order recursive k iter
                 end
             end) s).
    unfold bind at 1. rewrite loopList_run, Hp. cbn [fst snd].
    unfold bind at 1. rewrite Hentries.
    apply String.eqb_neq in Htok2. rewrite Htok2. reflexivity.
  - destruct (listDir_from (S fuel) key order recursive k tok s2) as [s3 out] eqn:Hrun.
    pose proof Hrun as Hrun'.
    cbn [listDir_from] in Hrun'. unfold bind at 1 in Hrun'. rewrite loopList_run in Hrun'.
    assert (Htr : exists evs, trace s3 = (trace s2 ++ [page_event (trace s2) k tok order]) ++ evs).
    { destruct (page_result (page_fetch (trace s2) k tok order)) as [[[infos niter] [e|]]| |].
      - unfold bind, emit in Hrun'. cbn in Hrun'. injection Hrun' as <- _.
        eexists. reflexivity.
      - cbn [fst snd] in Hrun'. unfold bind at 1 in Hrun'.
        match type of Hrun' with context [entries_loop ?rec key recursive k infos ?s1] =>
          destruct (entries_loop rec key recursive k infos s1) as [s4 out4] eqn:Hrun4 end.
        apply (entries_loop_inv key recursive (fun _ => True) (fun _ => True)
                 (fun _ => I) (fun _ _ _ _ => I) _ k I) in Hrun4.
        2:{ intros k' _. apply (listDir_from_inv key order recursive (fun _ => True)
                                  (fun _ => True)); auto. }
        destruct Hrun4 as (evs4 & Htr4 & _). cbn [trace] in Htr4.
        destruct out4 as [[e|]| |]; try (injection Hrun' as <- _; eexists; exact Htr4).
        destruct (String.eqb niter "").
        + injection Hrun' as <- _. eexists. exact Htr4.
        + apply (listDir_from_inv key order recursive (fun _ => True) (fun _ => True)) in Hrun';
            auto.
          destruct Hrun' as (evs5 & Htr5 & _). exists (evs4 ++ evs5).
          rewrite Htr5, Htr4, <- !app_assoc. reflexivity.
      - injection Hrun' as <- _. exists []. rewrite app_nil_r. reflexivity.
      - injection Hrun' as <- _. exists []. rewrite app_nil_r. reflexivity. }
    destruct Htr as (evs & Htr).
    eexists s3, out, _, _, _, evs. split; [reflexivity|].
    split; [rewrite Htr, <- app_assoc; reflexivity|].
    rewrite rest_headers_lookup_ne by discriminate. unfold list_headers.
    apply String.eqb_neq in Htok2. rewrite Htok2. apply lookup_insert_eq.
Qed.

(** ** Decimal numbers: [strconv] reads what [fmt] and [strconv] print *)

Lemma digit_of_char d : (d < 10)%N -> digit_of (pretty_N_char d) = Some (Z.of_N d).
Proof.
  intros H.
  assert (d = 0 \/ d = 1 \/ d = 2 \/ d = 3 \/ d = 4 \/ d = 5 \/ d = 6 \/ d = 7
          \/ d = 8 \/ d = 9)%N as Hd by lia.
  repeat (destruct Hd as [-> | Hd]; [reflexivity|]). subst d. reflexivity.
Qed.

Lemma parse_digits_go x :
  exists k, 0 <= k /\ forall s acc,
    parse_digits acc (pretty_N_go x s) = parse_digits (acc * 10 ^ k + Z.of_N x) s.
Proof.
  induction (N.lt_wf_0 x) as [x _ IH].
  destruct (N.eq_dec x 0%N) as [->|Hx].
  { exists 0. split; [lia|]. intros s acc. rewrite pretty_N_go_0. f_equal. lia. }
  destruct (IH (x `div` 10)%N) as (k & Hk & Hgo).
  { apply N.div_lt; lia. }
  exists (k + 1). split; [lia|]. intros s acc.
  rewrite pretty_N_go_step by lia. rewrite Hgo. cbn [parse_digits].
  rewrite digit_of_char by (apply N.mod_lt; lia).
  f_equal. rewrite Z.pow_add_r by lia.
  pose proof (N.div_mod x 10 ltac:(lia)) as Hdm.
  rewrite N2Z.inj_div, N2Z.inj_mod.
  pose proof (Z.div_mod (Z.of_N x) 10 ltac:(lia)) as Hz.
  change (Z.of_N 10) with 10. lia.
Qed.

Lemma parse_digits_pretty p :
  parse_digits 0 (pretty_N_go (N.pos p) "") = Some (Z.pos p)
  /\ exists c rest, pretty_N_go (N.pos p) "" = String c rest /\ digit_of c <> None.
Proof.
  destruct (parse_digits_go (N.pos p)) as (k & _ & Hgo).
  assert (Hp : parse_digits 0 (pretty_N_go (N.pos p) "") = Some (Z.pos p)).
  { rewrite Hgo. cbn [parse_digits]. f_equal. }
  split; [exact Hp|].
  destruct (pretty_N_go (N.pos p) "") as [|c rest]; [discriminate|].
  exists c, rest. split; [reflexivity|]. cbn [parse_digits] in Hp.
  destruct (digit_of c); [discriminate|discriminate].
Qed.

(** What [fmt.Sprint], [strconv.Itoa] and [strconv.FormatInt] print for a
    number in the range of [int64], [strconv.ParseInt] and [strconv.Atoi]
    read back as that number. *)
Lemma parse_int_itoa fn z :
  int_min <= z <= int_max -> parse_int fn (itoa z) = (z, None).
Proof.
  intros Hz. destruct z as [|p|p].
  - reflexivity.
  - unfold itoa, pretty, pretty_Z, pretty, pretty_positive, pretty, pretty_N.
    destruct (decide (N.pos p = 0%N)) as [E|_]; [discriminate|].
    destruct (parse_digits_pretty p) as (Hp & c & rest & Hs & Hc).
    rewrite Hs in *. unfold parse_int.
    assert (Hm : Ascii.eqb c "-" = false).
    { destruct (Ascii.eqb_spec c "-"%char) as [->|]; [destruct Hc; reflexivity|reflexivity]. }
    assert (Hpl : Ascii.eqb c "+" = false).
    { destruct (Ascii.eqb_spec c "+"%char) as [->|]; [destruct Hc; reflexivity|reflexivity]. }
    rewrite Hm, Hpl. cbn [orb]. rewrite Hp.
    assert (Hle : (Z.pos p <=? int_max) = true) by lia. rewrite Hle. reflexivity.
  - unfold itoa, pretty, pretty_Z, pretty, pretty_positive, pretty, pretty_N.
    destruct (decide (N.pos p = 0%N)) as [E|_]; [discriminate|].
    destruct (parse_digits_pretty p) as (Hp & c & rest & Hs & Hc).
    rewrite Hs in *. rewrite append_cons. unfold parse_int.
    change (Ascii.eqb "-" "-") with true. rewrite orb_true_r.
    change ("" +:+ String c rest) with (String c rest). rewrite Hp.
    assert (Hle : (Z.pos p <=? 2 ^ 63) = true) by (unfold int_min in Hz; lia).
    rewrite Hle. reflexivity.
Qed.

(** ** The single-shot calls *)

Lemma doREST_nil_run method uri query value s :
  (value = None \/ String.eqb method "GET" = false) ->
  doRESTRequest method uri query None value s =
    let d := genRFC1123Date env (trace s) in
    let hd := rest_headers method uri d ∅ in
    let r := doHTTPRequest env (trace s) method (rest_url_q uri query) hd
               (rest_body method value) in
    (mkState (<[fresh (dom (heap s)) := hd]> (heap s))
             (trace s ++ [EvHTTP method (rest_url_q uri query) hd (rest_body method value)
                            (fst r) (snd r)]),
     rest_result r).
Proof.
  intros Hv. rewrite doREST_nil.
  rewrite (doREST_general method uri query _ ∅) by (auto; simpl; apply lookup_insert_eq).
  cbv zeta. cbn [heap trace]. rewrite insert_insert_eq. reflexivity.
Qed.

Lemma doREST_get_writer uri query l m v s :
  heap s !! l = Some m -> is_Writer v = true ->
  doRESTRequest "GET" uri query (Some l) (Some v) s =
    let d := genRFC1123Date env (trace s) in
    let hd := rest_headers "GET" uri d m in
    let r := doHTTPRequest env (trace s) "GET" (rest_url_q uri query) hd None in
    let s1 := mkState (<[l := hd]> (heap s))
                (trace s ++ [EvHTTP "GET" (rest_url_q uri query) hd None (fst r) (snd r)]) in
    match snd r, fst r with
    | Some e, _ => (s1, Ok ("", ∅, Some e))
    | None, None => (s1, Panic "nil pointer dereference")
    | None, Some resp =>
        if is_2xx resp then
          let c := chunkedCopy env (trace s1) v resp in
          (mkState (heap s1) (trace s1 ++ [EvChunkedCopy v (fst c) (snd c)]),
           Ok (itoa (fst c), RespHeader resp, snd c))
        else (s1, rest_result r)
    end.
Proof.
  intros Hl Hw. destruct s as [H T]. simpl in *.
  unfold doRESTRequest, or_make, bind, ret, call_date, map_get, map_set, call_http,
    call_chunkedCopy, rest_headers, rest_url_q, rest_url, rest_uri, rest_result, is_2xx.
  simpl. rewrite Hl. simpl. rewrite lookup_insert_eq. simpl. rewrite insert_insert_eq.
  assert (Hrc : (if is_Reader v && false && true then Some v else None) = None)
    by (destruct (is_Reader v); reflexivity).
  destruct (String.eqb query "");
  destruct (Contains (endpoint u) "api.upyun.com"); simpl;
    rewrite ?lookup_insert_eq, ?insert_insert_eq, ?Hrc; simpl.
  all: match goal with |- context [doHTTPRequest ?a ?b ?c ?d ?e ?f] =>
         destruct (doHTTPRequest a b c d e f) as [[resp|] [e0|]] end; simpl; try reflexivity.
  all: destruct (StatusCode resp `quot` 100 =? 2); simpl.
  all: try (destruct (BodyErr resp); [reflexivity|];
            destruct (String.length (Body resp) =? 0)%nat; reflexivity).
  all: rewrite Hw; cbn [heap trace];
    match goal with |- context [chunkedCopy ?a ?b ?c ?d] =>
      destruct (chunkedCopy a b c d) as [n ce] end; reflexivity.
Qed.

Lemma rest_result_accepted resp err :
  (exists res, rest_result (resp, err) = Ok (res, None)) <-> accepted resp err.
Proof.
  unfold accepted. split.
  - intros [[body hdr] H]. apply rest_result_ok in H as (r & E & H2 & Hb & _).
    injection E as -> ->. eauto.
  - intros (r & -> & -> & H2 & Hb). exists (Body r, RespHeader r).
    apply rest_result_ok. eauto 10.
Qed.

Lemma err_only_accepted resp err (out : outcome (option error)) :
  out = match rest_result (resp, err) with
        | Ok (_, e) => Ok e
        | Panic msg => Panic msg
        | OutOfFuel => OutOfFuel
        end ->
  (out = Ok None <-> accepted resp err).
Proof.
  intros ->. rewrite <- rest_result_accepted.
  destruct (rest_result (resp, err)) as [[res [e|]]| |]; split;
    try discriminate; try (intros [res' H]; discriminate); eauto.
Qed.

(** X21. [Mkdir] is one POST to the key, without body, that carries [mkdir] and
    [folder] set to [true] and is signed for the length 0; it returns no
    error exactly when the dispatch goes through. *)
Theorem Mkdir_request key s s' out :
  Mkdir key s = (s', out) ->
  exists hd resp err,
    trace s' = trace s ++ [EvHTTP "POST" (rest_url key) hd None resp err]
    /\ hd !! "mkdir" = Some "true" /\ hd !! "folder" = Some "true"
    /\ hd !! "Authorization"
       = Some (makeRESTAuth "POST" (rest_uri key) (genRFC1123Date env (trace s)) "0")
    /\ (out = Ok None <-> accepted resp err).
Proof.
  intros Hrun. destruct s as [H T]. unfold Mkdir in Hrun.
  rewrite (bind_Ok _ _ _ _ _ (make_map_run _)) in Hrun. cbn [heap trace] in Hrun.
  set (l := fresh (dom H)) in *.
  do 2 (erewrite bind_Ok in Hrun; [ | apply map_set_run; solve_lookup ];
        rewrite ?insert_insert_eq in Hrun).
  unfold bind at 1 in Hrun.
  rewrite (doREST_general "POST" key "" l _ None) in Hrun
    by (auto; simpl; apply lookup_insert_eq).
  cbv zeta in Hrun. cbn [heap trace] in Hrun.
  set (r := doHTTPRequest _ _ _ _ _ _) in Hrun.
  eexists _, (fst r), (snd r). split.
  { destruct (rest_result r) as [[res e]| |]; injection Hrun as <- _; reflexivity. }
  split; [rewrite rest_headers_lookup_ne by discriminate; map_look; reflexivity|].
  split; [rewrite rest_headers_lookup_ne by discriminate; map_look; reflexivity|].
  split.
  { unfold rest_headers. destruct (Contains (endpoint u) "api.upyun.com"); map_look;
      rewrite lookup_empty; reflexivity. }
  apply err_only_accepted. rewrite <- surjective_pairing.
  destruct (rest_result r) as [[res e]| |]; injection Hrun as _ <-; reflexivity.
Qed.

(** X22. [Delete] and [AsyncDelete] are the same DELETE of the key, without
    body, but for the header [X-Upyun-Async], which only [AsyncDelete] sets;
    each returns no error exactly when its dispatch goes through. *)
Theorem Delete_AsyncDelete_requests key s :
  (forall s' out, Delete key s = (s', out) ->
     exists hd resp err,
       trace s' = trace s ++ [EvHTTP "DELETE" (rest_url key) hd None resp err]
       /\ hd !! "X-Upyun-Async" = None
       /\ (out = Ok None <-> accepted resp err))
  /\
  (forall s' out, AsyncDelete key s = (s', out) ->
     exists hd resp err,
       trace s' = trace s ++ [EvHTTP "DELETE" (rest_url key) hd None resp err]
       /\ hd !! "X-Upyun-Async" = Some "true"
       /\ (out = Ok None <-> accepted resp err)).
Proof.
  split; intros s' out Hrun.
  - unfold Delete in Hrun. unfold bind at 1 in Hrun.
    rewrite (doREST_nil_run "DELETE" key "" None) in Hrun by auto.
    cbv zeta in Hrun.
    set (r := doHTTPRequest _ _ _ _ _ _) in Hrun.
    eexists _, (fst r), (snd r). split.
    { destruct (rest_result r) as [[res e]| |]; injection Hrun as <- _; reflexivity. }
    split; [rewrite rest_headers_lookup_ne by discriminate; apply lookup_empty|].
    apply err_only_accepted. rewrite <- surjective_pairing.
    destruct (rest_result r) as [[res e]| |]; injection Hrun as _ <-; reflexivity.
  - destruct s as [H T]. unfold AsyncDelete in Hrun.
    rewrite (bind_Ok _ _ _ _ _ (make_map_run _)) in Hrun. cbn [heap trace] in Hrun.
    set (l := fresh (dom H)) in *.
    erewrite bind_Ok in Hrun; [ | apply map_set_run; solve_lookup ].
    rewrite ?insert_insert_eq in Hrun.
    unfold bind at 1 in Hrun.
    rewrite (doREST_general "DELETE" key "" l _ None) in Hrun
      by (auto; simpl; apply lookup_insert_eq).
    cbv zeta in Hrun. cbn [heap trace] in Hrun.
    set (r := doHTTPRequest _ _ _ _ _ _) in Hrun.
    eexists _, (fst r), (snd r). split.
    { destruct (rest_result r) as [[res e]| |]; injection Hrun as <- _; reflexivity. }
    split; [rewrite rest_headers_lookup_ne by discriminate; map_look; reflexivity|].
    apply err_only_accepted. rewrite <- surjective_pairing.
    destruct (rest_result r) as [[res e]| |]; injection Hrun as _ <-; reflexivity.
Qed.

(** X23. [GetInfo] is one HEAD of the key, without body.  It returns the entry
    read from the response headers exactly when the dispatch goes through;
    with an error it returns no entry. *)
Theorem GetInfo_request newFileInfo_of_header key s s' out :
  GetInfo newFileInfo_of_header key s = (s', out) ->
  exists hd resp err,
    trace s' = trace s ++ [EvHTTP "HEAD" (rest_url key) hd None resp err]
    /\ (forall info, out = Ok (Some info, None) <->
          exists r, resp = Some r /\ err = None /\ is_2xx r = true /\ BodyErr r = None
                    /\ info = newFileInfo_of_header (RespHeader r))
    /\ (forall info e, out = Ok (info, Some e) -> info = None)
    /\ out <> Ok (None, None).
Proof.
  intros Hrun. unfold GetInfo in Hrun. unfold bind at 1 in Hrun.
  rewrite (doREST_nil_run "HEAD" key "" None) in Hrun by auto.
  cbv zeta in Hrun.
  set (r := doHTTPRequest _ _ _ _ _ _) in Hrun.
  eexists _, (fst r), (snd r). split.
  { destruct (rest_result r) as [[res e]| |]; [destruct e|..];
      injection Hrun as <- _; reflexivity. }
  assert (Hout : out = match rest_result r with
                       | Ok (res, Some e) => Ok (None, Some e)
                       | Ok (res, None) => Ok (Some (newFileInfo_of_header (snd res)), None)
                       | Panic msg => Panic msg
                       | OutOfFuel => OutOfFuel
                       end).
  { destruct (rest_result r) as [[res e]| |]; [destruct e|..];
      injection Hrun as _ <-; reflexivity. }
  clear Hrun. split; [|split].
  - intros info. split.
    + intros ->. destruct (rest_result r) as [[[body hdr] [e|]]| |] eqn:E; try discriminate.
      rewrite (surjective_pairing r) in E.
      apply rest_result_ok in E as (r0 & E & H2 & Hb & _ & ->).
      injection E as E1 E2. injection Hout as ->. eauto 10.
    + intros (r0 & E1 & E2 & H2 & Hb & ->).
      assert (E : rest_result r = Ok (Body r0, RespHeader r0, None)).
      { rewrite (surjective_pairing r), E1, E2. apply rest_result_ok. eauto 10. }
      rewrite Hout, E. reflexivity.
  - intros info e ->. destruct (rest_result r) as [[res [e'|]]| |]; try discriminate.
    injection Hout as -> _. reflexivity.
  - rewrite Hout. destruct (rest_result r) as [[res [e'|]]| |]; discriminate.
Qed.

(** X24. [Usage] asks for the key [/] with the query [usage] and reads the body
    of the answer as a number: the decimal form of a number in the range of
    [int64] comes back as that number, without error. *)
Theorem Usage_reads_number s resp n :
  rest_dispatch (trace s) "GET" "/" "usage" ∅ None = (Some resp, None) ->
  is_2xx resp = true -> BodyErr resp = None ->
  Body resp = itoa n -> int_min <= n <= int_max ->
  exists s' hd,
    Usage s = (s', Ok (n, None))
    /\ trace s' = trace s ++ [EvHTTP "GET" (rest_url "/" +:+ "?" +:+ escapeURI env "usage")
                                hd None (Some resp) None].
Proof.
  intros Hd H2 Hb Hbody Hn. unfold Usage. unfold bind at 1.
  rewrite (doREST_nil_run "GET" "/" "usage" None) by auto. cbv zeta.
  unfold rest_dispatch in Hd. change (rest_body "GET" None) with (@None Value) in *.
  rewrite Hd. cbn [fst snd].
  assert (E : rest_result (Some resp, None) = Ok (Body resp, RespHeader resp, None))
    by (apply rest_result_ok; eauto 10).
  rewrite E. cbn [fst snd]. unfold ret, ParseInt. rewrite Hbody, parse_int_itoa by exact Hn.
  eexists _, _. split; reflexivity.
Qed.

(** X25. [Get] into a writer copies the body of a response in the 200s into it
    and returns the number of bytes the copy reports; when the copy fails it
    returns that failure and the count 0.  The request is a GET without
    body. *)
Theorem Get_returns_bytes_written key w s resp n cerr :
  is_Writer w = true ->
  let hd := rest_headers "GET" key (genRFC1123Date env (trace s)) ∅ in
  let ev := EvHTTP "GET" (rest_url key) hd None (Some resp) None in
  doHTTPRequest env (trace s) "GET" (rest_url key) hd None = (Some resp, None) ->
  is_2xx resp = true ->
  chunkedCopy env (trace s ++ [ev]) w resp = (n, cerr) ->
  0 <= n <= int_max ->
  exists s',
    Get key (Some w) s
    = (s', Ok (match cerr with None => (n, None) | Some e => (0, Some e) end))
    /\ trace s' = trace s ++ [ev; EvChunkedCopy w n cerr].
Proof.
  intros Hw hd ev Hd H2 Hc Hn. unfold Get. unfold bind at 1.
  rewrite doREST_nil, (doREST_get_writer key "" _ ∅ w)
    by (auto; simpl; apply lookup_insert_eq).
  cbv zeta. cbn [heap trace]. change (rest_url_q key "") with (rest_url key).
  fold hd. rewrite Hd. cbn [fst snd]. fold ev. rewrite H2, Hc. cbn [fst snd].
  destruct cerr as [e|].
  - eexists. split; [reflexivity|]. cbn [trace]. rewrite <- app_assoc. reflexivity.
  - unfold ret, Atoi. rewrite parse_int_itoa by (unfold int_min, int_max in *; lia).
    eexists. split; [reflexivity|]. cbn [trace]. rewrite <- app_assoc. reflexivity.
Qed.

(** X26. [GetList] is one GET of the key, without body and without paging
    headers; it returns the entries of the body exactly when the dispatch
    goes through, whatever the headers of the response are. *)
Theorem GetList_entries key s s' out :
  GetList key s = (s', out) ->
  exists hd resp err,
    trace s' = trace s ++ [EvHTTP "GET" (rest_url key) hd None resp err]
    /\ hd !! "X-List-Limit" = None /\ hd !! "X-List-Iter" = None
    /\ forall infos, out = Ok (infos, None) <->
         exists r, resp = Some r /\ err = None /\ is_2xx r = true /\ BodyErr r = None
                   /\ infos = parse_lines (Body r).
Proof.
  intros Hrun. unfold GetList in Hrun. unfold bind at 1 in Hrun.
  rewrite (doREST_nil_run "GET" key "" None) in Hrun by auto.
  cbv zeta in Hrun.
  set (r := doHTTPRequest _ _ _ _ _ _) in Hrun.
  eexists _, (fst r), (snd r). split.
  { destruct (rest_result r) as [[res e]| |]; [destruct e|..];
      injection Hrun as <- _; reflexivity. }
  split; [rewrite rest_headers_lookup_ne by discriminate; apply lookup_empty|].
  split; [rewrite rest_headers_lookup_ne by discriminate; apply lookup_empty|].
  assert (Hout : out = match rest_result r with
                       | Ok (res, Some e) => Ok ([], Some e)
                       | Ok (res, None) => Ok (parse_lines (fst res), None)
                       | Panic msg => Panic msg
                       | OutOfFuel => OutOfFuel
                       end).
  { destruct (rest_result r) as [[res e]| |]; [destruct e|..];
      injection Hrun as _ <-; reflexivity. }
  clear Hrun. intros infos. split.
  - intros ->. destruct (rest_result r) as [[[body hdr] [e|]]| |] eqn:E; try discriminate.
    rewrite (surjective_pairing r) in E.
    apply rest_result_ok in E as (r0 & E & H2 & Hb & -> & _).
    injection E as E1 E2. injection Hout as ->. eauto 10.
  - intros (r0 & E1 & E2 & H2 & Hb & ->).
    assert (E : rest_result r = Ok (Body r0, RespHeader r0, None)).
    { rewrite (surjective_pairing r), E1, E2. apply rest_result_ok. eauto 10. }
    rewrite Hout, E. reflexivity.
Qed.

Lemma Split_no_byte sep c s :
  has_byte sep c = false -> Split sep (c +:+ String sep s) = c :: Split sep s.
Proof.
  induction c as [|x c IH]; intros H.
  - change ("" +:+ String sep s) with (String sep s). cbn [Split].
    rewrite Ascii.eqb_refl. reflexivity.
  - simpl in H. apply orb_false_iff in H as [Hx Hc].
    rewrite append_cons. cbn [Split]. rewrite Hx, (IH Hc). reflexivity.
Qed.

Lemma Split_one sep c : has_byte sep c = false -> Split sep c = [c].
Proof.
  induction c as [|x c IH]; intros H; [reflexivity|].
  simpl in H. apply orb_false_iff in H as [Hx Hc].
  cbn [Split]. rewrite Hx, (IH Hc). reflexivity.
Qed.

Lemma Split_Join x lines :
  Forall (fun l => has_byte newline l = false) (x :: lines) ->
  Split newline (Join (x :: lines) (String newline "")) = x :: lines.
Proof.
  revert x. induction lines as [|y lines IH]; intros x H.
  - apply Split_one. inversion H; assumption.
  - inversion H as [|? ? Hx Hrest]; subst.
    change (Join (x :: y :: lines) (String newline ""))
      with (x +:+ String newline "" +:+ Join (y :: lines) (String newline "")).
    change (String newline "" +:+ Join (y :: lines) (String newline ""))
      with (String newline (Join (y :: lines) (String newline ""))).
    rewrite Split_no_byte by exact Hx. rewrite IH by exact Hrest. reflexivity.
Qed.

(** X27. The entries of a listing are its lines.  A body made of lines joined by
    newlines gives one entry for each line that is not empty, in order: a
    closing newline and blank lines give none. *)
Theorem parse_lines_join lines :
  Forall (fun l => has_byte newline l = false) lines ->
  parse_lines (Join lines (String newline ""))
  = map (newFileInfo env) (filter (fun v => negb (String.length v =? 0)%nat) lines).
Proof.
  intros H. unfold parse_lines. destruct lines as [|x lines]; [reflexivity|].
  rewrite Split_Join by exact H. reflexivity.
Qed.

(** ** More about [Purge] *)

(** X28. [Purge] judges by the response alone.  Whenever the dispatch gives a
    response whose body can be read, the error of the dispatch is dropped:
    a status in the 200s never gives an error, and a body that is not the
    expected JSON then gives the empty answer; any other status gives the
    body as the error, be it empty.  There is one request. *)
Theorem Purge_judges_by_response urls s resp err :
  purge_dispatch (trace s) urls = (Some resp, err) ->
  BodyErr resp = None ->
  exists s' answer e,
    Purge urls s = (s', Ok (answer, e))
    /\ trace s' = trace s ++ [EvHTTP "POST" purge_url
                     (purge_headers (genRFC1123Date env (trace s))
                                    (Join urls (String newline "")))
                     (Some (VStringReader (form_Encode env (Join urls (String newline "")))))
                     (Some resp) err]
    /\ (is_2xx resp = true ->
        e = None /\ (json_Unmarshal env (Body resp) = None -> answer = ""))
    /\ (is_2xx resp = false -> answer = "" /\ e = Some (errors_New (Body resp))).
Proof.
  intros Hd Hb. destruct s as [H T]. unfold purge_dispatch in Hd. cbn [trace] in *.
  unfold Purge. unfold bind at 1. unfold call_date at 1. cbn [trace].
  rewrite (bind_Ok _ _ _ _ _ (make_map_run _)). cbn [heap trace].
  do 3 set_step.
  unfold bind at 1. unfold call_http at 1. cbn [heap trace].
  rewrite lookup_insert_eq. cbn [default from_option]. unfold id.
  fold (purge_headers (genRFC1123Date env T) (Join urls (String newline ""))).
  fold purge_url. rewrite Hd. cbn [fst snd]. rewrite Hb.
  unfold is_2xx. destruct (StatusCode resp `quot` 100 =? 2).
  - destruct (json_Unmarshal env (Body resp)) as [result|].
    + eexists _, _, _. split; [reflexivity|]. split; [reflexivity|].
      split; [|discriminate]. intros _. split; [reflexivity|discriminate].
    + eexists _, _, _. split; [reflexivity|]. split; [reflexivity|].
      split; [|discriminate]. intros _. split; reflexivity.
  - eexists _, _, _. split; [reflexivity|]. split; [reflexivity|].
    split; [discriminate|]. intros _. split; reflexivity.
Qed.

End Client.

(** ** Choosing the endpoint *)

Lemma HasPrefix_refl (s : string) : HasPrefix s s = true.
Proof. induction s as [|x s IH]; [reflexivity|]. cbn [HasPrefix]. rewrite Ascii.eqb_refl. exact IH. Qed.

Lemma Contains_refl (s : string) : Contains s s = true.
Proof. destruct s; cbn [Contains]; rewrite HasPrefix_refl; reflexivity. Qed.

Lemma Contains_append (a s t : string) : Contains s t = true -> Contains (a +:+ s) t = true.
Proof.
  intros H. induction a as [|x a IH]; [exact H|].
  rewrite append_cons. cbn [Contains]. rewrite IH. apply orb_true_r.
Qed.

Lemma endpoint_is_upyun (ed : Z) :
  Contains ("v" +:+ itoa ed +:+ ".api.upyun.com") "api.upyun.com" = true.
Proof.
  apply Contains_append, Contains_append.
  apply (Contains_append "." "api.upyun.com"). apply Contains_refl.
Qed.

Lemma rest_url_q_prefix env c uri query :
  HasPrefix (rest_url_q env c uri query) ("http://" +:+ endpoint c) = true.
Proof.
  unfold rest_url_q, rest_url. destruct (String.eqb query "").
  - rewrite <- (append_assoc "http://"). apply HasPrefix_append.
  - rewrite <- (append_assoc "http://"), append_assoc. apply HasPrefix_append.
Qed.

(** X29. A client whose endpoint [SetEndpoint] has set to a line of the service
    sends its requests to [v<ed>.api.upyun.com], signed with the
    credentials it had, and leaves the [Host] header to the caller. *)
Theorem SetEndpoint_requests env Auto Ctt c ed c' method uri query l m value s s' out :
  SetEndpoint Auto Ctt c ed = (c', None) ->
  heap s !! l = Some m ->
  (value = None \/ String.eqb method "GET" = false) ->
  doRESTRequest env c' method uri query (Some l) value s = (s', out) ->
  Auto <= ed <= Ctt
  /\ exists url hd rc resp err,
       trace s' = trace s ++ [EvHTTP method url hd rc resp err]
       /\ HasPrefix url ("http://v" +:+ itoa ed +:+ ".api.upyun.com") = true
       /\ hd !! "Host" = m !! "Host"
       /\ hd !! "Authorization"
          = Some (makeRESTAuth env c method (rest_uri env c uri)
                    (genRFC1123Date env (trace s)) (default "0" (m !! "Content-Length"))).
Proof.
  intros Hset Hl Hv Hrun. unfold SetEndpoint in Hset.
  destruct ((Auto <=? ed) && (ed <=? Ctt)) eqn:Hr; [|discriminate].
  injection Hset as <-. split; [lia|].
  rewrite (doREST_general _ _ _ _ _ _ _ _ _ Hl Hv) in Hrun. cbv zeta in Hrun.
  injection Hrun as <- _. cbn [trace]. eexists _, _, _, _, _. split; [reflexivity|].
  split; [apply (rest_url_q_prefix env (mkUpYun _ _ _ _))|].
  unfold rest_headers. cbn [endpoint]. rewrite endpoint_is_upyun.
  split; [rewrite !lookup_insert_ne by discriminate; reflexivity|].
  apply lookup_insert_eq.
Qed.

(** X30. A client pointed by [SetEndpointStr] at a host outside the service sends
    its requests to that host, and every request names [v0.api.upyun.com]
    as [Host], whatever [Host] the caller gave. *)
Theorem SetEndpointStr_host_override env c ep method uri query l m value s s' out :
  Contains ep "api.upyun.com" = false ->
  heap s !! l = Some m ->
  (value = None \/ String.eqb method "GET" = false) ->
  doRESTRequest env (fst (SetEndpointStr c ep)) method uri query (Some l) value s = (s', out) ->
  snd (SetEndpointStr c ep) = None
  /\ exists url hd rc resp err,
       trace s' = trace s ++ [EvHTTP method url hd rc resp err]
       /\ HasPrefix url ("http://" +:+ ep) = true
       /\ hd !! "Host" = Some "v0.api.upyun.com".
Proof.
  intros Hep Hl Hv Hrun. split; [reflexivity|].
  rewrite (doREST_general _ _ _ _ _ _ _ _ _ Hl Hv) in Hrun. cbv zeta in Hrun.
  injection Hrun as <- _. cbn [trace]. eexists _, _, _, _, _. split; [reflexivity|].
  split; [apply (rest_url_q_prefix env (mkUpYun _ _ _ _))|].
  unfold rest_headers. cbn [endpoint SetEndpointStr fst]. rewrite Hep.
  apply lookup_insert_eq.
Qed.

(** ** The upload claims on the example environments *)

Lemma C1_retry_policy_witness :
  (exists s' attempts h r e,
     retry_loop env_net client (retry_count env_net) 0 "k" (VFragment 7 0 4) false 0%nat ∅ state_cl
       = (s', Ok (LoopReturn ∅ (Some e)))
     /\ Z.of_nat (length attempts) = 3
     /\ Forall (net_failed env_net client "k" (VFragment 7 0 4)) attempts
     /\ last attempts
        = Some (EvHTTP "PUT" (rest_url env_net client "k") h (Some (VFragment 7 0 4)) r (Some e))
     /\ trace s' = trace state_cl ++ retry_shape 5 (VFragment 7 0 4) attempts)
  /\
  (retry_loop env_403 client (retry_count env_403) 0 "k" (VFragment 7 0 4) false 0%nat ∅ state_cl
     = (fst (Put env_403 client "k" (VFragment 7 0 4) false (Some 0%nat) state_cl),
        Ok (LoopReturn ∅ (Some (errors_New "forbidden"))))
   /\ exists ev,
        is_http ev = true
        /\ trace (fst (Put env_403 client "k" (VFragment 7 0 4) false (Some 0%nat) state_cl))
           = trace state_cl ++ [ev]).
Proof.
  split.
  - destruct (C1_retry_policy env_net client "k" 7 0 4 false 0%nat state_cl
                {[ "Content-Length" := "4" ]} ∅) as [H _].
    + vm_compute. split; congruence.
    + reflexivity.
    + exists "4". reflexivity.
    + apply H. intros hist meth url hd body. eexists _, _. split; reflexivity.
  - destruct (C1_retry_policy env_403 client "k" 7 0 4 false 0%nat state_cl
                {[ "Content-Length" := "4" ]} ∅) as [_ H].
    + vm_compute. split; congruence.
    + reflexivity.
    + exists "4". reflexivity.
    + apply H; [|reflexivity]. vm_compute. reflexivity.
Defined.

Lemma C2_part_count_witness :
  exists evs,
    trace (fst (ResumePut env_ok client "k" 7 false (Some 0%nat) true state0))
      = trace state0 ++ evs
    /\ sent_parts evs = map itoa (seqZ 0 3)
    /\ Z.of_nat (length (sent_parts evs)) = 3.
Proof.
  destruct (C2_part_count env_ok client "k" 7 false (Some 0%nat) true state0 base0 10)
    as [_ H].
  - vm_compute. split; congruence.
  - reflexivity.
  - vm_compute. split; congruence.
  - reflexivity.
  - reflexivity.
  - vm_compute. congruence.
  - apply (H _ (RespHeader ok_response)). vm_compute. reflexivity.
Defined.


Lemma C4_session_token_witness :
  exists evs,
    trace (fst (ResumePut env_ok client "k" 7 false None false state0)) = trace state0 ++ evs
    /\ (Forall (fun e => ~ later_request e) evs
        \/ exists pre e0 post h0 resp0,
             evs = pre ++ e0 :: post
             /\ Forall (fun e => ~ later_request e) pre
             /\ http_headers e0 = Some h0
             /\ h0 !! "X-Upyun-Part-Id" = Some (itoa 0)
             /\ succeeded e0 = Some resp0
             /\ Forall (carries_token resp0) post).
Proof.
  eapply (C4_session_token env_ok client "k" 7 false None false state0 ∅ 10).
  - vm_compute. split; congruence.
  - reflexivity.
  - vm_compute. split; congruence.
  - reflexivity.
  - reflexivity.
  - vm_compute. congruence.
  - apply surjective_pairing.
Defined.



(** ** The listing and purge claims on the example environments *)

Lemma C6_first_error_and_close_witness :
  exists evs,
    trace (fst (GetLargeList env_tree_fail client 5 "/a" true true state0)) = trace state0 ++ evs
    /\ exists body r, evs = body ++ [EvCloseErr; EvCloseInfo] /\ traversal_events r body.
Proof.
  assert (Hrun : GetLargeList env_tree_fail client 5 "/a" true true state0
                 = (fst (GetLargeList env_tree_fail client 5 "/a" true true state0), Ok tt))
    by (vm_compute; reflexivity).
  exact (C6_first_error_and_close env_tree_fail client 5 "/a" true true state0 _ _ Hrun).
Defined.

Lemma C7_sentinel_cursor_witness :
  exists s1,
    loopList env_tree client "/a/" "page2" "asc" 50 state0
      = (s1, Ok (parse_lines env_tree ("y|file" +:+ nl), "", None))
    /\ trace s1 = trace state0 ++ [page_event env_tree client (trace state0) "/a/" "page2" "asc"]
    /\ listDir_from env_tree client 3 "/a/" "asc" true "/a/" "page2" state0
       = entries_loop (fun k' => listDir_from env_tree client 2 "/a/" "asc" true k' "")
                      "/a/" true "/a/" (parse_lines env_tree ("y|file" +:+ nl)) s1.
Proof.
  eapply (C7_sentinel_cursor env_tree client 2 "/a/" "asc" true "/a/" "page2" state0
            (listing_response ("y|file" +:+ nl) end_of_list) end_of_list []).
  - reflexivity.
  - reflexivity.
  - reflexivity.
  - reflexivity.
  - left. reflexivity.
Defined.

Lemma C9_missing_cursor_witness :
  exists s',
    listDir_from env_ok client 3 "/a/" "asc" true "/a/" "" state0 = (s', Ok None)
    /\ trace s' = trace state0 ++ [page_event env_ok client (trace state0) "/a/" "" "asc"].
Proof.
  eapply (C9_missing_cursor env_ok client 2 "/a/" "asc" true "/a/" "" state0 ok_response).
  - reflexivity.
  - reflexivity.
  - reflexivity.
  - reflexivity.
Defined.

Lemma env_tree_served_names : served_names_simple env_tree.
Proof.
  intros hist meth url hd body resp. cbn [doHTTPRequest env_tree example_env]. unfold http_tree.
  destruct (String.eqb url _); [destruct (hd !! "X-List-Iter")|];
    intros H; injection H as <-; vm_compute; repeat constructor.
Qed.

Lemma canonical_root_a : canonical_root "/a/".
Proof.
  exists true, ["a"]. split; [repeat constructor|]. split; [reflexivity|left; reflexivity].
Qed.



Lemma C10_purge_nil_response_witness :
  exists s',
    Purge env_down client ["http://example.com/a.png"] state0
      = (s', Panic "nil pointer dereference")
    /\ trace s' =
       trace state0 ++
       [EvHTTP "POST" purge_url
          (purge_headers env_down client (genRFC1123Date env_down (trace state0))
             (Join ["http://example.com/a.png"] (String newline "")))
          (Some (VStringReader
                   (form_Encode env_down (Join ["http://example.com/a.png"] (String newline "")))))
          None (Some (mkError "connection refused" true))].
Proof.
  eapply (C10_purge_nil_response env_down client ["http://example.com/a.png"] state0).
  reflexivity.
Defined.

(** ** The further properties on the example environments *)

Lemma doRESTRequest_succeeds_iff_witness :
  snd (doRESTRequest env_ok client "DELETE" "/k" "" (Some 0%nat) None state0)
    = Ok (Body ok_response, RespHeader ok_response, None)
  <-> exists resp,
        rest_dispatch env_ok client (trace state0) "DELETE" "/k" "" base0 None
          = (Some resp, None)
        /\ is_2xx resp = true /\ BodyErr resp = None
        /\ Body ok_response = Body resp /\ RespHeader ok_response = RespHeader resp.
Proof.
  apply (doRESTRequest_succeeds_iff env_ok client "DELETE" "/k" "" 0%nat base0 None state0
           (fst (doRESTRequest env_ok client "DELETE" "/k" "" (Some 0%nat) None state0))).
  - reflexivity.
  - left. reflexivity.
  - apply surjective_pairing.
Defined.


Lemma doRESTRequest_no_body_for_GET_HEAD_witness :
  exists url h resp err rest,
    trace (fst (doRESTRequest env_ok client "HEAD" "/k" "" None
                  (Some (VStringReader "content")) state0))
      = trace state0 ++ EvHTTP "HEAD" url h None resp err :: rest
    /\ Forall (fun e => is_http e = false) rest.
Proof.
  apply (doRESTRequest_no_body_for_GET_HEAD env_ok client "HEAD" "/k" "" None
           (Some (VStringReader "content")) state0 _
           (snd (doRESTRequest env_ok client "HEAD" "/k" "" None
                   (Some (VStringReader "content")) state0))).
  - reflexivity.
  - apply surjective_pairing.
Defined.

Lemma doRESTRequest_writes_caller_headers_witness :
  exists hd,
    heap (fst (doRESTRequest env_ok client "POST" "/k" "" (Some 0%nat) None state0))
      = <[0%nat := hd]> (heap state0)
    /\ hd !! "Date" = Some (genRFC1123Date env_ok (trace state0))
    /\ hd !! "Authorization"
       = Some (makeRESTAuth env_ok client "POST" (rest_uri env_ok client "/k")
                 (genRFC1123Date env_ok (trace state0))
                 (default "0" (base0 !! "Content-Length")))
    /\ (forall k, k <> "Date" -> k <> "Authorization" -> k <> "Host" -> hd !! k = base0 !! k)
    /\ exists url rc resp err,
         trace (fst (doRESTRequest env_ok client "POST" "/k" "" (Some 0%nat) None state0))
           = trace state0 ++ [EvHTTP "POST" url hd rc resp err].
Proof.
  apply (doRESTRequest_writes_caller_headers env_ok client "POST" "/k" "" 0%nat base0 None
           state0 _
           (snd (doRESTRequest env_ok client "POST" "/k" "" (Some 0%nat) None state0))).
  - reflexivity.
  - left. reflexivity.
  - apply surjective_pairing.
Defined.

Lemma doRESTRequest_leading_slash_witness :
  doRESTRequest env_ok client "GET" "k" "" None None
  = doRESTRequest env_ok client "GET" ("/" +:+ "k") "" None None.
Proof.
  apply (doRESTRequest_leading_slash env_ok client "GET" "k" "" None None). reflexivity.
Defined.

Lemma Put_file_is_measured_witness :
  exists hd resp err,
    trace (fst (Put env_ok client "k" (VFile 7) false (Some 0%nat) state0))
      = trace state0 ++ [EvStat 7 (inl 10);
                         EvHTTP "PUT" (rest_url env_ok client "k") hd (Some (VFile 7)) resp err]
    /\ heap (fst (Put env_ok client "k" (VFile 7) false (Some 0%nat) state0)) !! 0%nat
       = Some hd
    /\ hd !! "Content-Length" = Some (itoa 10)
    /\ hd !! "Authorization"
       = Some (makeRESTAuth env_ok client "PUT" (rest_uri env_ok client "k")
                 (genRFC1123Date env_ok (trace state0 ++ [EvStat 7 (inl 10)])) (itoa 10))
    /\ snd (Put env_ok client "k" (VFile 7) false (Some 0%nat) state0)
       = put_result (resp, err).
Proof.
  apply (Put_file_is_measured env_ok client "k" 7 false 0%nat base0 state0 _ _).
  - reflexivity.
  - reflexivity.
  - left. reflexivity.
  - apply surjective_pairing.
Defined.

Lemma Put_reader_is_buffered_witness :
  exists hd resp err,
    trace (fst (Put env_small client "k" (VStringReader "hello") true (Some 0%nat) state0))
      = trace state0 ++ [EvRead (VStringReader "hello") "hello" None;
                         EvHTTP "PUT" (rest_url env_small client "k") hd
                           (Some (VBuffer "hello")) resp err]
    /\ hd !! "Content-Length" = Some (itoa 5)
    /\ hd !! "Content-MD5" = base0 !! "Content-MD5"
    /\ snd (Put env_small client "k" (VStringReader "hello") true (Some 0%nat) state0)
       = put_result (resp, err).
Proof.
  apply (Put_reader_is_buffered env_small client "k" (VStringReader "hello") true 0%nat
           base0 state0 _ _).
  - reflexivity.
  - reflexivity.
  - intros fd. discriminate.
  - apply surjective_pairing.
Defined.

Lemma Put_useMD5_only_files_witness :
  Put env_small client "k" (VStringReader "hello") true None state0
  = Put env_small client "k" (VStringReader "hello") false None state0.
Proof.
  apply (Put_useMD5_only_files env_small client "k" (VStringReader "hello") None state0).
  intros fd. discriminate.
Defined.


Lemma Put_supplied_headers_untouched_witness :
  exists hd resp err,
    trace (fst (Put env_small client "k" (VFile 7) true (Some 0%nat) state_full))
      = trace state_full ++ [EvHTTP "PUT" (rest_url env_small client "k") hd
                               (rest_body "PUT" (Some (VFile 7))) resp err]
    /\ (forall k, k <> "Date" -> k <> "Authorization" -> k <> "Host" -> hd !! k = full0 !! k)
    /\ snd (Put env_small client "k" (VFile 7) true (Some 0%nat) state_full)
       = put_result (resp, err).
Proof.
  apply (Put_supplied_headers_untouched env_small client "k" (VFile 7) true 0%nat full0
           state_full _ _).
  - reflexivity.
  - exists "4". reflexivity.
  - exists "0cc175b9". reflexivity.
  - apply surjective_pairing.
Defined.

Lemma ResumePut_stat_error_witness :
  exists s',
    ResumePut env_nofile client "k" 7 true None true state0 = (s', Ok (∅, Some no_such_file))
    /\ trace s' = trace state0 ++ [EvStat 7 (inr no_such_file)].
Proof.
  apply (ResumePut_stat_error env_nofile client "k" 7 true None true state0 no_such_file).
  reflexivity.
Defined.

Lemma ResumePut_small_file_witness :
  exists pre last,
    trace (fst (ResumePut env_small client "k" 7 true (Some 0%nat) true state0))
      = trace state0 ++ EvStat 7 (inl 5) :: pre ++ last
    /\ Forall (put_prelude 7) pre
    /\ (last = [] \/ exists e, last = [e] /\ plain_put env_small client "k" 7 base0 e)
    /\ reports (pre ++ last) = [].
Proof.
  apply (ResumePut_small_file env_small client "k" 7 true 0%nat base0 true state0 5 _
           (snd (ResumePut env_small client "k" 7 true (Some 0%nat) true state0))).
  - reflexivity.
  - reflexivity.
  - vm_compute. reflexivity.
  - apply surjective_pairing.
Defined.

Lemma ResumePut_progress_witness :
  exists evs k,
    trace (fst (ResumePut env_ok client "k" 7 false (Some 0%nat) true state0))
      = trace state0 ++ evs
    /\ 0 <= k <= maxPartID_of env_ok 10 + 1
    /\ sent_parts evs = map itoa (seqZ 0 k)
    /\ reports evs = map (fun q => (q, maxPartID_of env_ok 10)) (seqZ 0 k)
    /\ (k = maxPartID_of env_ok 10 + 1
        <-> exists h,
              snd (ResumePut env_ok client "k" 7 false (Some 0%nat) true state0)
              = Ok (h, None)).
Proof.
  apply (ResumePut_progress env_ok client "k" 7 false (Some 0%nat) true state0 base0 10 _ _).
  - vm_compute. split; congruence.
  - reflexivity.
  - vm_compute. split; congruence.
  - reflexivity.
  - reflexivity.
  - vm_compute. congruence.
  - apply surjective_pairing.
Defined.

Lemma ResumePut_part_windows_witness :
  (exists evs,
     trace (fst (ResumePut env_ok client "k" 7 true None true state0))
       = trace state0 ++ EvStat 7 (inl 10) :: evs
     /\ Forall (resume_event env_ok client "k" 7 true (maxPartID_of env_ok 10) 0
                  (maxPartID_of env_ok 10 + 1)) evs)
  /\ forall part, 0 <= part <= maxPartID_of env_ok 10 ->
       wrap (part * resumePartSize env_ok) = part * resumePartSize env_ok
       /\ part * resumePartSize env_ok < 10.
Proof.
  apply (ResumePut_part_windows env_ok client "k" 7 true None true state0 ∅ 10 _
           (snd (ResumePut env_ok client "k" 7 true None true state0))).
  - vm_compute. split; congruence.
  - reflexivity.
  - vm_compute. split; congruence.
  - reflexivity.
  - reflexivity.
  - vm_compute. congruence.
  - apply surjective_pairing.
Defined.

Lemma ResumePut_error_is_last_event_witness :
  exists pre e,
    trace (fst (ResumePut env_403 client "k" 7 false (Some 0%nat) true state0))
      = trace state0 ++ pre ++ [e]
    /\ error_of_event e ∅ (errors_New "forbidden").
Proof.
  apply (ResumePut_error_is_last_event env_403 client "k" 7 false (Some 0%nat) true state0
           base0 10).
  - vm_compute. split; congruence.
  - reflexivity.
  - vm_compute. split; congruence.
  - reflexivity.
  - reflexivity.
  - vm_compute. congruence.
  - vm_compute. reflexivity.
Defined.

Lemma GetLargeList_only_page_requests_witness :
  exists evs,
    trace (fst (GetLargeList env_tree client 5 "/a" true true state0)) = trace state0 ++ evs
    /\ Forall (listing_event "asc") evs.
Proof.
  apply (GetLargeList_only_page_requests env_tree client 5 "/a" true true state0 _
           (snd (GetLargeList env_tree client 5 "/a" true true state0))).
  apply surjective_pairing.
Defined.

Lemma GetLargeList_flat_stays_in_root_witness :
  exists evs,
    trace (fst (GetLargeList env_tree client 5 "/a" false false state0)) = trace state0 ++ evs
    /\ Forall (fetches_only env_tree client "/a/") evs.
Proof.
  apply (GetLargeList_flat_stays_in_root env_tree client 5 "/a" false state0 _
           (snd (GetLargeList env_tree client 5 "/a" false false state0))).
  apply surjective_pairing.
Defined.

Lemma GetLargeList_trailing_slash_witness :
  GetLargeList env_tree client 5 "/a" true true
  = GetLargeList env_tree client 5 ("/a" +:+ "/") true true.
Proof.
  apply (GetLargeList_trailing_slash env_tree client 5 "/a" true true). reflexivity.
Defined.

Lemma listDir_flat_page_witness :
  exists s',
    listDir env_flat client 1 "/a/" "asc" false "/a/" state0 = (s', Ok None)
    /\ trace s' = trace state0 ++ page_event env_flat client (trace state0) "/a/" "" "asc"
                                  :: map EvSendInfo (parse_lines env_flat (Body flat_response)).
Proof.
  apply (listDir_flat_page env_flat client 0 "/a/" "asc" state0 flat_response
           end_of_list []).
  - exact canonical_root_a.
  - reflexivity.
  - reflexivity.
  - reflexivity.
  - reflexivity.
  - left. reflexivity.
  - vm_compute. repeat constructor.
Defined.

Lemma listDir_next_page_witness :
  exists s1,
    loopList env_tree client "/a/" "" "asc" 50 state0
      = (s1, Ok (parse_lines env_tree (Body page1), "page2", None))
    /\ forall s2,
         entries_loop (fun k' => listDir_from env_tree client 2 "/a/" "asc" false k' "")
                      "/a/" false "/a/" (parse_lines env_tree (Body page1)) s1
           = (s2, Ok None) ->
         listDir_from env_tree client 3 "/a/" "asc" false "/a/" "" state0
           = listDir_from env_tree client 2 "/a/" "asc" false "/a/" "page2" s2
         /\ exists s3 out hd resp' err' evs,
              listDir_from env_tree client 2 "/a/" "asc" false "/a/" "page2" s2 = (s3, out)
              /\ trace s3 = trace s2 ++ EvHTTP "GET" (rest_url env_tree client "/a/") hd None
                                          resp' err' :: evs
              /\ hd !! "X-List-Iter" = Some "page2".
Proof.
  apply (listDir_next_page env_tree client 1 "/a/" "asc" false "/a/" "" state0 page1
           "page2" []).
  - reflexivity.
  - reflexivity.
  - reflexivity.
  - reflexivity.
  - discriminate.
  - discriminate.
Defined.

Lemma Mkdir_request_witness :
  exists hd resp err,
    trace (fst (Mkdir env_ok client "/d" state0))
      = trace state0 ++ [EvHTTP "POST" (rest_url env_ok client "/d") hd None resp err]
    /\ hd !! "mkdir" = Some "true" /\ hd !! "folder" = Some "true"
    /\ hd !! "Authorization"
       = Some (makeRESTAuth env_ok client "POST" (rest_uri env_ok client "/d")
                 (genRFC1123Date env_ok (trace state0)) "0")
    /\ (snd (Mkdir env_ok client "/d" state0) = Ok None <-> accepted resp err).
Proof.
  apply (Mkdir_request env_ok client "/d" state0 _ _). apply surjective_pairing.
Defined.

Lemma Delete_AsyncDelete_requests_witness :
  (exists hd resp err,
     trace (fst (Delete env_403 client "/k" state0))
       = trace state0 ++ [EvHTTP "DELETE" (rest_url env_403 client "/k") hd None resp err]
     /\ hd !! "X-Upyun-Async" = None
     /\ (snd (Delete env_403 client "/k" state0) = Ok None <-> accepted resp err))
  /\
  (exists hd resp err,
     trace (fst (AsyncDelete env_403 client "/k" state0))
       = trace state0 ++ [EvHTTP "DELETE" (rest_url env_403 client "/k") hd None resp err]
     /\ hd !! "X-Upyun-Async" = Some "true"
     /\ (snd (AsyncDelete env_403 client "/k" state0) = Ok None <-> accepted resp err)).
Proof.
  destruct (Delete_AsyncDelete_requests env_403 client "/k" state0) as [H1 H2].
  split; [apply (H1 _ _)|apply (H2 _ _)]; apply surjective_pairing.
Defined.

Lemma GetInfo_request_witness :
  exists hd resp err,
    trace (fst (GetInfo env_ok client info_of_header "/k" state0))
      = trace state0 ++ [EvHTTP "HEAD" (rest_url env_ok client "/k") hd None resp err]
    /\ (forall info,
          snd (GetInfo env_ok client info_of_header "/k" state0) = Ok (Some info, None)
          <-> exists r, resp = Some r /\ err = None /\ is_2xx r = true /\ BodyErr r = None
                        /\ info = info_of_header (RespHeader r))
    /\ (forall info e,
          snd (GetInfo env_ok client info_of_header "/k" state0) = Ok (info, Some e) ->
          info = None)
    /\ snd (GetInfo env_ok client info_of_header "/k" state0) <> Ok (None, None).
Proof.
  apply (GetInfo_request env_ok client info_of_header "/k" state0 _ _).
  apply surjective_pairing.
Defined.

Lemma Usage_reads_number_witness :
  exists s' hd,
    Usage env_usage client state0 = (s', Ok (12345, None))
    /\ trace s' = trace state0
                  ++ [EvHTTP "GET" (rest_url env_usage client "/" +:+ "?"
                                    +:+ escapeURI env_usage "usage")
                        hd None (Some usage_response) None].
Proof.
  apply (Usage_reads_number env_usage client state0 usage_response 12345).
  - reflexivity.
  - reflexivity.
  - reflexivity.
  - reflexivity.
  - vm_compute. split; congruence.
Defined.

Lemma Get_returns_bytes_written_witness :
  exists s',
    Get env_get client "/k" (Some (VWriter 1)) state0 = (s', Ok (7, None))
    /\ trace s' = trace state0
                  ++ [EvHTTP "GET" (rest_url env_get client "/k")
                        (rest_headers env_get client "GET" "/k"
                           (genRFC1123Date env_get (trace state0)) ∅)
                        None (Some ok_response) None;
                      EvChunkedCopy (VWriter 1) 7 None].
Proof.
  apply (Get_returns_bytes_written env_get client "/k" (VWriter 1) state0 ok_response 7 None).
  - reflexivity.
  - reflexivity.
  - reflexivity.
  - reflexivity.
  - vm_compute. split; congruence.
Defined.

Lemma GetList_entries_witness :
  exists hd resp err,
    trace (fst (GetList env_flat client "/a/" state0))
      = trace state0 ++ [EvHTTP "GET" (rest_url env_flat client "/a/") hd None resp err]
    /\ hd !! "X-List-Limit" = None /\ hd !! "X-List-Iter" = None
    /\ forall infos,
         snd (GetList env_flat client "/a/" state0) = Ok (infos, None)
         <-> exists r, resp = Some r /\ err = None /\ is_2xx r = true /\ BodyErr r = None
                       /\ infos = parse_lines env_flat (Body r).
Proof.
  apply (GetList_entries env_flat client "/a/" state0 _ _). apply surjective_pairing.
Defined.

Lemma parse_lines_join_witness :
  parse_lines env_ok (Join ["x|file"; ""; "d|folder"; ""] (String newline ""))
  = map (newFileInfo env_ok)
      (filter (fun v => negb (String.length v =? 0)%nat) ["x|file"; ""; "d|folder"; ""]).
Proof.
  apply (parse_lines_join env_ok ["x|file"; ""; "d|folder"; ""]).
  repeat constructor.
Defined.

Lemma Purge_judges_by_response_witness :
  exists s' answer e,
    Purge env_403 client ["http://example.com/a.png"] state0 = (s', Ok (answer, e))
    /\ trace s' =
       trace state0 ++
       [EvHTTP "POST" purge_url
          (purge_headers env_403 client (genRFC1123Date env_403 (trace state0))
             (Join ["http://example.com/a.png"] (String newline "")))
          (Some (VStringReader
                   (form_Encode env_403 (Join ["http://example.com/a.png"] (String newline "")))))
          (Some forbidden) None]
    /\ (is_2xx forbidden = true ->
        e = None /\ (json_Unmarshal env_403 (Body forbidden) = None -> answer = ""))
    /\ (is_2xx forbidden = false ->
        answer = "" /\ e = Some (errors_New (Body forbidden))).
Proof.
  apply (Purge_judges_by_response env_403 client ["http://example.com/a.png"] state0
           forbidden None).
  - reflexivity.
  - reflexivity.
Defined.

Lemma SetEndpoint_requests_witness :
  0 <= 2 <= 3
  /\ exists url hd rc resp err,
       trace (fst (doRESTRequest env_ok (fst (SetEndpoint 0 3 proxy_client 2))
                     "DELETE" "/k" "" (Some 0%nat) None state0))
         = trace state0 ++ [EvHTTP "DELETE" url hd rc resp err]
       /\ HasPrefix url ("http://v" +:+ itoa 2 +:+ ".api.upyun.com") = true
       /\ hd !! "Host" = base0 !! "Host"
       /\ hd !! "Authorization"
          = Some (makeRESTAuth env_ok proxy_client "DELETE" (rest_uri env_ok proxy_client "/k")
                    (genRFC1123Date env_ok (trace state0))
                    (default "0" (base0 !! "Content-Length"))).
Proof.
  apply (SetEndpoint_requests env_ok 0 3 proxy_client 2 (fst (SetEndpoint 0 3 proxy_client 2))
           "DELETE" "/k" "" 0%nat base0 None state0 _
           (snd (doRESTRequest env_ok (fst (SetEndpoint 0 3 proxy_client 2))
                   "DELETE" "/k" "" (Some 0%nat) None state0))).
  - reflexivity.
  - reflexivity.
  - left. reflexivity.
  - apply surjective_pairing.
Defined.

Lemma SetEndpointStr_host_override_witness :
  snd (SetEndpointStr client "proxy.example.com") = None
  /\ exists url hd rc resp err,
       trace (fst (doRESTRequest env_ok (fst (SetEndpointStr client "proxy.example.com"))
                     "DELETE" "/k" "" (Some 0%nat) None state0))
         = trace state0 ++ [EvHTTP "DELETE" url hd rc resp err]
       /\ HasPrefix url ("http://" +:+ "proxy.example.com") = true
       /\ hd !! "Host" = Some "v0.api.upyun.com".
Proof.
  apply (SetEndpointStr_host_override env_ok client "proxy.example.com" "DELETE" "/k" ""
           0%nat base0 None state0 _
           (snd (doRESTRequest env_ok (fst (SetEndpointStr client "proxy.example.com"))
                   "DELETE" "/k" "" (Some 0%nat) None state0))).
  - reflexivity.
  - reflexivity.
  - left. reflexivity.
  - apply surjective_pairing.
Defined.
